(** * Bluebird user backend: notification dispatch and inactivity scheduler

    A shallow embedding of [controllers/notificationController.js],
    [scheduler.js], [controllers/employeeController.js] and
    [controllers/authController.js].

    The handlers are written in a small monad that threads the employees
    table, can raise a JavaScript exception, and records every effect that
    leaves the process (store requests, web-push sends, console lines).
    What the JavaScript host and the libraries compute (JSON, dates, string
    helpers) is taken as a parameter, the class [Host]. *)

From Stdlib Require Import ZArith Bool Lia Ascii String.
From stdpp Require Import base option list strings gmap pretty.

Local Open Scope Z_scope.

(** ** JavaScript values *)

(** Values that come out of [JSON.parse], a request body or a store cell.
    Numbers are the integer-valued ones; an object keeps its keys in order. *)
#[warnings="-register-all"]
Inductive value : Type :=
| VUndefined
| VNull
| VBool (b : bool)
| VNum (n : Z)
| VStr (s : string)
| VArr (items : list value)
| VObj (fields : list (string * value)).

(** [!!v] of JavaScript is [truthy v]. *)
Definition truthy (v : value) : bool :=
  match v with
  | VUndefined | VNull => false
  | VBool b => b
  | VNum n => negb (n =? 0)
  | VStr s => negb (bool_decide (s = EmptyString))
  | VArr _ | VObj _ => true
  end.

Definition isArray (v : value) : bool :=
  match v with VArr _ => true | _ => false end.

Fixpoint assoc (key : string) (fields : list (string * value)) : option value :=
  match fields with
  | [] => None
  | (k, v) :: rest => if bool_decide (k = key) then Some v else assoc key rest
  end.

(** [s.endpoint]: a TypeError ([None]) on [null] and [undefined], the own
    property on an object, [undefined] on every other value. *)
Definition get_endpoint (s : value) : option value :=
  match s with
  | VUndefined | VNull => None
  | VObj fields => Some (default VUndefined (assoc "endpoint" fields))
  | _ => Some VUndefined
  end.

(** [a === b] between a value read from the store and a value of the
    request: primitives compare by content, arrays and objects by identity,
    and two such values never are the same object. *)
Definition strict_eq (a b : value) : bool :=
  match a, b with
  | VUndefined, VUndefined => true
  | VNull, VNull => true
  | VBool x, VBool y => bool_decide (x = y)
  | VNum x, VNum y => x =? y
  | VStr x, VStr y => bool_decide (x = y)
  | _, _ => false
  end.

(** ** The host *)

Class Host : Type := {
  (** [JSON.parse]; [None] is the SyntaxError *)
  JSON_parse : string -> option value;
  JSON_stringify : value -> string;
  (** the time value of [new Date(s)], [None] for an invalid date *)
  Date_parse : string -> option Z;
  (** [d.toISOString()] of the date with the given time value *)
  toISOString : Z -> string;
  (** [s.trim()] *)
  String_trim : string -> string;
  (** [s.split(/\r?\n|,/)] *)
  String_split : string -> list string;
  (** [String(v)] *)
  ToString : value -> string;
  (** [d.toLocaleTimeString()] *)
  toLocaleTimeString : Z -> string;
}.

(** ** Rows, filters, payloads, effects *)

(** A row of the [employees] table: column name to cell. *)
Abbreviation row := (gmap string value).

(** [emp.col]; a column the row does not carry reads as [undefined]. *)
Definition field (r : row) (col : string) : value :=
  default VUndefined (r !! col).

(** The filters the handlers put on a query. *)
Inductive filter : Type :=
| All
| Eq (col : string) (v : value)
| Neq (col : string) (v : value).

(** SQL [=] between a cell and a literal: never true on NULL. *)
Definition sql_eq (cell lit : value) : bool :=
  match cell, lit with
  | VBool x, VBool y => bool_decide (x = y)
  | VNum x, VNum y => x =? y
  | VStr x, VStr y => bool_decide (x = y)
  | _, _ => false
  end.

(** SQL [<>]: never true on NULL either, so [.neq] drops the rows whose
    cell is NULL. *)
Definition sql_neq (cell lit : value) : bool :=
  match cell with
  | VUndefined | VNull => false
  | _ => negb (sql_eq cell lit)
  end.

Definition matches (f : filter) (r : row) : bool :=
  match f with
  | All => true
  | Eq col v => sql_eq (field r col) v
  | Neq col v => sql_neq (field r col) v
  end.

Record payload : Type := {
  title : string;
  message : string;
  url : string;
  icon : option string;
  image : option string;
}.

Inductive exn : Type :=
| StoreFailure
| TypeError
| PushFailure (statusCode : option Z).

Inductive logline : Type :=
| SubscriptionError (e : exn)
| SubscriptionExpired (empid : value)
| PushError (e : exn)
| NotificationSent (empid : value)
| SendFailed (empid : value) (e : exn)
| BroadcastPushFailed (e : exn)
| BroadcastSent (n : nat)
| BroadcastError (e : exn)
| RunningInactivityCheck
| InactivityCheckComplete (count : nat)
| SchedulerError (e : exn)
| StarUpdateError
| EmptyUpdatePayload
| UpdateEmployeeError (e : exn)
| StarUpdateFailed (e : exn)
| LoginError (e : exn).

(** What leaves the process. *)
Inductive effect : Type :=
| StoreSelect (columns : string) (f : filter)
| StoreUpdate (patch : row) (f : filter)
| WebPush (subscription : value) (p : payload)
| Console (line : logline).

(** ** The world *)

Record world : Type := {
  (** the [employees] table *)
  employees : list row;
  (** store requests answered so far *)
  served : nat;
  (** [outage n]: the store answers its [n]-th request with an error *)
  outage : nat -> bool;
  (** what the push service answers for a subscription; [None] is delivery *)
  transport : value -> option exn;
  (** the time value of [new Date()] *)
  clock : Z;
}.

Definition answered (table : list row) (w : world) : world :=
  {| employees := table; served := S (served w); outage := outage w;
     transport := transport w; clock := clock w |}.

(** ** The monad: state, exception, trace *)

Inductive completion (A : Type) : Type :=
| Normal (a : A)
| Throw (e : exn).
Arguments Normal {A} a.
Arguments Throw {A} e.

Definition M (A : Type) : Type := world -> completion A * world * list effect.

Definition ret {A} (a : A) : M A := fun w => (Normal a, w, []).

Definition bind {A B} (m : M A) (k : A -> M B) : M B :=
  fun w =>
    match m w with
    | (Normal a, w1, t1) => let '(r, w2, t2) := k a w1 in (r, w2, t1 ++ t2)
    | (Throw e, w1, t1) => (Throw e, w1, t1)
    end.

Definition throw {A} (e : exn) : M A := fun w => (Throw e, w, []).

(** [try { m } catch (err) { h err }] *)
Definition try_catch {A} (m : M A) (h : exn -> M A) : M A :=
  fun w =>
    match m w with
    | (Normal a, w1, t1) => (Normal a, w1, t1)
    | (Throw e, w1, t1) => let '(r, w2, t2) := h e w1 in (r, w2, t1 ++ t2)
    end.

(** A call to an async function whose promise nobody awaits: the call runs,
    and a rejection never reaches the caller. The model runs the call to
    its end at the call site. *)
Definition detached (m : M unit) : M unit := try_catch m (fun _ => ret tt).

Definition emit (e : effect) : M unit := fun w => (Normal tt, w, [e]).

Definition console (l : logline) : M unit := emit (Console l).

Declare Scope js_scope.
Delimit Scope js_scope with js.
Notation "'do' x <- m ; k" := (bind m (fun x => k))
  (at level 10, x name, m at level 100, k at level 200) : js_scope.
Notation "'run' m ; k" := (bind m (fun _ => k))
  (at level 10, m at level 100, k at level 200) : js_scope.
Local Open Scope js_scope.

(** [for (const x of xs) await f x], and [Promise.all(xs.map(f))] where
    every [f x] issues its request when it is called. *)
Fixpoint forEach {A} (f : A -> M unit) (xs : list A) : M unit :=
  match xs with
  | [] => ret tt
  | x :: rest => run f x; forEach f rest
  end.

(** ** The store (supabase) and the push service (web-push) *)

(** [{ data, error }] *)
Inductive reply (A : Type) : Type :=
| Data (a : A)
| Error (e : exn).
Arguments Data {A} a.
Arguments Error {A} e.

(** [await supabase.from('employees').select(columns).<filter>]. The rows
    come back whole; the handlers read the selected columns only. *)
Definition store_select (columns : string) (f : filter) : M (reply (list row)) :=
  fun w =>
    (Normal (if outage w (served w) then Error StoreFailure
             else Data (List.filter (matches f) (employees w))),
     answered (employees w) w,
     [StoreSelect columns f]).

(** [.single()]: an error unless exactly one row matches. *)
Definition single (r : reply (list row)) : reply row :=
  match r with
  | Error e => Error e
  | Data [x] => Data x
  | Data _ => Error StoreFailure
  end.

(** [obj = { ...row, ...patch }] *)
Definition assign (patch r : row) : row := patch ∪ r.

(** [await supabase.from('employees').update(patch).<filter>]; the reply
    carries the rows as updated (what [.select()] asks for). *)
Definition store_update (patch : row) (f : filter) : M (reply (list row)) :=
  fun w =>
    if outage w (served w)
    then (Normal (Error StoreFailure), answered (employees w) w, [StoreUpdate patch f])
    else
      let table := List.map (fun r => if matches f r then assign patch r else r) (employees w) in
      (Normal (Data (List.map (assign patch) (List.filter (matches f) (employees w)))),
       answered table w,
       [StoreUpdate patch f]).

(** [webpush.sendNotification(sub, JSON.stringify(payload))]: the request is
    issued, the promise resolves or rejects. *)
Definition webpush_sendNotification (sub : value) (p : payload) : M unit :=
  fun w =>
    (match transport w sub with None => Normal tt | Some e => Throw e end,
     w, [WebPush sub p]).

(** [new Date()] *)
Definition Date_now : M Z := fun w => (Normal (clock w), w, []).

(** ** controllers/notificationController.js *)

Section Handlers.
Context `{Host}.

Definition MainLogo : string := "/Logo/MainLogo.png".

(** [if (!payload.icon) payload.icon = ...; if (!payload.image) ...] *)
Definition missing (o : option string) : bool :=
  match o with
  | None => true
  | Some s => bool_decide (s = EmptyString)
  end.

Definition with_defaults (p : payload) : payload :=
  {| title := title p; message := message p; url := url p;
     icon := if missing (icon p) then Some MainLogo else icon p;
     image := if missing (image p) then Some MainLogo else image p |}.

Record subscribe_request : Type := {
  req_subscription : value;
  req_empid : value;
}.

Record response : Type := {
  status : Z;
  body : string;
}.

(** [res.status(201).json({ success: true, message: "Subscribed successfully" })] *)
Definition subscribed : response :=
  {| status := 201; body := "Subscribed successfully" |}.

(** [res.status(500).json({ error: "Failed to save subscription" })] *)
Definition subscription_failed : response :=
  {| status := 500; body := "Failed to save subscription" |}.

(** [subscriptions.some(s => s.endpoint === endpoint)] on the items of an
    array; [None] is the TypeError of reading [endpoint] off [null]. The
    search stops at the first match. *)
Fixpoint some_endpoint (items : list value) (endpoint : value) : option bool :=
  match items with
  | [] => Some false
  | s :: rest =>
      match get_endpoint s with
      | None => None
      | Some e => if strict_eq e endpoint then Some true else some_endpoint rest endpoint
      end
  end.

(** The [subscriptions] variable of [subscribe] after the stored cell was
    read. It holds whatever [JSON.parse] made of a string cell. *)
Definition subscribe_read (stored : value) : value :=
  if truthy stored then
    match stored with
    | VStr s =>
        match JSON_parse s with
        | Some parsed => parsed
        | None => VArr []
        end
    | VArr items => VArr items
    | _ => VArr []
    end
  else VArr [].

Definition subscribe (req : subscribe_request) : M response :=
  let subscription := req_subscription req in
  let empid := req_empid req in
  if negb (truthy subscription) || negb (truthy empid) then
    ret {| status := 400; body := "Subscription and empid required" |}
  else
    try_catch
      (do r <- store_select "push_subscriptions" (Eq "empid" empid);
       match single r with
       | Error fetchError => throw fetchError
       | Data user =>
           match subscribe_read (field user "push_subscriptions") with
           | VArr subscriptions =>
               match some_endpoint subscriptions
                       (default VUndefined (get_endpoint subscription)) with
               | None => throw TypeError
               | Some true => ret subscribed
               | Some false =>
                   do u <- store_update
                             {[ "push_subscriptions" := VArr (subscriptions ++ [subscription]) ]}
                             (Eq "empid" empid);
                   match u with
                   | Error updateError => throw updateError
                   | Data _ => ret subscribed
                   end
               end
           | _ => throw TypeError
           end
       end)
      (fun err =>
         run console (SubscriptionError err);
         ret subscription_failed).

(** One send of [sendNotificationToUser], with its [.catch]. *)
Definition send_one (empid : value) (p : payload) (sub : value) : M unit :=
  try_catch (webpush_sendNotification sub p)
    (fun err =>
       match err with
       | PushFailure (Some 410) | PushFailure (Some 404) =>
           console (SubscriptionExpired empid)
       | _ => console (PushError err)
       end).

(** The [subscriptions] variable of [sendNotificationToUser]. *)
Definition dispatch_read (stored : value) : value :=
  match stored with
  | VStr s =>
      match JSON_parse s with
      | Some parsed => parsed
      | None => VArr []
      end
  | _ => stored
  end.

Definition sendNotificationToUser (empid : value) (p : payload) : M unit :=
  try_catch
    (let p := with_defaults p in
     do r <- store_select "push_subscriptions" (Eq "empid" empid);
     match single r with
     | Error _ => ret tt
     | Data user =>
         let stored := field user "push_subscriptions" in
         if negb (truthy stored) then ret tt
         else
           match dispatch_read stored with
           | VArr [] => ret tt
           | VArr subscriptions =>
               run forEach (send_one empid p) subscriptions;
               console (NotificationSent empid)
           | _ => ret tt
           end
     end)
    (fun err => console (SendFailed empid err)).

Definition broadcast_columns : string := "empid, push_subscriptions, role_type".

(** One employee of the broadcast: the subscriptions it sends to. *)
Definition broadcast_subs (emp : row) : list value :=
  let stored := field emp "push_subscriptions" in
  if negb (truthy stored) then []
  else
    match stored with
    | VStr s =>
        match JSON_parse s with
        | Some (VArr subs) => subs
        | _ => []
        end
    | VArr subs => subs
    | _ => []
    end.

Definition broadcast_one (p : payload) (sub : value) : M unit :=
  try_catch (webpush_sendNotification sub p)
    (fun e => console (BroadcastPushFailed e)).

Definition broadcastNotification (roleType : value) (p : payload) : M unit :=
  try_catch
    (let p := with_defaults p in
     let query := if truthy roleType then Neq "role_type" (VStr "Manager") else All in
     do r <- store_select broadcast_columns query;
     match r with
     | Error error => throw error
     | Data emps =>
         run forEach (fun emp => forEach (broadcast_one p) (broadcast_subs emp)) emps;
         console (BroadcastSent (length emps))
     end)
    (fun err => console (BroadcastError err)).

(** ** scheduler.js *)

Definition msPerDay : Z := 86400000.

(** A [Date] is its time value, [None] for an invalid date. [new Date(v)]
    parses a string, takes a number as the time value, and converts an
    array or an object to a string first. *)
Definition new_Date (v : value) : option Z :=
  match v with
  | VStr s => Date_parse s
  | VNum n => if Z.abs n <=? 8640000000000000 then Some n else None
  | VBool b => Some (if b then 1 else 0)
  | VNull => Some 0
  | VUndefined => None
  | VArr _ | VObj _ => Date_parse (ToString v)
  end.

(** [a < b] on two dates: false as soon as one of them is invalid. *)
Definition date_lt (a b : option Z) : bool :=
  match a, b with
  | Some x, Some y => x <? y
  | _, _ => false
  end.

(** [d.setDate(d.getDate() - 15)]: the same time of day fifteen calendar
    days earlier, on a host whose offset from UTC is fixed. *)
Definition fifteen_days_before (t : Z) : Z := t - 15 * msPerDay.

Definition lastLogin (emp : row) : option Z :=
  if truthy (field emp "last_login") then new_Date (field emp "last_login") else Some 0.

Definition lastUpdate (emp : row) : option Z :=
  if truthy (field emp "updated_at") then new_Date (field emp "updated_at") else Some 0.

Definition reminder : payload :=
  {| title := "Update Your Details";
     message := "It's been 15 days! Please update your Skills and Availability in the Details screen.";
     url := "/details";
     icon := Some "/Logo/taking-off.png";
     image := Some "/Logo/MainLogo.png" |}.

(** [lastLogin < cutoffDate && lastUpdate < cutoffDate] *)
Definition inactive (cutoffDate : option Z) (emp : row) : bool :=
  date_lt (lastLogin emp) cutoffDate && date_lt (lastUpdate emp) cutoffDate.

(** The [for (const emp of employees)] loop of the scan; [count] is the
    counter of the run. *)
Fixpoint scan (emps : list row) (cutoff : string) (count : nat) : M nat :=
  match emps with
  | [] => ret count
  | emp :: rest =>
      let cutoffDate := new_Date (VStr cutoff) in
      if inactive cutoffDate emp then
        run detached (sendNotificationToUser (field emp "empid") reminder);
        scan rest cutoff (S count)
      else scan rest cutoff count
  end.

Definition scan_columns : string := "empid, name, last_login, updated_at, role_type".

(** The callback [startScheduler] hands to [cron.schedule]: one run. *)
Definition inactivityCheck : M unit :=
  run console RunningInactivityCheck;
  try_catch
    (do now <- Date_now;
     let fifteenDaysAgo := fifteen_days_before now in
     let cutoff := toISOString fifteenDaysAgo in
     do r <- store_select scan_columns (Neq "role_type" (VStr "Manager"));
     match r with
     | Error error => throw error
     | Data emps =>
         do count <- scan emps cutoff 0;
         console (InactivityCheckComplete count)
     end)
    (fun err => console (SchedulerError err)).

(** ** controllers/employeeController.js *)

Definition is_undefined (v : value) : bool :=
  match v with VUndefined => true | _ => false end.

(** [val.filter(Boolean)] *)
Definition filter_Boolean (items : list value) : list value :=
  List.filter truthy items.

(** [undefined] is [None]. *)
Definition normalizeListForStore (val : value) : option value :=
  match val with
  | VUndefined | VNull => None
  | VArr items => Some (VStr (JSON_stringify (VArr (filter_Boolean items))))
  | VStr s0 =>
      let s := String_trim s0 in
      if bool_decide (s = EmptyString) then Some (VStr (JSON_stringify (VArr [])))
      else
        match JSON_parse s with
        | Some (VArr parsed) => Some (VStr (JSON_stringify (VArr (filter_Boolean parsed))))
        | _ =>
            let arr := filter_Boolean (List.map (fun x => VStr (String_trim x)) (String_split s)) in
            Some (VStr (JSON_stringify (VArr arr)))
        end
  | _ => Some (VStr (JSON_stringify (VArr [VStr (ToString val)])))
  end.

Definition profileFields : list string :=
  ["empid"; "name"; "email"; "role"; "cluster"; "cluster2"].

Definition detailScalarFields : list string :=
  ["current_project"; "availability"; "hours_available"; "from_date"; "to_date"; "stars"].

(** [fields.forEach(f => { if (hasOwnProperty(body, f)) { if (body[f] ===
    undefined) return; updatePayload[f] = body[f]; } })] *)
Definition copy_fields (fields : list string) (body updatePayload : row) : row :=
  fold_left
    (fun acc f =>
       match body !! f with
       | Some v => if is_undefined v then acc else <[ f := v ]> acc
       | None => acc
       end)
    fields updatePayload.

(** [if (hasOwnProperty(body, f)) { const val = normalizeListForStore(body[f]);
    if (val !== undefined) updatePayload[f] = val; }] *)
Definition copy_list_field (f : string) (body updatePayload : row) : row :=
  match body !! f with
  | Some v =>
      match normalizeListForStore v with
      | Some val => <[ f := val ]> updatePayload
      | None => updatePayload
      end
  | None => updatePayload
  end.

(** [updatePayload] as it stands before the availability validation. *)
Definition build_updatePayload (body : row) : row :=
  let p := copy_fields profileFields body ∅ in
  let p := copy_list_field "current_skills" body p in
  let p := copy_list_field "interests" body p in
  let p := copy_list_field "previous_projects" body p in
  let p := copy_fields detailScalarFields body p in
  let p :=
    match body !! "noCurrentProject" with
    | Some flag => if truthy flag then <[ "current_project" := VStr EmptyString ]> p else p
    | None => p
    end in
  if negb (is_undefined (field body "stars")) then <[ "stars" := field body "stars" ]> p else p.

Definition has_key (r : row) (k : string) : bool := bool_decide (is_Some (r !! k)).

(** [updatePayload.k !== undefined ? updatePayload.k : existing.k] *)
Definition provided (updatePayload existing : row) (k : string) : value :=
  if negb (is_undefined (field updatePayload k)) then field updatePayload k
  else field existing k.

(** The validation around "Partially Available": the payload to write, or
    [None] for the 400 response. *)
Definition validate_availability (updatePayload existing : row) : option row :=
  let isAvailabilityUpdate :=
    existsb (has_key updatePayload) ["availability"; "hours_available"; "from_date"; "to_date"] in
  if isAvailabilityUpdate then
    let finalAvailability := provided updatePayload existing "availability" in
    let hoursProvided := provided updatePayload existing "hours_available" in
    let fromProvided := provided updatePayload existing "from_date" in
    let toProvided := provided updatePayload existing "to_date" in
    if negb (strict_eq finalAvailability (VStr "Partially Available")) then
      if truthy hoursProvided || truthy fromProvided || truthy toProvided then
        Some (<[ "to_date" := VNull ]>
                (<[ "from_date" := VNull ]>
                   (<[ "hours_available" := VNull ]> updatePayload)))
      else Some updatePayload
    else if negb (truthy hoursProvided) || negb (truthy fromProvided) || negb (truthy toProvided)
    then None
    else Some updatePayload
  else Some updatePayload.

Definition istOffset : Z := 19800000.

(** [res.json({ success: true, message: "Employee updated", data })] *)
Definition employee_updated : response :=
  {| status := 200; body := "Employee updated" |}.

(** [res.json({ success: true, message: "Star updated directly", data })] *)
Definition star_updated : response :=
  {| status := 200; body := "Star updated directly" |}.

(** [empid] is [req.params.empid], [body] is [req.body || {}]. *)
Definition updateEmployee (empid : value) (body : row) : M response :=
  try_catch
    (do found <- store_select "*" (Eq "empid" empid);
     match found with
     | Error findError => throw findError
     | Data [] => ret {| status := 404; body := "Employee not found" |}
     | Data (existing :: _) =>
         if negb (is_undefined (field body "stars")) then
           do star <- store_update {[ "stars" := field body "stars" ]} (Eq "empid" empid);
           match star with
           | Error starError =>
               run console StarUpdateError;
               ret {| status := 500; body := "Star update error" |}
           | Data _ => ret star_updated
           end
         else
           let updatePayload := build_updatePayload body in
           run (if bool_decide (updatePayload = ∅) then console EmptyUpdatePayload else ret tt);
           match validate_availability updatePayload existing with
           | None =>
               ret {| status := 400;
                      body := "Hours, from date, and to date are required for Partially Available" |}
           | Some updatePayload =>
               do now <- Date_now;
               let istDate := now + istOffset in
               let updatePayload := <[ "updated_at" := VStr (toISOString istDate) ]> updatePayload in
               do updated <- store_update updatePayload (Eq "empid" empid);
               match updated with
               | Error updateError => throw updateError
               | Data _ => ret employee_updated
               end
           end
     end)
    (fun err =>
       run console (UpdateEmployeeError err);
       ret {| status := 500; body := "Supabase update error" |}).

Definition updateEmployeeStars (empid : value) (body : row) : M response :=
  let stars := field body "stars" in
  if is_undefined stars then ret {| status := 400; body := "Stars value is required" |}
  else
    try_catch
      (do r <- store_update {[ "stars" := stars ]} (Eq "empid" empid);
       match r with
       | Error error => throw error
       | Data _ => ret {| status := 200; body := "Stars updated successfully" |}
       end)
      (fun err =>
         run console (StarUpdateFailed err);
         ret {| status := 500; body := "Failed to update stars" |}).

(** ** controllers/authController.js *)

(** The payload of the login notification, built at time [t]. *)
Definition login_notice (user : row) (t : Z) : payload :=
  {| title := "New Login Detected";
     message := "Login detected for " +:+ ToString (field user "email")
                +:+ " at " +:+ toLocaleTimeString t;
     url := "/"; icon := None; image := None |}.

(** [res.json({ success: true, user: safeUser })] *)
Definition logged_in : response := {| status := 200; body := "success" |}.

Definition loginUser (email password : value) : M response :=
  if negb (truthy email) || negb (truthy password) then
    ret {| status := 400; body := "Email and password required" |}
  else
    try_catch
      (do r <- store_select "*, role_type" (Eq "email" email);
       match r with
       | Error error => throw error
       | Data [] => ret {| status := 401; body := "Invalid credentials" |}
       | Data (user :: _) =>
           if negb (strict_eq (field user "password") password) then
             ret {| status := 401; body := "Invalid credentials" |}
           else
             do t <- Date_now;
             run detached (sendNotificationToUser (field user "empid") (login_notice user t));
             do now <- Date_now;
             do _ <- store_update {[ "last_login" := VStr (toISOString now) ]}
                       (Eq "empid" (field user "empid"));
             ret logged_in
       end)
      (fun err =>
         run console (LoginError err);
         ret {| status := 500; body := "Supabase login error" |}).

End Handlers.

(** ** controllers/employeeController.js, the reading side *)

Section Readers.
Context `{Host}.

(** [xs.flat()]: the items of the arrays among [xs] take the place of
    their array. *)
Definition flat (items : list value) : list value :=
  flat_map (fun v => match v with VArr xs => xs | _ => [v] end) items.

(** [Object.values(obj)] of an object whose fields are listed in the order
    of enumeration. *)
Definition Object_values (fields : list (string * value)) : list value :=
  List.map snd fields.

(** The parser of the stored list-like values: stringified JSON, lines or
    comma separated text, an array, an object. *)
Definition safeJsonParse (v : value) : list value :=
  match v with
  | VUndefined | VNull => []
  | VArr items => filter_Boolean items
  | VObj fields => filter_Boolean (flat (Object_values fields))
  | VStr s0 =>
      let s := String_trim s0 in
      if bool_decide (s = EmptyString) then []
      else
        match JSON_parse s with
        | Some (VArr parsed) => filter_Boolean parsed
        | _ => filter_Boolean (List.map (fun x => VStr (String_trim x)) (String_split s))
        end
  | _ => []
  end.

(** ** The handlers around them

    The readers of the employee controller, and the sign-up and the change
    of password of the auth controller, run on the same store. Their console
    lines and the insert are further events of the trace. *)

Inductive notice : Type :=
| FetchEmployeesError (e : exn)
| FetchEmployeeError (e : exn)
| SignupError (e : exn)
| PasswordVerifying (stored input : value)
| PasswordMismatch
| UpdatePasswordError (e : exn).

Inductive event : Type :=
| Effect (e : effect)
| StoreInsert (r : row)
| Notice (l : notice).

Definition Handler (A : Type) : Type := world -> completion A * world * list event.

#[global] Instance handler_ret : MRet Handler := fun A a w => (Normal a, w, []).

#[global] Instance handler_bind : MBind Handler :=
  fun A B k m w =>
    match m w with
    | (Normal a, w1, t1) => let '(r, w2, t2) := k a w1 in (r, w2, t1 ++ t2)
    | (Throw e, w1, t1) => (Throw e, w1, t1)
    end.

(** A step of the handlers above, its effects among the events. *)
Definition lift {A} (m : M A) : Handler A :=
  fun w => let '(r, w1, t) := m w in (r, w1, List.map Effect t).

Definition raise {A} (e : exn) : Handler A := fun w => (Throw e, w, []).

(** [try { m } catch (err) { h err }] *)
Definition attempt {A} (m : Handler A) (h : exn -> Handler A) : Handler A :=
  fun w =>
    match m w with
    | (Normal a, w1, t1) => (Normal a, w1, t1)
    | (Throw e, w1, t1) => let '(r, w2, t2) := h e w1 in (r, w2, t1 ++ t2)
    end.

Definition log (l : notice) : Handler unit := fun w => (Normal tt, w, [Notice l]).

(** [await supabase.from('employees').insert([r])] *)
Definition store_insert (r : row) : Handler (reply unit) :=
  fun w =>
    if outage w (served w)
    then (Normal (Error StoreFailure), answered (employees w) w, [StoreInsert r])
    else (Normal (Data tt), answered (employees w ++ [r]) w, [StoreInsert r]).

(** What [res.json] is given. *)
Inductive sent : Type :=
| Message (text : string)
| Employee (emp : row)
| Employees (emps : list row).

Record answer : Type := {
  code : Z;
  json : sent;
}.

(** What the readers need beyond [Host]: [s.toLowerCase()], and the order
    [.order('empid', { ascending: true })] gives the rows. *)
Class Reading : Type := {
  toLowerCase : string -> string;
  order_by_empid : list row -> list row;
}.

(** [hay.includes(needle)] *)
Fixpoint includes (hay needle : string) : bool :=
  String.prefix needle hay
  || match hay with
     | EmptyString => false
     | String _ rest => includes rest needle
     end.

(** [(v || fallback).toString()] of a cell. *)
Definition toString_or (v : value) (fallback : string) : string :=
  if truthy v then match v with VStr s => s | _ => ToString v end else fallback.

(** [emp.current_skills = safeJsonParse(emp.current_skills)] and the same
    for [interests] and [previous_projects]. *)
Definition parsed_lists (emp : row) : row :=
  <[ "previous_projects" := VArr (safeJsonParse (field emp "previous_projects")) ]>
    (<[ "interests" := VArr (safeJsonParse (field emp "interests")) ]>
       (<[ "current_skills" := VArr (safeJsonParse (field emp "current_skills")) ]> emp)).

(** [const { search = EmptyString, availability = EmptyString } = req.query] *)
Definition or_empty (v : value) : value :=
  if is_undefined v then VStr EmptyString else v.

(** The callback of [.filter] in [getAllEmployees]; [None] is the TypeError
    of [search.toLowerCase()] on a search that is no string. *)
Definition shown `{Reading} (search availability : value) (emp : row) : option bool :=
  let name := toLowerCase (toString_or (field emp "name") EmptyString) in
  let skills := toLowerCase (toString_or (field emp "current_skills") EmptyString) in
  let matchesAvail :=
    negb (truthy availability) || strict_eq availability (VStr "All")
    || strict_eq (field emp "availability") availability in
  if negb (truthy search) then Some matchesAvail
  else match search with
       | VStr s =>
           Some ((includes name (toLowerCase s) || includes skills (toLowerCase s))
                 && matchesAvail)
       | _ => None
       end.

(** [emps.filter(shown)]: the first TypeError ends it. *)
Fixpoint filter_shown `{Reading} (search availability : value) (emps : list row)
  : option (list row) :=
  match emps with
  | [] => Some []
  | emp :: rest =>
      match shown search availability emp with
      | None => None
      | Some keep =>
          match filter_shown search availability rest with
          | None => None
          | Some kept => Some (if keep then emp :: kept else kept)
          end
      end
  end.

Definition getAllEmployees `{Reading} (query : row) : Handler answer :=
  let search := or_empty (field query "search") in
  let availability := or_empty (field query "availability") in
  attempt
    (r ← lift (store_select "*" All);
     match r with
     | Error error => raise error
     | Data employees =>
         match filter_shown search availability (order_by_empid employees) with
         | None => raise TypeError
         | Some filtered =>
             mret {| code := 200; json := Employees (List.map parsed_lists filtered) |}
         end
     end)
    (fun err =>
       log (FetchEmployeesError err);;
       mret {| code := 500; json := Message "Supabase fetch error" |}).

Definition getEmployeeById (empid : value) : Handler answer :=
  attempt
    (r ← lift (store_select "*" (Eq "empid" empid));
     match r with
     | Error error => raise error
     | Data [] => mret {| code := 404; json := Message "Employee not found" |}
     | Data (emp :: _) => mret {| code := 200; json := Employee (parsed_lists emp) |}
     end)
    (fun err =>
       log (FetchEmployeeError err);;
       mret {| code := 500; json := Message "Supabase fetch error" |}).

(** ** controllers/authController.js, sign-up and change of password *)

(** [s.slice(-6)] *)
Definition slice_last6 (s : string) : string :=
  substring (String.length s - 6) 6 s.

(** The row [signupUser] inserts. *)
Definition new_employee (empid : string) (name email password : value) : row :=
  {[ "empid" := VStr empid; "name" := name; "email" := email; "password" := password;
     "availability" := VStr "Occupied";
     "hours_available" := VStr EmptyString;
     "from_date" := VStr EmptyString;
     "to_date" := VStr EmptyString;
     "current_skills" := VStr "[]";
     "interests" := VStr "[]";
     "previous_projects" := VStr "[]";
     "role" := VStr "Employee" ]}.

Definition signupUser (email password name : value) : Handler answer :=
  if negb (truthy email) || negb (truthy password) || negb (truthy name) then
    mret {| code := 400; json := Message "All fields required" |}
  else
    attempt
      (r ← lift (store_select "*" (Eq "email" email));
       match r with
       | Error findError => raise findError
       | Data (_ :: _) => mret {| code := 409; json := Message "Email already registered" |}
       | Data [] =>
           now ← lift Date_now;
           let empid := "E" +:+ slice_last6 (ToString (VNum now)) in
           i ← store_insert (new_employee empid name email password);
           match i with
           | Error insertError => raise insertError
           | Data _ => mret {| code := 200; json := Message "Account created successfully" |}
           end
       end)
      (fun err =>
         log (SignupError err);;
         mret {| code := 500; json := Message "Supabase signup error" |}).

Definition password_changed : payload :=
  {| title := "Password Changed";
     message := "Your password has been successfully updated.";
     url := "/profile"; icon := None; image := None |}.

Definition updatePassword (empid currentPassword newPassword : value) : Handler answer :=
  if negb (truthy empid) || negb (truthy currentPassword) || negb (truthy newPassword) then
    mret {| code := 400; json := Message "All fields are required" |}
  else
    attempt
      (r ← lift (store_select "password" (Eq "empid" empid));
       match single r with
       | Error _ => mret {| code := 404; json := Message "User not found" |}
       | Data users =>
           log (PasswordVerifying (field users "password") currentPassword);;
           if negb (strict_eq (field users "password") currentPassword) then
             log PasswordMismatch;;
             mret {| code := 401; json := Message "Incorrect current password" |}
           else
             u ← lift (store_update {[ "password" := newPassword ]} (Eq "empid" empid));
             match u with
             | Error updateError => raise updateError
             | Data _ =>
                 lift (detached (sendNotificationToUser empid password_changed));;
                 mret {| code := 200; json := Message "Password updated successfully" |}
             end
       end)
      (fun err =>
         log (UpdatePasswordError err);;
         mret {| code := 500; json := Message "Failed to update password" |}).

End Readers.

(** ** A host to run the handlers on

    The ISO-8601 date format in UTC, a reader and a printer for the JSON
    texts of the examples, and plain versions of the string helpers. *)

Module SampleHost.

(** Days since 1970-01-01 to (year, month, day) of the proleptic Gregorian
    calendar, and back. *)
Definition civil_from_days (days : Z) : Z * Z * Z :=
  let z := days + 719468 in
  let era := z / 146097 in
  let doe := z - era * 146097 in
  let yoe := (doe - doe / 1460 + doe / 36524 - doe / 146096) / 365 in
  let doy := doe - (365 * yoe + yoe / 4 - yoe / 100) in
  let mp := (5 * doy + 2) / 153 in
  let d := doy - (153 * mp + 2) / 5 + 1 in
  let m := if mp <? 10 then mp + 3 else mp - 9 in
  let y := yoe + era * 400 in
  (if m <=? 2 then y + 1 else y, m, d).

Definition days_from_civil (y m d : Z) : Z :=
  let y := if m <=? 2 then y - 1 else y in
  let era := y / 400 in
  let yoe := y - era * 400 in
  let doy := (153 * (if 2 <? m then m - 3 else m + 9) + 2) / 5 + d - 1 in
  let doe := yoe * 365 + yoe / 4 - yoe / 100 + doy in
  era * 146097 + doe - 719468.

Definition digit (n : Z) : string :=
  String (ascii_of_nat (Z.to_nat (48 + n mod 10))) EmptyString.

Definition pad2 (n : Z) : string := digit (n / 10) +:+ digit n.
Definition pad3 (n : Z) : string := digit (n / 100) +:+ pad2 n.
Definition pad4 (n : Z) : string := digit (n / 1000) +:+ pad3 n.

(** [YYYY-MM-DDTHH:mm:ss.sssZ] *)
Definition iso_of_time (t : Z) : string :=
  let '(y, m, d) := civil_from_days (t / msPerDay) in
  let ms := t mod msPerDay in
  pad4 y +:+ "-" +:+ pad2 m +:+ "-" +:+ pad2 d +:+ "T"
  +:+ pad2 (ms / 3600000) +:+ ":" +:+ pad2 (ms / 60000 mod 60) +:+ ":"
  +:+ pad2 (ms / 1000 mod 60) +:+ "." +:+ pad3 (ms mod 1000) +:+ "Z".

Definition digit_value (c : ascii) : option Z :=
  let n := Z.of_nat (nat_of_ascii c) in
  if (48 <=? n) && (n <=? 57) then Some (n - 48) else None.

Fixpoint number_from (acc : Z) (cs : list ascii) : option Z :=
  match cs with
  | [] => Some acc
  | c :: rest =>
      match digit_value c with
      | Some d => number_from (10 * acc + d) rest
      | None => None
      end
  end.

(** The digits of [s] from position [n], [len] of them. *)
Definition number_at (n len : nat) (s : string) : option Z :=
  let part := substring n len s in
  if bool_decide (String.length part = len) then number_from 0 (list_ascii_of_string part)
  else None.

(** The one format every [Date.parse] reads: what [iso_of_time] writes. *)
Definition time_of_iso (s : string) : option Z :=
  if bool_decide (String.length s = 24%nat)
     && bool_decide (substring 4 1 s = "-") && bool_decide (substring 7 1 s = "-")
     && bool_decide (substring 10 1 s = "T") && bool_decide (substring 13 1 s = ":")
     && bool_decide (substring 16 1 s = ":") && bool_decide (substring 19 1 s = ".")
     && bool_decide (substring 23 1 s = "Z")
  then
    y ← number_at 0 4 s; m ← number_at 5 2 s; d ← number_at 8 2 s;
    h ← number_at 11 2 s; mi ← number_at 14 2 s; sec ← number_at 17 2 s;
    ms ← number_at 20 3 s;
    if (1 <=? m) && (m <=? 12) && (1 <=? d) && (d <=? 31)
       && (h <=? 23) && (mi <=? 59) && (sec <=? 59)
    then Some (days_from_civil y m d * msPerDay + h * 3600000 + mi * 60000 + sec * 1000 + ms)
    else None
  else None.


Definition char_is (c : ascii) (code : nat) : bool := bool_decide (nat_of_ascii c = code).

Definition is_space (c : ascii) : bool := char_is c 32 || char_is c 10 || char_is c 13 || char_is c 9.

Fixpoint skip (cs : list ascii) : list ascii :=
  match cs with
  | c :: rest => if is_space c then skip rest else cs
  | [] => []
  end.

(** The characters up to the closing quote; escapes are not read. *)
Fixpoint string_body (cs : list ascii) : option (string * list ascii) :=
  match cs with
  | [] => None
  | c :: rest =>
      if char_is c 34 then Some (EmptyString, rest)
      else if char_is c 92 then None
      else '(s, r) ← string_body rest; Some (String c s, r)
  end.

Fixpoint digits (cs : list ascii) : list ascii * list ascii :=
  match cs with
  | c :: rest =>
      if bool_decide (is_Some (digit_value c)) then let '(ds, r) := digits rest in (c :: ds, r)
      else ([], cs)
  | [] => ([], [])
  end.

Fixpoint strip_prefix (p cs : list ascii) : option (list ascii) :=
  match p, cs with
  | [], _ => Some cs
  | a :: p', c :: cs' => if bool_decide (a = c) then strip_prefix p' cs' else None
  | _ :: _, [] => None
  end.

Definition literal (cs : list ascii) : option (value * list ascii) :=
  match strip_prefix (list_ascii_of_string "null") cs with
  | Some r => Some (VNull, r)
  | None =>
  match strip_prefix (list_ascii_of_string "true") cs with
  | Some r => Some (VBool true, r)
  | None =>
  match strip_prefix (list_ascii_of_string "false") cs with
  | Some r => Some (VBool false, r)
  | None =>
      let '(negative, cs) :=
        match cs with
        | c :: rest => if char_is c 45 then (true, rest) else (false, cs)
        | [] => (false, cs)
        end in
      match digits cs with
      | ([], _) => None
      | (ds, r) => n ← number_from 0 ds; Some (VNum (if negative then - n else n), r)
      end
  end end end.

(** A reader for the JSON texts of the examples: literals, integers,
    strings without escapes, arrays and objects. *)
Fixpoint parse_value (fuel : nat) (cs : list ascii) {struct fuel}
  : option (value * list ascii) :=
  match fuel with
  | O => None
  | S fuel =>
      match skip cs with
      | [] => None
      | c :: rest =>
          if char_is c 91 then
            match skip rest with
            | [] => None
            | c2 :: rest2 =>
                if char_is c2 93 then Some (VArr [], rest2)
                else '(items, r) ← parse_items fuel (c2 :: rest2); Some (VArr items, r)
            end
          else if char_is c 123 then
            match skip rest with
            | [] => None
            | c2 :: rest2 =>
                if char_is c2 125 then Some (VObj [], rest2)
                else '(fields, r) ← parse_members fuel (c2 :: rest2); Some (VObj fields, r)
            end
          else if char_is c 34 then '(s, r) ← string_body rest; Some (VStr s, r)
          else literal (c :: rest)
      end
  end
with parse_items (fuel : nat) (cs : list ascii) {struct fuel}
  : option (list value * list ascii) :=
  match fuel with
  | O => None
  | S fuel =>
      '(v, r) ← parse_value fuel cs;
      match skip r with
      | [] => None
      | c :: r' =>
          if char_is c 44 then '(vs, r'') ← parse_items fuel r'; Some (v :: vs, r'')
          else if char_is c 93 then Some ([v], r')
          else None
      end
  end
with parse_members (fuel : nat) (cs : list ascii) {struct fuel}
  : option (list (string * value) * list ascii) :=
  match fuel with
  | O => None
  | S fuel =>
      match skip cs with
      | [] => None
      | q :: r0 =>
          if char_is q 34 then
            '(k, r1) ← string_body r0;
            match skip r1 with
            | [] => None
            | colon :: r2 =>
                if char_is colon 58 then
                  '(v, r3) ← parse_value fuel r2;
                  match skip r3 with
                  | [] => None
                  | c :: r4 =>
                      if char_is c 44 then
                        '(fs, r5) ← parse_members fuel r4; Some ((k, v) :: fs, r5)
                      else if char_is c 125 then Some ([(k, v)], r4)
                      else None
                  end
                else None
            end
          else None
      end
  end.

Definition parse_json (s : string) : option value :=
  let cs := list_ascii_of_string s in
  match parse_value (2 * length cs + 2) cs with
  | Some (v, r) => match skip r with [] => Some v | _ => None end
  | None => None
  end.

Definition quoted (s : string) : string :=
  String (ascii_of_nat 34) s +:+ String (ascii_of_nat 34) EmptyString.

Fixpoint print_json (v : value) : string :=
  match v with
  | VUndefined | VNull => "null"
  | VBool b => if b then "true" else "false"
  | VNum n => pretty n
  | VStr s => quoted s
  | VArr items => "[" +:+ String.concat "," (List.map print_json items) +:+ "]"
  | VObj fields =>
      "{" +:+ String.concat ","
                (List.map (fun kv => quoted (fst kv) +:+ ":" +:+ print_json (snd kv)) fields)
      +:+ "}"
  end.

Fixpoint to_string (v : value) : string :=
  match v with
  | VUndefined => "undefined"
  | VNull => "null"
  | VBool b => if b then "true" else "false"
  | VNum n => pretty n
  | VStr s => s
  | VArr items =>
      String.concat ","
        (List.map (fun x => match x with VUndefined | VNull => EmptyString | _ => to_string x end)
           items)
  | VObj _ => "[object Object]"
  end.

Definition trim (s : string) : string :=
  string_of_list_ascii (rev (skip (rev (skip (list_ascii_of_string s))))).

(** The pieces between commas and line ends. *)
Fixpoint split_from (cs piece : list ascii) : list string :=
  match cs with
  | [] => [string_of_list_ascii (rev piece)]
  | c :: rest =>
      if char_is c 44 || char_is c 10 then
        let piece := match piece with p :: ps => if char_is c 10 && char_is p 13 then ps else piece | [] => [] end in
        string_of_list_ascii (rev piece) :: split_from rest []
      else split_from rest (c :: piece)
  end.

Definition split (s : string) : list string :=
  split_from (list_ascii_of_string s) [].

(** The time of day in UTC, 24-hour clock. *)
Definition time_of_day (t : Z) : string :=
  let ms := t mod msPerDay in
  pad2 (ms / 3600000) +:+ ":" +:+ pad2 (ms / 60000 mod 60) +:+ ":" +:+ pad2 (ms / 1000 mod 60).


Definition host : Host :=
  {| JSON_parse := parse_json;
     JSON_stringify := print_json;
     Date_parse := time_of_iso;
     toISOString := iso_of_time;
     String_trim := trim;
     String_split := split;
     ToString := to_string;
     toLocaleTimeString := time_of_day |}.

End SampleHost.

(** ** Sample worlds *)

Module Sample.

Definition sub1 : value :=
  VObj [("endpoint", VStr "https://push.example/1"); ("keys", VObj [("auth", VStr "k1")])].
Definition sub2 : value :=
  VObj [("endpoint", VStr "https://push.example/2"); ("keys", VObj [("auth", VStr "k2")])].
Definition sub3 : value :=
  VObj [("endpoint", VStr "https://push.example/3"); ("keys", VObj [("auth", VStr "k3")])].

(** 2024-03-01T00:00:00.000Z, and the cutoff fifteen days before it. *)
Definition march1 : Z := 1709251200000.
Definition feb15 : Z := 1707955200000.

(** An individual contributor, last seen on 2024-02-10, details last
    changed on 2024-02-05. *)
Definition E1 : row :=
  {[ "empid" := VStr "E1"; "email" := VStr "e1@example.com"; "password" := VStr "pw1";
     "role_type" := VStr "IC";
     "last_login" := VStr "2024-02-10T00:00:00.000Z";
     "updated_at" := VStr "2024-02-05T00:00:00.000Z";
     "push_subscriptions" := VArr [sub1] ]}.

(** A manager with the same stale timestamps. *)
Definition E2 : row :=
  {[ "empid" := VStr "E2"; "email" := VStr "e2@example.com"; "password" := VStr "pw2";
     "role_type" := VStr "Manager";
     "last_login" := VStr "2024-02-10T00:00:00.000Z";
     "updated_at" := VStr "2024-02-05T00:00:00.000Z";
     "push_subscriptions" := VArr [sub2] ]}.

(** Logged in one second before the cutoff, updated one second after it. *)
Definition E3 : row :=
  {[ "empid" := VStr "E3"; "email" := VStr "e3@example.com"; "password" := VStr "pw3";
     "role_type" := VStr "IC";
     "last_login" := VStr "2024-02-14T23:59:59.000Z";
     "updated_at" := VStr "2024-02-15T00:00:01.000Z";
     "push_subscriptions" := VArr [sub3; sub1; sub2] ]}.

(** Never logged in, never updated, no subscription. *)
Definition E4 : row :=
  {[ "empid" := VStr "E4"; "email" := VStr "e4@example.com"; "password" := VStr "pw4";
     "role_type" := VStr "IC";
     "last_login" := VNull; "updated_at" := VNull; "push_subscriptions" := VNull ]}.

Definition healthy (table : list row) (now : Z) : world :=
  {| employees := table; served := 0; outage := fun _ => false;
     transport := fun _ => None; clock := now |}.

(** The store answers its first request with an error. *)
Definition down (table : list row) (now : Z) : world :=
  {| employees := table; served := 0; outage := fun n => bool_decide (n = 0%nat);
     transport := fun _ => None; clock := now |}.

(** The push service rejects the sends to [sub1]. *)
Definition flaky (table : list row) (now : Z) : world :=
  {| employees := table; served := 0; outage := fun _ => false;
     transport := fun sub =>
       if strict_eq (default VUndefined (get_endpoint sub)) (VStr "https://push.example/1")
       then Some (PushFailure (Some 500)) else None;
     clock := now |}.

Definition staff : list row := [E1; E2; E3; E4].

Definition note : payload :=
  {| title := "New Activity Available"; message := "A new activity has been posted.";
     url := "/inline-activities"; icon := None; image := None |}.

(** The request bodies of the examples. *)
Definition register_sub2 : subscribe_request :=
  {| req_subscription := sub2; req_empid := VStr "E1" |}.

(** An employee whose cell is the JSON text of one subscription object. *)
Definition E5 : row :=
  {[ "empid" := VStr "E5"; "role_type" := VStr "IC";
     "push_subscriptions" := VStr (SampleHost.print_json sub1) ]}.

Definition register_E5 : subscribe_request :=
  {| req_subscription := sub2; req_empid := VStr "E5" |}.

Definition now_available : row := {[ "availability" := VStr "Available" ]}.

Definition five_stars : row := {[ "stars" := VNum 5 ]}.

(** The worlds of the examples, all on 2024-03-01. *)
Definition office : world := healthy staff march1.
Definition office_store_down : world := down staff march1.
Definition office_flaky_push : world := flaky staff march1.
Definition ic_and_manager : world := healthy [E1; E2] march1.
Definition only_E1 : world := healthy [E1] march1.
Definition only_E5 : world := healthy [E5] march1.

(** Back on 2024-02-20, five days after the cutoff; details last changed on
    2024-01-05, long before it. *)
Definition feb20 : Z := 1708387200000.

Definition E7 : row :=
  {[ "empid" := VStr "E7"; "email" := VStr "e7@example.com"; "password" := VStr "pw7";
     "role_type" := VStr "IC";
     "last_login" := VStr "2024-02-20T00:00:00.000Z";
     "updated_at" := VStr "2024-01-05T00:00:00.000Z";
     "push_subscriptions" := VArr [sub2] ]}.

Definition office_with_E7 : world := healthy (staff ++ [E7]) march1.

End Sample.

(** ** The working days of the dashboard

    [getWorkingDaysCount] of [getDashboardMetrics] reads the calendar date of
    [new Date()] in the zone of the host, and nothing else of it. A date is
    the number of its day, day 0 being 1970-01-01, a Thursday. *)

Module Dashboard.

(** [d.getDay()]: 0 is Sunday, 6 is Saturday. *)
Definition getDay (day : Z) : Z := (day + 4) mod 7.

Definition getFullYear (day : Z) : Z := (SampleHost.civil_from_days day).1.1.

(** [d.getMonth()], counted from 0. *)
Definition getMonth (day : Z) : Z := (SampleHost.civil_from_days day).1.2 - 1.

Definition getDate (day : Z) : Z := (SampleHost.civil_from_days day).2.

(** [new Date(year, month, date)]: a [year] from 0 to 99 stands for 1900 +
    [year], [month] counts from 0 and runs over into the years, [date] runs
    over into the months, day 0 being the last day of the month before. *)
Definition new_Date_ymd (year month date : Z) : Z :=
  let year := if (0 <=? year) && (year <=? 99) then 1900 + year else year in
  SampleHost.days_from_civil (year + month / 12) (month mod 12 + 1) 1 + (date - 1).

(** [d !== 0 && d !== 6] *)
Definition working (d : Z) : bool := negb (d =? 0) && negb (d =? 6).

(** The loop of "Weekly": [rounds] is what is left of its eight rounds,
    [current.setDate(current.getDate() + 1)] is the next day. *)
Fixpoint weekly_loop (rounds : nat) (current workingDays : Z) : Z :=
  match rounds with
  | O => workingDays
  | S rounds' =>
      let d := getDay current in
      let workingDays := if working d then workingDays + 1 else workingDays in
      if d =? 0 then workingDays
      else weekly_loop rounds' (current + 1) workingDays
  end.

(** The loop of "Monthly": [for (let d = todayDate; d <= daysInMonth; d++)]. *)
Definition monthly_loop (year month todayDate daysInMonth : Z) : Z :=
  fold_left
    (fun workingDays d =>
       if working (getDay (new_Date_ymd year month d)) then workingDays + 1 else workingDays)
    (seqZ todayDate (daysInMonth - todayDate + 1)) 0.

(** [rangeType] is the trimmed [range] of the query, [now] the day of
    [new Date()]. *)
Definition getWorkingDaysCount (rangeType : string) (now : Z) : Z :=
  let year := getFullYear now in
  let month := getMonth now in
  let todayDay := getDay now in
  let todayDate := getDate now in
  if bool_decide (rangeType = EmptyString) || bool_decide (rangeType = "All")
     || bool_decide (rangeType = "Daily")
  then if (todayDay =? 0) || (todayDay =? 6) then 0 else 1
  else if bool_decide (rangeType = "Weekly") then weekly_loop 8 now 0
  else if bool_decide (rangeType = "Monthly") then
    let daysInMonth := getDate (new_Date_ymd year (month + 1) 0) in
    monthly_loop year month todayDate daysInMonth
  else 1.

End Dashboard.

(** ** More sample data *)

Module MoreSample.
Import Sample.

(** ASCII letters to lower case. *)
Definition lower_char (c : ascii) : ascii :=
  let n := nat_of_ascii c in
  if (65 <=? n)%nat && (n <=? 90)%nat then ascii_of_nat (n + 32) else c.

Definition lower (s : string) : string :=
  string_of_list_ascii (List.map lower_char (list_ascii_of_string s)).

Fixpoint insert_by_empid (r : row) (sorted : list row) : list row :=
  match sorted with
  | [] => [r]
  | x :: rest =>
      if String.leb (SampleHost.to_string (field r "empid"))
                    (SampleHost.to_string (field x "empid"))
      then r :: sorted else x :: insert_by_empid r rest
  end.

(** A store that orders by the text of [empid]. *)
Definition reading : Reading :=
  {| toLowerCase := lower;
     order_by_empid := fun rows => fold_right insert_by_empid [] rows |}.

(** The push service reports [sub1] as gone. *)
Definition gone (table : list row) (now : Z) : world :=
  {| employees := table; served := 0; outage := fun _ => false;
     transport := fun sub =>
       if strict_eq (default VUndefined (get_endpoint sub)) (VStr "https://push.example/1")
       then Some (PushFailure (Some 410)) else None;
     clock := now |}.

(** The store answers its third request with an error. *)
Definition third_down (table : list row) (now : Z) : world :=
  {| employees := table; served := 0; outage := fun n => bool_decide (n = 2%nat);
     transport := fun _ => None; clock := now |}.

Definition office_gone_push : world := gone staff march1.
Definition office_third_down : world := third_down staff march1.

Definition register_E4 : subscribe_request :=
  {| req_subscription := sub2; req_empid := VStr "E4" |}.

(** Partially available, four hours a day in March. *)
Definition E6 : row :=
  {[ "empid" := VStr "E6"; "email" := VStr "e6@example.com"; "password" := VStr "pw6";
     "role_type" := VStr "IC";
     "availability" := VStr "Partially Available";
     "hours_available" := VStr "4";
     "from_date" := VStr "2024-03-04";
     "to_date" := VStr "2024-03-29" ]}.

Definition bench : world := healthy [E6] march1.

(** The time [updateEmployee] writes on 2024-03-01T00:00:00Z. *)
Definition stamp : value := VStr (SampleHost.iso_of_time (march1 + istOffset)).

Definition available_patch : row :=
  {[ "availability" := VStr "Available"; "updated_at" := stamp ]}.

(** What the update to Available writes for [E6]. *)
Definition released_patch : row :=
  {[ "availability" := VStr "Available"; "hours_available" := VNull;
     "from_date" := VNull; "to_date" := VNull; "updated_at" := stamp ]}.

Definition stars_and_more : row :=
  {[ "stars" := VNum 5; "availability" := VStr "Partially Available" ]}.

Definition skills : list value := [VStr "rocq"; VStr EmptyString; VStr "ocaml"].

Definition kept_skills : list value := [VStr "rocq"; VStr "ocaml"].

Definition skills_text : string := SampleHost.print_json (VArr kept_skills).

Definition new_skills : row := {[ "current_skills" := VArr skills ]}.

Definition skills_patch : row :=
  {[ "current_skills" := VStr skills_text; "updated_at" := stamp ]}.

(** Ten days after 2024-03-01. *)
Definition march11 : Z := march1 + 10 * msPerDay.

Definition two_searches : row := {[ "search" := VArr [VStr "a"; VStr "b"] ]}.

(** The day number of 2024-03-01, a Friday. *)
Definition march1_day : Z := march1 / msPerDay.

End MoreSample.

(** ** Observations on a trace *)

(** The web-push sends of a trace, in the order they were issued. *)
Definition pushes (t : list effect) : list (value * payload) :=
  omap (fun e => match e with WebPush sub p => Some (sub, p) | _ => None end) t.

(** The employee ids [sendNotificationToUser] was called for: each call
    opens with its lookup of [push_subscriptions] by [empid]. *)
Definition dispatched (t : list effect) : list value :=
  omap (fun e =>
          match e with
          | StoreSelect cols (Eq col v) =>
              if bool_decide (cols = "push_subscriptions") && bool_decide (col = "empid")
              then Some v else None
          | _ => None
          end) t.

(** The writes sent to the store. *)
Definition writes (t : list effect) : list (row * filter) :=
  omap (fun e => match e with StoreUpdate patch f => Some (patch, f) | _ => None end) t.

(** What one send leaves on the trace of [sendNotificationToUser]. *)
Definition send_one_trace (w : world) (empid : value) (p : payload) (sub : value) : list effect :=
  WebPush sub p ::
  match transport w sub with
  | None => []
  | Some (PushFailure (Some 410)) | Some (PushFailure (Some 404)) =>
      [Console (SubscriptionExpired empid)]
  | Some err => [Console (PushError err)]
  end.

Definition broadcast_one_trace (w : world) (p : payload) (sub : value) : list effect :=
  WebPush sub p ::
  match transport w sub with
  | None => []
  | Some e => [Console (BroadcastPushFailed e)]
  end.

(** The subscriptions [sendNotificationToUser] finds in the row [user]. *)
Definition dispatch_subs `{Host} (user : row) : list value :=
  let stored := field user "push_subscriptions" in
  if truthy stored then
    match dispatch_read stored with
    | VArr subs => subs
    | _ => []
    end
  else [].

(** The subscriptions [sendNotificationToUser] sends to in world [w]. *)
Definition recipients `{Host} (w : world) (empid : value) : list value :=
  if outage w (served w) then []
  else
    match List.filter (matches (Eq "empid" empid)) (employees w) with
    | [user] => dispatch_subs user
    | _ => []
    end.

(** The trace of one call of [sendNotificationToUser]. *)
Definition dispatch_trace `{Host} (w : world) (empid : value) (p : payload) : list effect :=
  StoreSelect "push_subscriptions" (Eq "empid" empid) ::
  match recipients w empid with
  | [] => []
  | subs =>
      flat_map (send_one_trace w empid (with_defaults p)) subs
      ++ [Console (NotificationSent empid)]
  end.

(** The world after [k] more store requests that changed no row. *)
Definition bump (k : nat) (w : world) : world :=
  {| employees := employees w; served := (k + served w)%nat; outage := outage w;
     transport := transport w; clock := clock w |}.

(** The trace of the loop of the scan. *)
Fixpoint scan_trace `{Host} (w : world) (emps : list row) (cutoffDate : option Z)
  : list effect :=
  match emps with
  | [] => []
  | emp :: rest =>
      if inactive cutoffDate emp then
        dispatch_trace w (field emp "empid") reminder
        ++ scan_trace (bump 1 w) rest cutoffDate
      else scan_trace w rest cutoffDate
  end.

(** The filter [broadcastNotification] puts on its query. *)
Definition broadcast_query (roleType : value) : filter :=
  if truthy roleType then Neq "role_type" (VStr "Manager") else All.

(** The sends of a broadcast over the rows [emps]. *)
Definition broadcast_sends `{Host} (p : payload) (emps : list row) : list (value * payload) :=
  flat_map (fun emp => List.map (fun sub => (sub, with_defaults p)) (broadcast_subs emp)) emps.

Definition subscriptions_lookup (empid : value) : effect :=
  StoreSelect "push_subscriptions" (Eq "empid" empid).

(** [a.endpoint === b.endpoint] *)
Definition same_endpoint (a b : value) : bool :=
  match get_endpoint a, get_endpoint b with
  | Some x, Some y => strict_eq x y
  | _, _ => false
  end.

(** How many of [items] have the endpoint of [sub]. *)
Definition copies (sub : value) (items : list value) : nat :=
  length (List.filter (fun s => same_endpoint s sub) items).

(** No two entries of the list have the same endpoint. *)
Definition unique_endpoints (items : list value) : Prop :=
  forall (i j : nat) (a b : value),
    items !! i = Some a -> items !! j = Some b -> same_endpoint a b = true -> i = j.

(** The subscription list [subscribe] reads off a row, when it is one. *)
Definition stored_list `{Host} (r : row) : option (list value) :=
  match subscribe_read (field r "push_subscriptions") with
  | VArr items => Some items
  | _ => None
  end.

(** Every stored subscription list is free of duplicate endpoints. *)
Definition store_unique `{Host} (w : world) : Prop :=
  forall (r : row) (items : list value),
    In r (employees w) -> stored_list r = Some items -> unique_endpoints items.

(** The world after the calls [reqs] of [subscribe], one after the other. *)
Fixpoint register_all `{Host} (reqs : list subscribe_request) (w : world) : world :=
  match reqs with
  | [] => w
  | req :: rest => register_all rest (subscribe req w).1.2
  end.

(** ** Further notions for the statements *)

(** The instant a timestamp cell stands for, in the words of the
    specification: the epoch when the cell is absent ([null], missing, or
    empty), the instant its text denotes when it is present. *)
Definition cell_instant `{Host} (cell : value) (t : Z) : Prop :=
  (truthy cell = false /\ t = 0)
  \/ (exists s : string, cell = VStr s /\ s <> EmptyString /\ Date_parse s = Some t).

(** The world [w] with the clock at [now]. *)
Definition at_clock (now : Z) (w : world) : world :=
  {| employees := employees w; served := served w; outage := outage w;
     transport := transport w; clock := now |}.

(** The columns [updateEmployee] can write. *)
Definition writable_columns : list string :=
  profileFields ++ ["current_skills"; "interests"; "previous_projects"]
  ++ detailScalarFields ++ ["updated_at"].

(** Every key of [m] is one of [ks]. *)
Definition keys_within (ks : list string) (m : row) : Prop :=
  forall k : string, is_Some (m !! k) -> In k ks.

(** No value of [m] is [undefined]. *)
Definition defined_values (m : row) : Prop :=
  forall (k : string) (v : value), m !! k = Some v -> is_undefined v = false.

(** The three columns that go with "Partially Available". *)
Definition partial_columns : list string := ["hours_available"; "from_date"; "to_date"].

(** The columns that hold a list. *)
Definition list_columns : list string := ["current_skills"; "interests"; "previous_projects"].

(** The effects, the console lines and the inserts among the events. *)
Definition effects (t : list event) : list effect :=
  omap (fun e => match e with Effect x => Some x | _ => None end) t.

Definition notices (t : list event) : list notice :=
  omap (fun e => match e with Notice l => Some l | _ => None end) t.

Definition inserts (t : list event) : list row :=
  omap (fun e => match e with StoreInsert r => Some r | _ => None end) t.


(** A value SQL [=] and [===] find equal to itself: a string, a number or a
    boolean. *)
Definition comparable (v : value) : bool :=
  match v with VBool _ | VNum _ | VStr _ => true | _ => false end.

(** * Properties *)

(** Case analysis on the error of a send: the status codes 410 and 404, and
    the rest. *)
Ltac by_status_code e :=
  let c := fresh "c" in
  destruct e as [| |[[|c|c]|]]; try reflexivity;
  repeat (destruct c as [c|c|]; try reflexivity).

Section Facts.
Context `{Host}.

Lemma pushes_app (t1 t2 : list effect) : pushes (t1 ++ t2) = pushes t1 ++ pushes t2.
Proof. apply omap_app. Qed.

Lemma dispatched_app (t1 t2 : list effect) :
  dispatched (t1 ++ t2) = dispatched t1 ++ dispatched t2.
Proof. apply omap_app. Qed.

Lemma send_one_run (w : world) (empid : value) (p : payload) (sub : value) :
  send_one empid p sub w = (Normal tt, w, send_one_trace w empid p sub).
Proof.
  unfold send_one, send_one_trace, try_catch, webpush_sendNotification.
  destruct (transport w sub) as [e|]; [|reflexivity].
  by_status_code e.
Qed.

Lemma forEach_send_one (w : world) (empid : value) (p : payload) (subs : list value) :
  forEach (send_one empid p) subs w
  = (Normal tt, w, flat_map (send_one_trace w empid p) subs).
Proof.
  induction subs as [|sub subs IH]; [reflexivity|].
  cbn [forEach flat_map]. unfold bind at 1.
  rewrite send_one_run, IH. reflexivity.
Qed.

Lemma broadcast_one_run (w : world) (p : payload) (sub : value) :
  broadcast_one p sub w = (Normal tt, w, broadcast_one_trace w p sub).
Proof.
  unfold broadcast_one, broadcast_one_trace, try_catch, webpush_sendNotification.
  destruct (transport w sub); reflexivity.
Qed.

Lemma forEach_broadcast_one (w : world) (p : payload) (subs : list value) :
  forEach (broadcast_one p) subs w
  = (Normal tt, w, flat_map (broadcast_one_trace w p) subs).
Proof.
  induction subs as [|sub subs IH]; [reflexivity|].
  cbn [forEach flat_map]. unfold bind at 1.
  rewrite broadcast_one_run, IH. reflexivity.
Qed.

Lemma sendNotificationToUser_run (w : world) (empid : value) (p : payload) :
  sendNotificationToUser empid p w
  = (Normal tt, answered (employees w) w, dispatch_trace w empid p).
Proof.
  unfold sendNotificationToUser, dispatch_trace, recipients, try_catch, bind, store_select.
  destruct (outage w (served w)); [reflexivity|].
  cbn [single].
  destruct (List.filter _ (employees w)) as [|user [|? ?]]; [reflexivity| |reflexivity].
  cbn [single negb]. unfold dispatch_subs.
  destruct (truthy (field user "push_subscriptions")); [|reflexivity].
  cbn [negb].
  destruct (dispatch_read (field user "push_subscriptions")) as [| | | | |[|sub subs]|];
    try reflexivity.
  rewrite forEach_send_one. reflexivity.
Qed.

Lemma bump_bump (j k : nat) (w : world) : bump j (bump k w) = bump (j + k) w.
Proof. unfold bump. cbn. f_equal. lia. Qed.

Lemma bump_0 (w : world) : bump 0 w = w.
Proof. destruct w. reflexivity. Qed.

Lemma scan_run (cutoff : string) (emps : list row) :
  forall (w : world) (count : nat),
    let cutoffDate := new_Date (VStr cutoff) in
    let hits := List.filter (inactive cutoffDate) emps in
    scan emps cutoff count w
    = (Normal (count + length hits)%nat, bump (length hits) w,
       scan_trace w emps cutoffDate).
Proof.
  induction emps as [|emp rest IH]; intros w count; cbn zeta.
  - cbn. rewrite Nat.add_0_r, bump_0. reflexivity.
  - cbn [scan scan_trace List.filter].
    destruct (inactive (new_Date (VStr cutoff)) emp).
    + unfold bind at 1. unfold detached, try_catch.
      rewrite sendNotificationToUser_run.
      change (answered (employees w) w) with (bump 1 w).
      rewrite IH. cbn zeta. cbn [length].
      rewrite bump_bump. do 3 f_equal; lia.
    + apply IH.
Qed.

Lemma inactivityCheck_run (w : world) :
  let fetch := StoreSelect scan_columns (Neq "role_type" (VStr "Manager")) in
  let emps := List.filter (matches (Neq "role_type" (VStr "Manager"))) (employees w) in
  let cutoffDate := Date_parse (toISOString (fifteen_days_before (clock w))) in
  let hits := List.filter (inactive cutoffDate) emps in
  inactivityCheck w
  = if outage w (served w)
    then (Normal tt, bump 1 w,
          [Console RunningInactivityCheck; fetch; Console (SchedulerError StoreFailure)])
    else (Normal tt, bump (length hits + 1) w,
          [Console RunningInactivityCheck; fetch]
          ++ scan_trace (bump 1 w) emps cutoffDate
          ++ [Console (InactivityCheckComplete (length hits))]).
Proof.
  cbn zeta. unfold inactivityCheck, bind, try_catch, console, emit, Date_now, store_select.
  destruct (outage w (served w)); [reflexivity|].
  change (answered (employees w) w) with (bump 1 w).
  rewrite scan_run. cbn zeta. cbn [new_Date]. rewrite bump_bump. reflexivity.
Qed.

Lemma dispatched_dispatch_trace (w : world) (empid : value) (p : payload) :
  dispatched (dispatch_trace w empid p) = [empid].
Proof.
  unfold dispatch_trace.
  change (dispatched (?e :: ?t)) with (empid :: dispatched t).
  f_equal. destruct (recipients w empid) as [|sub subs]; [reflexivity|].
  rewrite dispatched_app. generalize (sub :: subs). intros l.
  replace (dispatched (flat_map _ l)) with (@nil value); [reflexivity|].
  induction l as [|x l IH]; [reflexivity|].
  cbn [flat_map]. rewrite dispatched_app, <- IH, app_nil_r.
  unfold send_one_trace. destruct (transport w x) as [e|]; [|reflexivity].
  by_status_code e.
Qed.

Lemma dispatched_scan_trace (emps : list row) (cutoffDate : option Z) :
  forall w : world,
    dispatched (scan_trace w emps cutoffDate)
    = List.map (fun emp => field emp "empid") (List.filter (inactive cutoffDate) emps).
Proof.
  induction emps as [|emp rest IH]; intros w; [reflexivity|].
  cbn [scan_trace List.filter]. destruct (inactive cutoffDate emp); [|apply IH].
  rewrite dispatched_app, dispatched_dispatch_trace, IH. reflexivity.
Qed.

Lemma pushes_send_one_trace (w : world) (empid : value) (p : payload) (subs : list value) :
  pushes (flat_map (send_one_trace w empid p) subs) = List.map (fun sub => (sub, p)) subs.
Proof.
  induction subs as [|x l IH]; [reflexivity|].
  cbn [flat_map List.map]. rewrite pushes_app, IH.
  unfold send_one_trace. destruct (transport w x) as [e|]; [|reflexivity].
  by_status_code e.
Qed.

Lemma pushes_dispatch_trace (w : world) (empid : value) (p : payload) :
  pushes (dispatch_trace w empid p)
  = List.map (fun sub => (sub, with_defaults p)) (recipients w empid).
Proof.
  unfold dispatch_trace.
  change (pushes (StoreSelect ?c ?f :: ?t)) with (pushes t).
  destruct (recipients w empid) as [|sub subs]; [reflexivity|].
  rewrite pushes_app, pushes_send_one_trace. cbn. rewrite app_nil_r. reflexivity.
Qed.

Lemma inactive_iff (cutoff : Z) (emp : row) :
  inactive (Some cutoff) emp = true
  <-> exists login update : Z,
        lastLogin emp = Some login /\ lastUpdate emp = Some update
        /\ login < cutoff /\ update < cutoff.
Proof.
  unfold inactive, date_lt. rewrite andb_true_iff. split.
  - intros [Hl Hu].
    destruct (lastLogin emp) as [a|]; [|discriminate].
    destruct (lastUpdate emp) as [b|]; [|discriminate].
    exists a, b. repeat split; lia.
  - intros (a & b & -> & -> & Ha & Hb). split; lia.
Qed.

Lemma In_pushes (t : list effect) (sub : value) (p : payload) :
  In (WebPush sub p) t <-> In (sub, p) (pushes t).
Proof.
  unfold pushes. rewrite <- !list_elem_of_In, list_elem_of_omap. split.
  - intros Hin. exists (WebPush sub p). split; [exact Hin|reflexivity].
  - intros (e & Hin & He). destruct e; try discriminate.
    injection He as -> ->. exact Hin.
Qed.

(** Whoever the scan pushes to was found inactive, and is reached through
    the lookup of its own id. *)
Lemma pushes_scan_trace (emps : list row) (cutoffDate : option Z) :
  forall (w : world) (x : value * payload),
    In x (pushes (scan_trace w emps cutoffDate)) ->
    exists (emp : row) (k : nat),
      In emp emps /\ inactive cutoffDate emp = true
      /\ x.2 = reminder
      /\ In x.1 (recipients (bump k w) (field emp "empid")).
Proof.
  induction emps as [|emp rest IH]; intros w x Hin; [destruct Hin|].
  cbn [scan_trace] in Hin.
  destruct (inactive cutoffDate emp) eqn:Hhit.
  - rewrite pushes_app, in_app_iff, pushes_dispatch_trace in Hin.
    destruct Hin as [Hin|Hin].
    + apply in_map_iff in Hin as (sub & <- & Hsub).
      exists emp, 0%nat. rewrite bump_0. repeat split; [left; reflexivity|exact Hhit|exact Hsub].
    + apply IH in Hin as (emp' & k & Hemp & Hi & Hp & Hr).
      exists emp', (k + 1)%nat. rewrite bump_bump in Hr.
      repeat split; [right; exact Hemp|exact Hi|exact Hp|exact Hr].
  - apply IH in Hin as (emp' & k & Hemp & Hi & Hp & Hr).
    exists emp', k. repeat split; [right; exact Hemp|exact Hi|exact Hp|exact Hr].
Qed.

Lemma instant_of_cell (cell : value) (t : Z) :
  cell_instant cell t -> (if truthy cell then new_Date cell else Some 0) = Some t.
Proof.
  intros [[Habsent ->]|(s & -> & Hs & Hparse)].
  - rewrite Habsent. reflexivity.
  - cbn. rewrite bool_decide_eq_false_2 by exact Hs. exact Hparse.
Qed.

Lemma instant_of_bad_text (s : string) :
  s <> EmptyString -> Date_parse s = None ->
  (if truthy (VStr s) then new_Date (VStr s) else Some 0) = None.
Proof.
  intros Hs Hparse. cbn. rewrite bool_decide_eq_false_2 by exact Hs. exact Hparse.
Qed.

(** C1. For every employee the inactivity scan fetched, with [lastLogin] the
    [last_login] of the row when present and the epoch otherwise,
    [lastUpdate] likewise from [updated_at], and [cutoff] fifteen days before
    now: [sendNotificationToUser] is called for the employee, with the
    reminder, if and only if [lastLogin < cutoff] and [lastUpdate < cutoff];
    the comparison is strict, and a row with neither timestamp qualifies
    once the cutoff lies after the epoch. The two instants are those of the
    cells of the row: a [last_login] at or after the cutoff keeps the
    employee out whatever [updated_at] holds, an [updated_at] at or after
    the cutoff does whatever [last_login] holds, and so does a text in
    either cell that is no date. *)
Theorem reminder_iff_login_and_update_stale (w : world) (cutoff : Z) :
  cutoff = fifteen_days_before (clock w) ->
  Date_parse (toISOString cutoff) = Some cutoff ->
  outage w (served w) = false ->
  let fetched := List.filter (matches (Neq "role_type" (VStr "Manager"))) (employees w) in
  let notified := List.filter (inactive (Some cutoff)) fetched in
  let t := (inactivityCheck w).2 in
  dispatched t = List.map (fun emp => field emp "empid") notified
  /\ In (Console (InactivityCheckComplete (length notified))) t
  /\ (forall sub p, In (WebPush sub p) t -> p = reminder)
  /\ (forall emp : row,
        inactive (Some cutoff) emp = true
        <-> exists login update : Z,
              lastLogin emp = Some login /\ lastUpdate emp = Some update
              /\ login < cutoff /\ update < cutoff)
  /\ (forall emp : row,
        lastLogin emp = Some cutoff \/ lastUpdate emp = Some cutoff ->
        inactive (Some cutoff) emp = false)
  /\ (0 < cutoff ->
      forall emp : row,
        field emp "last_login" = VNull -> field emp "updated_at" = VNull ->
        inactive (Some cutoff) emp = true)
  /\ (forall (emp : row) (login update : Z),
        cell_instant (field emp "last_login") login ->
        cell_instant (field emp "updated_at") update ->
        lastLogin emp = Some login /\ lastUpdate emp = Some update
        /\ (inactive (Some cutoff) emp = true <-> login < cutoff /\ update < cutoff)
        /\ (In emp fetched -> login < cutoff -> update < cutoff ->
            In (field emp "empid") (dispatched t)))
  /\ (forall (emp : row) (login : Z),
        cell_instant (field emp "last_login") login -> cutoff <= login ->
        inactive (Some cutoff) emp = false)
  /\ (forall (emp : row) (update : Z),
        cell_instant (field emp "updated_at") update -> cutoff <= update ->
        inactive (Some cutoff) emp = false)
  /\ (forall (emp : row) (s : string),
        s <> EmptyString -> Date_parse s = None ->
        field emp "last_login" = VStr s \/ field emp "updated_at" = VStr s ->
        inactive (Some cutoff) emp = false)
  /\ (forall emp : row,
        In (field emp "empid") (dispatched t) ->
        exists emp' : row,
          In emp' fetched /\ field emp' "empid" = field emp "empid"
          /\ inactive (Some cutoff) emp' = true).
Proof.
  intros -> Hiso Hup. cbn zeta.
  pose proof (inactivityCheck_run w) as Hrun. cbn zeta in Hrun.
  rewrite Hup, Hiso in Hrun. rewrite Hrun. cbn [snd].
  assert (dispatched
            ([Console RunningInactivityCheck;
              StoreSelect scan_columns (Neq "role_type" (VStr "Manager"))]
             ++ scan_trace (bump 1 w)
                  (List.filter (matches (Neq "role_type" (VStr "Manager"))) (employees w))
                  (Some (fifteen_days_before (clock w)))
             ++ [Console
                   (InactivityCheckComplete
                      (length
                         (List.filter (inactive (Some (fifteen_days_before (clock w))))
                            (List.filter (matches (Neq "role_type" (VStr "Manager")))
                               (employees w)))))])
          = List.map (fun emp => field emp "empid")
              (List.filter (inactive (Some (fifteen_days_before (clock w))))
                 (List.filter (matches (Neq "role_type" (VStr "Manager"))) (employees w))))
    as Hsent.
  { rewrite !dispatched_app, dispatched_scan_trace. cbn. apply app_nil_r. }
  split; [|split; [|split; [|split; [|split; [|split; [|split; [|split; [|split; [|split]]]]]]]]].
  - exact Hsent.
  - apply in_app_iff. right. apply in_app_iff. right. left. reflexivity.
  - intros sub p Hin. apply In_pushes in Hin.
    rewrite !pushes_app in Hin. cbn in Hin. rewrite app_nil_r in Hin.
    apply pushes_scan_trace in Hin as (_ & _ & _ & _ & Hp & _). exact Hp.
  - intros emp. apply inactive_iff.
  - intros emp Hc. unfold inactive, date_lt.
    destruct Hc as [-> | ->].
    + rewrite Z.ltb_irrefl. reflexivity.
    + rewrite Z.ltb_irrefl. apply andb_false_r.
  - intros Hpos emp Hl Hu. unfold inactive, lastLogin, lastUpdate.
    rewrite Hl, Hu. cbn. rewrite andb_true_iff. split; lia.
  - intros emp login update Hlogin Hupdate.
    assert (lastLogin emp = Some login) as Hl by (apply instant_of_cell; exact Hlogin).
    assert (lastUpdate emp = Some update) as Hu by (apply instant_of_cell; exact Hupdate).
    assert (inactive (Some (fifteen_days_before (clock w))) emp = true
            <-> login < fifteen_days_before (clock w)
                /\ update < fifteen_days_before (clock w)) as Hiff.
    { unfold inactive. rewrite Hl, Hu. cbn [date_lt].
      rewrite andb_true_iff, !Z.ltb_lt. reflexivity. }
    split; [exact Hl|split; [exact Hu|split; [exact Hiff|]]].
    intros Hin Hlt Hlt'. rewrite Hsent. apply in_map_iff. exists emp.
    split; [reflexivity|]. apply filter_In. split; [exact Hin|].
    apply Hiff. split; assumption.
  - intros emp login Hlogin Hfresh. unfold inactive.
    unfold lastLogin. rewrite (instant_of_cell _ _ Hlogin). cbn [date_lt].
    apply andb_false_iff. left. apply Z.ltb_ge. exact Hfresh.
  - intros emp update Hupdate Hfresh. unfold inactive.
    unfold lastUpdate. rewrite (instant_of_cell _ _ Hupdate).
    apply andb_false_iff. right. cbn [date_lt]. apply Z.ltb_ge. exact Hfresh.
  - intros emp s Hs Hparse [Hcell|Hcell]; unfold inactive.
    + unfold lastLogin. rewrite Hcell, (instant_of_bad_text s Hs Hparse). reflexivity.
    + unfold lastUpdate. rewrite Hcell, (instant_of_bad_text s Hs Hparse).
      apply andb_false_iff. right. reflexivity.
  - intros emp Hin. rewrite Hsent in Hin. apply in_map_iff in Hin as (emp' & Hid & Hin).
    apply filter_In in Hin as [Hin Hstale]. exists emp'. auto.
Qed.

Lemma forEach_broadcast (w : world) (p : payload) (emps : list row) :
  forEach (fun emp => forEach (broadcast_one p) (broadcast_subs emp)) emps w
  = (Normal tt, w,
     flat_map (fun emp => flat_map (broadcast_one_trace w p) (broadcast_subs emp)) emps).
Proof.
  induction emps as [|emp rest IH]; [reflexivity|].
  cbn [forEach flat_map]. unfold bind at 1.
  rewrite forEach_broadcast_one, IH. reflexivity.
Qed.

Lemma broadcastNotification_run (roleType : value) (p : payload) (w : world) :
  let query := broadcast_query roleType in
  let emps := List.filter (matches query) (employees w) in
  broadcastNotification roleType p w
  = if outage w (served w)
    then (Normal tt, bump 1 w,
          [StoreSelect broadcast_columns query; Console (BroadcastError StoreFailure)])
    else (Normal tt, bump 1 w,
          StoreSelect broadcast_columns query
          :: flat_map (fun emp =>
                         flat_map (broadcast_one_trace (bump 1 w) (with_defaults p))
                           (broadcast_subs emp)) emps
          ++ [Console (BroadcastSent (length emps))]).
Proof.
  cbn zeta. unfold broadcastNotification, broadcast_query, try_catch, bind, store_select.
  destruct (outage w (served w)); [reflexivity|].
  change (answered (employees w) w) with (bump 1 w).
  rewrite forEach_broadcast. reflexivity.
Qed.

Lemma pushes_broadcast_one_trace (w : world) (p : payload) (subs : list value) :
  pushes (flat_map (broadcast_one_trace w p) subs) = List.map (fun sub => (sub, p)) subs.
Proof.
  induction subs as [|x l IH]; [reflexivity|].
  cbn [flat_map List.map]. rewrite pushes_app, IH.
  unfold broadcast_one_trace. destruct (transport w x); reflexivity.
Qed.

Lemma pushes_broadcast (roleType : value) (p : payload) (w : world) :
  pushes (broadcastNotification roleType p w).2
  = if outage w (served w) then []
    else broadcast_sends p (List.filter (matches (broadcast_query roleType)) (employees w)).
Proof.
  pose proof (broadcastNotification_run roleType p w) as Hrun. cbn zeta in Hrun.
  rewrite Hrun. clear Hrun. destruct (outage w (served w)); [reflexivity|].
  cbn [snd]. change (pushes (StoreSelect ?c ?f :: ?t)) with (pushes t).
  rewrite pushes_app. cbn [pushes omap app]. rewrite app_nil_r.
  unfold broadcast_sends.
  induction (List.filter _ (employees w)) as [|emp rest IH]; [reflexivity|].
  cbn [flat_map]. rewrite pushes_app, pushes_broadcast_one_trace, <- IH. reflexivity.
Qed.

Lemma sql_eq_literal (cell lit : value) : sql_eq cell lit = true -> sql_eq lit lit = true.
Proof.
  destruct cell, lit; cbn; try discriminate; intros _.
  - apply bool_decide_eq_true. reflexivity.
  - apply Z.eqb_refl.
  - apply bool_decide_eq_true. reflexivity.
Qed.

Lemma filter_singleton {A} (f : A -> bool) (l : list A) (x y : A) :
  List.filter f l = [x] -> In y l -> f y = true -> y = x.
Proof.
  intros Hf Hin Hy.
  assert (In y (List.filter f l)) as Hy' by (apply filter_In; split; assumption).
  rewrite Hf in Hy'. destruct Hy' as [->|[]]. reflexivity.
Qed.

(** A send of [sendNotificationToUser emp.empid] goes to a subscription of
    [emp] itself. *)
Lemma recipients_own (w : world) (emp : row) (sub : value) :
  In emp (employees w) ->
  In sub (recipients w (field emp "empid")) ->
  In sub (dispatch_subs emp).
Proof.
  intros Hemp. unfold recipients.
  destruct (outage w (served w)); [intros []|].
  destruct (List.filter _ (employees w)) as [|user [|? ?]] eqn:Hf; [intros []| |intros []].
  assert (In user (List.filter (matches (Eq "empid" (field emp "empid"))) (employees w)))
    as Huser by (rewrite Hf; left; reflexivity).
  apply filter_In in Huser as [_ Hm]. cbn [matches] in Hm.
  apply sql_eq_literal in Hm.
  rewrite (filter_singleton _ _ _ emp Hf Hemp Hm). intros Hsub. exact Hsub.
Qed.

Lemma sql_neq_true (cell : value) (s : string) :
  sql_neq cell (VStr s) = true -> cell <> VStr s.
Proof.
  intros Hneq ->. cbn in Hneq. rewrite bool_decide_eq_true_2 in Hneq by reflexivity.
  discriminate.
Qed.

(** C3. A broadcast called with the role Manager issues no send on behalf
    of a Manager row: every send goes to a subscription stored in a row
    whose [role_type] is not Manager, so a subscription that only Manager
    rows hold gets nothing. The same holds for the inactivity scan, which
    moreover calls [sendNotificationToUser] for the ids of such rows only. *)
Theorem managers_never_targeted (w : world) (p : payload) :
  let cast := (broadcastNotification (VStr "Manager") p w).2 in
  let check := (inactivityCheck w).2 in
  (forall sub p',
      In (WebPush sub p') cast ->
      exists emp : row,
        In emp (employees w) /\ field emp "role_type" <> VStr "Manager"
        /\ In sub (broadcast_subs emp))
  /\ (forall sub : value,
        (forall emp : row,
            In emp (employees w) -> In sub (broadcast_subs emp) ->
            field emp "role_type" = VStr "Manager") ->
        forall p', ~ In (WebPush sub p') cast)
  /\ (forall sub p',
        In (WebPush sub p') check ->
        exists emp : row,
          In emp (employees w) /\ field emp "role_type" <> VStr "Manager"
          /\ In sub (dispatch_subs emp))
  /\ (forall sub : value,
        (forall emp : row,
            In emp (employees w) -> In sub (dispatch_subs emp) ->
            field emp "role_type" = VStr "Manager") ->
        forall p', ~ In (WebPush sub p') check)
  /\ (forall empid : value,
        In empid (dispatched check) ->
        exists emp : row,
          In emp (employees w) /\ field emp "role_type" <> VStr "Manager"
          /\ field emp "empid" = empid).
Proof.
  cbn zeta.
  pose proof (inactivityCheck_run w) as Hrun. cbn zeta in Hrun.
  assert (forall sub p',
             In (WebPush sub p') (broadcastNotification (VStr "Manager") p w).2 ->
             exists emp : row,
               In emp (employees w) /\ field emp "role_type" <> VStr "Manager"
               /\ In sub (broadcast_subs emp)) as Hcast.
  { intros sub p' Hin. apply In_pushes in Hin. rewrite pushes_broadcast in Hin.
    destruct (outage w (served w)); [destruct Hin|].
    unfold broadcast_sends in Hin. apply in_flat_map in Hin as (emp & Hemp & Hsub).
    apply filter_In in Hemp as [Hemp Hrole].
    apply in_map_iff in Hsub as (sub' & Heq & Hsub). injection Heq as -> _.
    exists emp. repeat split; [exact Hemp| |exact Hsub].
    apply sql_neq_true. exact Hrole. }
  assert (forall sub p',
             In (WebPush sub p') (inactivityCheck w).2 ->
             exists emp : row,
               In emp (employees w) /\ field emp "role_type" <> VStr "Manager"
               /\ In sub (dispatch_subs emp)) as Hcheck.
  { intros sub p' Hin. apply In_pushes in Hin. rewrite Hrun in Hin.
    destruct (outage w (served w)); [destruct Hin|].
    cbn [snd] in Hin. rewrite !pushes_app in Hin. cbn in Hin. rewrite app_nil_r in Hin.
    apply pushes_scan_trace in Hin as (emp & k & Hemp & _ & _ & Hsub).
    apply filter_In in Hemp as [Hemp Hrole].
    exists emp. repeat split; [exact Hemp|apply sql_neq_true; exact Hrole|].
    apply (recipients_own (bump k (bump 1 w))); [exact Hemp|exact Hsub]. }
  split; [exact Hcast|split; [|split; [exact Hcheck|split]]].
  - intros sub Honly p' Hin.
    destruct (Hcast sub p' Hin) as (emp & Hemp & Hrole & Hsub).
    apply Hrole, (Honly emp Hemp Hsub).
  - intros sub Honly p' Hin.
    destruct (Hcheck sub p' Hin) as (emp & Hemp & Hrole & Hsub).
    apply Hrole, (Honly emp Hemp Hsub).
  - intros empid Hin. rewrite Hrun in Hin.
    destruct (outage w (served w)); [destruct Hin|].
    cbn [snd] in Hin. rewrite !dispatched_app, dispatched_scan_trace in Hin.
    cbn in Hin. rewrite app_nil_r in Hin.
    apply in_map_iff in Hin as (emp & Heq & Hemp).
    apply filter_In in Hemp as [Hemp _]. apply filter_In in Hemp as [Hemp Hrole].
    exists emp. repeat split; [exact Hemp|apply sql_neq_true; exact Hrole|exact Heq].
Qed.

Lemma sql_neq_iff (cell : value) (s : string) :
  sql_neq cell (VStr s) = true
  <-> cell <> VNull /\ cell <> VUndefined /\ cell <> VStr s.
Proof.
  split.
  - intros Hneq. repeat split; try (intros ->; discriminate Hneq).
    apply sql_neq_true. exact Hneq.
  - intros (Hnull & Hundef & Hs).
    destruct cell as [| |b|n|s'|items|fields]; try reflexivity; try congruence.
    cbn. rewrite bool_decide_eq_false_2; [reflexivity|congruence].
Qed.

(** C4, as amended. When the fetch succeeds, [broadcastNotification] sends
    the payload to every stored subscription of exactly the rows its query
    returns. With a truthy role argument these are the rows whose
    [role_type] is set and is not Manager, whatever the argument is; with a
    falsy one, all rows. *)
Theorem broadcast_reaches_non_managers (w : world) (roleType : value) (p : payload) :
  outage w (served w) = false ->
  let reached (emp : row) : bool :=
    if truthy roleType then sql_neq (field emp "role_type") (VStr "Manager") else true in
  let t := (broadcastNotification roleType p w).2 in
  pushes t = broadcast_sends p (List.filter reached (employees w))
  /\ (forall sub : value,
        In (WebPush sub (with_defaults p)) t
        <-> exists emp : row,
              In emp (employees w) /\ In sub (broadcast_subs emp) /\ reached emp = true)
  /\ (truthy roleType = true ->
      forall emp : row,
        reached emp = true
        <-> field emp "role_type" <> VNull /\ field emp "role_type" <> VUndefined
            /\ field emp "role_type" <> VStr "Manager").
Proof.
  intros Hup. cbn zeta.
  assert (pushes (broadcastNotification roleType p w).2
          = broadcast_sends p
              (List.filter
                 (fun emp => if truthy roleType
                             then sql_neq (field emp "role_type") (VStr "Manager") else true)
                 (employees w))) as Hp.
  { rewrite pushes_broadcast, Hup. unfold broadcast_query.
    destruct (truthy roleType); reflexivity. }
  split; [exact Hp|split].
  - intros sub. rewrite In_pushes, Hp. unfold broadcast_sends. split.
    + intros Hin. apply in_flat_map in Hin as (emp' & Hemp' & Hsub).
      apply filter_In in Hemp' as [Hemp' Hr].
      apply in_map_iff in Hsub as (sub' & Heq & Hsub). injection Heq as ->.
      exists emp'. repeat split; assumption.
    + intros (emp' & Hemp' & Hsub & Hr). apply in_flat_map. exists emp'. split.
      * apply filter_In. split; assumption.
      * apply in_map_iff. exists sub. split; [reflexivity|exact Hsub].
  - intros -> emp. apply sql_neq_iff.
Qed.

(** C5. When the employee has the subscriptions [subs], every one of them is
    sent to, whatever the push service answers for any of them, and the call
    returns normally; a broadcast likewise sends to every subscription of
    every row it fetched and returns normally. *)
Theorem failed_send_does_not_stop_the_others
    (w : world) (empid roleType : value) (p : payload) (user : row) (subs : list value) :
  outage w (served w) = false ->
  List.filter (matches (Eq "empid" empid)) (employees w) = [user] ->
  dispatch_subs user = subs ->
  ((sendNotificationToUser empid p w).1.1 = Normal tt
   /\ pushes (sendNotificationToUser empid p w).2
      = List.map (fun sub => (sub, with_defaults p)) subs)
  /\ ((broadcastNotification roleType p w).1.1 = Normal tt
      /\ pushes (broadcastNotification roleType p w).2
         = broadcast_sends p
             (List.filter (matches (broadcast_query roleType)) (employees w))).
Proof.
  intros Hup Hone Hsubs. split; split.
  - rewrite sendNotificationToUser_run. reflexivity.
  - rewrite sendNotificationToUser_run. cbn [snd]. rewrite pushes_dispatch_trace.
    unfold recipients. rewrite Hup, Hone, Hsubs. reflexivity.
  - pose proof (broadcastNotification_run roleType p w) as Hrun. cbn zeta in Hrun.
    rewrite Hrun, Hup. reflexivity.
  - rewrite pushes_broadcast, Hup. reflexivity.
Qed.

(** C6. When the lookup fails, when no employee has the id, or when the
    employee has no stored subscription, [sendNotificationToUser] returns
    normally after its one lookup: no send, no log line. *)
Theorem dispatch_to_nobody_is_silent (w : world) (empid : value) (p : payload) :
  outage w (served w) = true
  \/ List.filter (matches (Eq "empid" empid)) (employees w) = []
  \/ (exists user : row,
        List.filter (matches (Eq "empid" empid)) (employees w) = [user]
        /\ (truthy (field user "push_subscriptions") = false
            \/ field user "push_subscriptions" = VArr [])) ->
  sendNotificationToUser empid p w
  = (Normal tt, bump 1 w, [StoreSelect "push_subscriptions" (Eq "empid" empid)]).
Proof.
  intros Hcase. rewrite sendNotificationToUser_run.
  change (answered (employees w) w) with (bump 1 w).
  unfold dispatch_trace. replace (recipients w empid) with (@nil value); [reflexivity|].
  unfold recipients. destruct (outage w (served w)); [reflexivity|].
  destruct Hcase as [Hdown|[Hnone|(user & Hone & Hcell)]].
  - discriminate Hdown.
  - rewrite Hnone. reflexivity.
  - rewrite Hone. unfold dispatch_subs.
    destruct Hcell as [Hfalsy|Hempty].
    + rewrite Hfalsy. reflexivity.
    + rewrite Hempty. reflexivity.
Qed.

Lemma truthy_get_endpoint (sub : value) :
  truthy sub = true -> exists e : value, get_endpoint sub = Some e.
Proof. destruct sub; cbn; try discriminate; eauto. Qed.

(** [subscribe] once the request is complete, the store answers and
    exactly one row has the id. *)
Lemma subscribe_found (req : subscribe_request) (w : world) (user : row) :
  let sub := req_subscription req in
  let empid := req_empid req in
  let f := Eq "empid" empid in
  truthy sub = true -> truthy empid = true ->
  outage w (served w) = false ->
  List.filter (matches f) (employees w) = [user] ->
  subscribe req w
  = match subscribe_read (field user "push_subscriptions") with
    | VArr items =>
        match some_endpoint items (default VUndefined (get_endpoint sub)) with
        | None =>
            (Normal subscription_failed, bump 1 w,
             [subscriptions_lookup empid; Console (SubscriptionError TypeError)])
        | Some true => (Normal subscribed, bump 1 w, [subscriptions_lookup empid])
        | Some false =>
            let patch : row := {[ "push_subscriptions" := VArr (items ++ [sub]) ]} in
            if outage w (S (served w)) then
              (Normal subscription_failed, bump 2 w,
               [subscriptions_lookup empid; StoreUpdate patch f;
                Console (SubscriptionError StoreFailure)])
            else
              (Normal subscribed,
               answered
                 (List.map (fun r => if matches f r then assign patch r else r) (employees w))
                 (bump 1 w),
               [subscriptions_lookup empid; StoreUpdate patch f])
        end
    | _ =>
        (Normal subscription_failed, bump 1 w,
         [subscriptions_lookup empid; Console (SubscriptionError TypeError)])
    end.
Proof.
  cbn zeta. intros Hsub Hid Hup Hone.
  unfold subscribe. rewrite Hsub, Hid. cbn [negb orb].
  unfold try_catch, bind at 1. unfold store_select. rewrite Hup, Hone. cbn [single].
  change (answered (employees w) w) with (bump 1 w).
  destruct (subscribe_read (field user "push_subscriptions")) as [| | | | |items|];
    try reflexivity.
  destruct (some_endpoint items _) as [[|]|]; try reflexivity.
  unfold bind, store_update. cbn [outage served bump employees Nat.add].
  destruct (outage w (S (served w))); reflexivity.
Qed.

(** C7, the path that fails. A text cell that holds JSON other than an array
    makes [subscribe] answer 500 and store nothing: [subscriptions] is then
    no array, and [subscriptions.some] raises. *)
Theorem subscribe_rejects_text_cell_that_is_no_list
    (req : subscribe_request) (w : world) (user : row) (s : string) (parsed : value) :
  truthy (req_subscription req) = true -> truthy (req_empid req) = true ->
  outage w (served w) = false ->
  List.filter (matches (Eq "empid" (req_empid req))) (employees w) = [user] ->
  field user "push_subscriptions" = VStr s -> s <> EmptyString ->
  JSON_parse s = Some parsed -> isArray parsed = false ->
  subscribe req w
  = (Normal subscription_failed, bump 1 w,
     [subscriptions_lookup (req_empid req); Console (SubscriptionError TypeError)]).
Proof.
  intros Hsub Hid Hup Hone Hcell Hne Hparse Hshape.
  rewrite (subscribe_found req w user Hsub Hid Hup Hone).
  unfold subscribe_read. rewrite Hcell. cbn [truthy].
  rewrite bool_decide_eq_false_2 by exact Hne. cbn [negb]. rewrite Hparse.
  destruct parsed; try reflexivity. discriminate Hshape.
Qed.

(** The cells [subscribe] does read as the empty list: an absent or falsy
    cell, a text that is no JSON, a value that is neither text nor array. *)
Lemma subscribe_read_unreadable (stored : value) :
  truthy stored = false
  \/ (exists s, stored = VStr s /\ JSON_parse s = None)
  \/ (exists b, stored = VBool b) \/ (exists n, stored = VNum n)
  \/ (exists fields, stored = VObj fields) ->
  subscribe_read stored = VArr [].
Proof.
  unfold subscribe_read.
  intros [Hfalsy|[(s & -> & Hparse)|[(b & ->)|[(n & ->)|(fields & ->)]]]].
  - rewrite Hfalsy. reflexivity.
  - rewrite Hparse. destruct (truthy (VStr s)); reflexivity.
  - destruct (truthy (VBool b)); reflexivity.
  - destruct (truthy (VNum n)); reflexivity.
  - reflexivity.
Qed.

(** The dispatch side reads every cell that is no list as no subscription,
    text that parses to another shape included. *)
Lemma dispatch_reads_malformed_cell_as_empty (user : row) :
  let stored := field user "push_subscriptions" in
  truthy stored = false
  \/ (exists s, stored = VStr s /\ JSON_parse s = None)
  \/ (exists s parsed, stored = VStr s /\ JSON_parse s = Some parsed /\ isArray parsed = false)
  \/ (exists b, stored = VBool b) \/ (exists n, stored = VNum n)
  \/ (exists fields, stored = VObj fields) ->
  dispatch_subs user = [] /\ broadcast_subs user = [].
Proof.
  cbn zeta. unfold dispatch_subs, broadcast_subs, dispatch_read.
  intros [Hfalsy|[(s & -> & Hparse)|[(s & parsed & -> & Hparse & Hshape)
         |[(b & ->)|[(n & ->)|(fields & ->)]]]]].
  - rewrite Hfalsy. split; reflexivity.
  - rewrite Hparse. destruct (truthy (VStr s)); split; reflexivity.
  - rewrite Hparse. destruct (truthy (VStr s)); [|split; reflexivity].
    destruct parsed; try (split; reflexivity). discriminate Hshape.
  - destruct (truthy (VBool b)); split; reflexivity.
  - destruct (truthy (VNum n)); split; reflexivity.
  - split; reflexivity.
Qed.

Lemma strict_eq_sym (a b : value) : strict_eq a b = strict_eq b a.
Proof.
  destruct a, b; cbn; try reflexivity.
  - apply bool_decide_ext. split; congruence.
  - apply Z.eqb_sym.
  - apply bool_decide_ext. split; congruence.
Qed.

Lemma strict_eq_string (x : value) (ep : string) :
  strict_eq x (VStr ep) = true <-> x = VStr ep.
Proof.
  destruct x; cbn; try (split; [discriminate|congruence]).
  rewrite bool_decide_eq_true. split; congruence.
Qed.

Lemma same_endpoint_sym (a b : value) : same_endpoint a b = same_endpoint b a.
Proof.
  unfold same_endpoint. destruct (get_endpoint a), (get_endpoint b); try reflexivity.
  apply strict_eq_sym.
Qed.

Lemma some_endpoint_false (items : list value) (e : value) :
  some_endpoint items e = Some false ->
  Forall (fun s => exists x, get_endpoint s = Some x /\ strict_eq x e = false) items.
Proof.
  induction items as [|s rest IH]; intros Hsome; [constructor|].
  cbn in Hsome. destruct (get_endpoint s) as [x|] eqn:Hx; [|discriminate].
  destruct (strict_eq x e) eqn:Hxe; [discriminate|].
  constructor; [exists x; split; assumption|apply IH; exact Hsome].
Qed.

Lemma some_endpoint_true (items : list value) (e : value) :
  some_endpoint items e = Some true ->
  exists s x, In s items /\ get_endpoint s = Some x /\ strict_eq x e = true.
Proof.
  induction items as [|s rest IH]; intros Hsome; [discriminate|].
  cbn in Hsome. destruct (get_endpoint s) as [x|] eqn:Hx; [|discriminate].
  destruct (strict_eq x e) eqn:Hxe.
  - exists s, x. repeat split; [left; reflexivity|exact Hx|exact Hxe].
  - destruct (IH Hsome) as (s' & x' & Hin & Hx' & Hxe').
    exists s', x'. repeat split; [right; exact Hin|exact Hx'|exact Hxe'].
Qed.

Lemma some_endpoint_readable (items : list value) (e : value) :
  Forall (fun s => get_endpoint s <> None) items -> some_endpoint items e <> None.
Proof.
  induction 1 as [|s rest Hs _ IH]; [discriminate|].
  cbn. destruct (get_endpoint s) as [x|]; [|congruence].
  destruct (strict_eq x e); [discriminate|exact IH].
Qed.

Lemma some_endpoint_snoc (items : list value) (sub e : value) :
  some_endpoint items e = Some false ->
  get_endpoint sub = Some e -> strict_eq e e = true ->
  some_endpoint (items ++ [sub]) e = Some true.
Proof.
  intros Hsome Hsub Hrefl. induction items as [|s rest IH].
  - cbn. rewrite Hsub, Hrefl. reflexivity.
  - cbn in Hsome |- *. destruct (get_endpoint s) as [x|]; [|discriminate].
    destruct (strict_eq x e); [discriminate|]. apply IH. exact Hsome.
Qed.

Lemma filter_none {A} (f : A -> bool) (l : list A) :
  Forall (fun x => f x = false) l -> List.filter f l = [].
Proof.
  induction 1 as [|x l Hx _ IH]; [reflexivity|]. cbn. rewrite Hx. exact IH.
Qed.

Lemma unique_endpoints_tail (a : value) (items : list value) :
  unique_endpoints (a :: items) -> unique_endpoints items.
Proof.
  intros Hu i j x y Hi Hj Hsame.
  assert (S i = S j) as Heq by (apply (Hu (S i) (S j) x y); assumption).
  congruence.
Qed.

(** With a string endpoint, a list free of duplicates holds at most one
    entry for it. *)
Lemma copies_le_1 (sub : value) (ep : string) (items : list value) :
  get_endpoint sub = Some (VStr ep) ->
  unique_endpoints items -> (copies sub items <= 1)%nat.
Proof.
  intros Hsub. unfold copies. induction items as [|a rest IH]; intros Hu; [cbn; lia|].
  cbn [List.filter]. destruct (same_endpoint a sub) eqn:Ha.
  - rewrite filter_none; [cbn; lia|].
    apply Forall_forall. intros b Hb. destruct (same_endpoint b sub) eqn:Hbs; [|reflexivity].
    exfalso. apply list_elem_of_lookup in Hb as [k Hk].
    assert (same_endpoint a b = true) as Hab.
    { unfold same_endpoint in Ha, Hbs |- *. rewrite Hsub in Ha, Hbs.
      destruct (get_endpoint a) as [x|]; [|discriminate].
      destruct (get_endpoint b) as [y|]; [|discriminate].
      apply strict_eq_string in Ha, Hbs. subst x y. apply strict_eq_string. reflexivity. }
    assert (0%nat = S k) as Hbad by (apply (Hu 0%nat (S k) a b); [reflexivity|exact Hk|exact Hab]).
    discriminate Hbad.
  - apply IH. apply unique_endpoints_tail with a. exact Hu.
Qed.

Lemma unique_endpoints_snoc (items : list value) (sub : value) :
  unique_endpoints items ->
  Forall (fun s => same_endpoint s sub = false) items ->
  unique_endpoints (items ++ [sub]).
Proof.
  intros Hu Hnone i j a b Hi Hj Hsame.
  apply lookup_app_Some in Hi, Hj.
  destruct Hi as [Hi|[Hli Hi]], Hj as [Hj|[Hlj Hj]].
  - apply (Hu i j a b); assumption.
  - apply list_lookup_singleton_Some in Hj as [_ <-].
    apply list_elem_of_lookup_2, list_elem_of_In in Hi.
    rewrite Forall_forall in Hnone. rewrite Hnone in Hsame; [discriminate|].
    apply list_elem_of_In. exact Hi.
  - apply list_lookup_singleton_Some in Hi as [_ <-].
    apply list_elem_of_lookup_2 in Hj.
    rewrite Forall_forall in Hnone. rewrite same_endpoint_sym, Hnone in Hsame;
      [discriminate|exact Hj].
  - apply list_lookup_singleton_Some in Hi as [Hi _], Hj as [Hj _]. lia.
Qed.

Lemma field_assign_other (patch_col col : string) (x : value) (r : row) :
  patch_col <> col -> field (assign {[ patch_col := x ]} r) col = field r col.
Proof.
  intros Hne. unfold field, assign. rewrite lookup_union_r; [reflexivity|].
  apply lookup_singleton_ne. exact Hne.
Qed.

Lemma field_assign_same (col : string) (x : value) (r : row) :
  field (assign {[ col := x ]} r) col = x.
Proof.
  unfold field, assign. erewrite lookup_union_Some_l; [reflexivity|].
  apply lookup_singleton_eq.
Qed.

Lemma filter_map_update {A} (f : A -> bool) (g : A -> A) (l : list A) :
  (forall x, f (g x) = f x) ->
  List.filter f (List.map (fun x => if f x then g x else x) l) = List.map g (List.filter f l).
Proof.
  intros Hfg. induction l as [|x l IH]; [reflexivity|].
  cbn. destruct (f x) eqn:Hx.
  - rewrite Hfg, Hx. cbn. f_equal. exact IH.
  - rewrite Hx. exact IH.
Qed.

(** [subscribe] when the lookup fails or does not find exactly one row. *)
Lemma subscribe_not_found (req : subscribe_request) (w : world) :
  truthy (req_subscription req) = true -> truthy (req_empid req) = true ->
  single (if outage w (served w) then Error StoreFailure
          else Data (List.filter (matches (Eq "empid" (req_empid req))) (employees w)))
  = Error StoreFailure ->
  subscribe req w
  = (Normal subscription_failed, bump 1 w,
     [subscriptions_lookup (req_empid req); Console (SubscriptionError StoreFailure)]).
Proof.
  intros Hsub Hid Hfail. unfold subscribe. rewrite Hsub, Hid. cbn [negb orb].
  unfold try_catch, bind at 1. unfold store_select. rewrite Hfail. reflexivity.
Qed.

(** What [subscribe] does to the table: nothing, or the one row of the
    employee gets the list with the new subscription appended. *)
Lemma subscribe_table (req : subscribe_request) (w : world) :
  let sub := req_subscription req in
  let f := Eq "empid" (req_empid req) in
  employees (subscribe req w).1.2 = employees w
  \/ exists (user : row) (items : list value),
       truthy sub = true
       /\ List.filter (matches f) (employees w) = [user]
       /\ stored_list user = Some items
       /\ some_endpoint items (default VUndefined (get_endpoint sub)) = Some false
       /\ employees (subscribe req w).1.2
          = List.map (fun r => if matches f r
                               then assign {[ "push_subscriptions" := VArr (items ++ [sub]) ]} r
                               else r) (employees w).
Proof.
  cbn zeta.
  destruct (truthy (req_subscription req)) eqn:Hsub;
    [|left; unfold subscribe; rewrite Hsub; reflexivity].
  destruct (truthy (req_empid req)) eqn:Hid;
    [|left; unfold subscribe; rewrite Hsub, Hid; reflexivity].
  destruct (outage w (served w)) eqn:Hup.
  { left. rewrite subscribe_not_found; [reflexivity|assumption..|].
    rewrite Hup. reflexivity. }
  destruct (List.filter (matches (Eq "empid" (req_empid req))) (employees w))
    as [|user [|other rest]] eqn:Hone.
  { left. rewrite subscribe_not_found; [reflexivity|assumption..|].
    rewrite Hup, Hone. reflexivity. }
  2:{ left. rewrite subscribe_not_found; [reflexivity|assumption..|].
      rewrite Hup, Hone. reflexivity. }
  rewrite (subscribe_found req w user Hsub Hid Hup Hone).
  destruct (subscribe_read (field user "push_subscriptions")) as [| | | | |items|] eqn:Hread;
    try (left; reflexivity).
  destruct (some_endpoint items _) as [[|]|] eqn:Hsome; try (left; reflexivity).
  cbn zeta. destruct (outage w (S (served w))); [left; reflexivity|].
  right. exists user, items. unfold stored_list. rewrite Hread.
  repeat split; try reflexivity. exact Hsome.
Qed.

Lemma subscribe_keeps_unique (req : subscribe_request) (w : world) :
  store_unique w -> store_unique (subscribe req w).1.2.
Proof.
  intros Hinv r' items' Hin Hstored.
  destruct (subscribe_table req w) as [Hsame|(user & items & Hsub & Hone & Hlist & Hsome & Htable)].
  - rewrite Hsame in Hin. apply (Hinv r' items' Hin Hstored).
  - rewrite Htable in Hin. apply in_map_iff in Hin as (r & Hr' & Hr).
    destruct (matches (Eq "empid" (req_empid req)) r) eqn:Hm.
    + assert (r = user) as -> by (apply (filter_singleton _ _ _ _ Hone Hr Hm)).
      subst r'. unfold stored_list in Hstored. rewrite field_assign_same in Hstored.
      cbn in Hstored. injection Hstored as <-.
      apply unique_endpoints_snoc; [apply (Hinv user items Hr Hlist)|].
      destruct (truthy_get_endpoint _ Hsub) as [e He]. rewrite He in Hsome. cbn in Hsome.
      apply some_endpoint_false in Hsome.
      eapply Forall_impl; [exact Hsome|]. cbn. intros s (x & Hx & Hxe).
      unfold same_endpoint. rewrite Hx, He. exact Hxe.
    + subst r'. apply (Hinv r items' Hr Hstored).
Qed.

Lemma register_all_keeps_unique (reqs : list subscribe_request) :
  forall w : world, store_unique w -> store_unique (register_all reqs w).
Proof.
  induction reqs as [|req rest IH]; intros w Hinv; [exact Hinv|].
  cbn [register_all]. apply IH, subscribe_keeps_unique, Hinv.
Qed.

Lemma copies_ge_1 (sub s : value) (items : list value) :
  In s items -> same_endpoint s sub = true -> (1 <= copies sub items)%nat.
Proof.
  intros Hin Hsame. unfold copies.
  assert (In s (List.filter (fun s => same_endpoint s sub) items)) as Hf
    by (apply filter_In; split; assumption).
  destruct (List.filter _ items); [destruct Hf|cbn; lia].
Qed.

Lemma matches_empid_assign_subscriptions (empid x : value) (r : row) :
  matches (Eq "empid" empid) (assign {[ "push_subscriptions" := x ]} r)
  = matches (Eq "empid" empid) r.
Proof. cbn [matches]. rewrite field_assign_other; [reflexivity|discriminate]. Qed.

(** C2. Registering a subscription twice for an existing employee leaves
    exactly one stored entry with its endpoint: both calls answer 201, the
    second one writes nothing, and no sequence of calls ever makes a stored
    list hold two entries with the same endpoint. *)
Theorem register_twice_stores_once
    (w : world) (req : subscribe_request) (user : row) (items : list value) (ep : string) :
  let sub := req_subscription req in
  let f := Eq "empid" (req_empid req) in
  truthy sub = true -> truthy (req_empid req) = true ->
  get_endpoint sub = Some (VStr ep) ->
  (forall n, outage w n = false) ->
  List.filter (matches f) (employees w) = [user] ->
  stored_list user = Some items ->
  Forall (fun s => get_endpoint s <> None) items ->
  unique_endpoints items ->
  let first := subscribe req w in
  let second := subscribe req first.1.2 in
  first.1.1 = Normal subscribed
  /\ second = (Normal subscribed, bump 1 first.1.2, [subscriptions_lookup (req_empid req)])
  /\ (exists (user' : row) (items' : list value),
        List.filter (matches f) (employees second.1.2) = [user']
        /\ stored_list user' = Some items'
        /\ copies sub items' = 1%nat)
  /\ (forall (reqs : list subscribe_request) (w0 : world),
        store_unique w0 -> store_unique (register_all reqs w0)).
Proof.
  cbn zeta. intros Hsub Hid Hep Hup Hone Hlist Hread Huniq.
  pose proof Hlist as Hcell. unfold stored_list in Hcell.
  destruct (subscribe_read (field user "push_subscriptions")) as [| | | | |items0|]
    eqn:Hcell0; try discriminate Hcell.
  injection Hcell as ->.
  pose proof (subscribe_found req w user Hsub Hid (Hup _) Hone) as Hfirst.
  cbn zeta in Hfirst. rewrite Hcell0, Hep in Hfirst.
  change (default VUndefined (Some (VStr ep))) with (VStr ep) in Hfirst.
  pose proof (some_endpoint_readable items (VStr ep) Hread) as Hsome.
  destruct (some_endpoint items (VStr ep)) as [[|]|] eqn:Hfound; [| |congruence].
  - (* already stored: the second call reads the same row *)
    rewrite Hfirst. cbn [fst snd].
    pose proof (subscribe_found req (bump 1 w) user Hsub Hid (Hup _) Hone) as Hsecond.
    cbn zeta in Hsecond. rewrite Hcell0, Hep in Hsecond.
    change (default VUndefined (Some (VStr ep))) with (VStr ep) in Hsecond.
    rewrite Hfound in Hsecond. rewrite Hsecond. cbn [fst snd].
    split; [reflexivity|split; [reflexivity|split]];
      [|intros reqs w0; apply register_all_keeps_unique].
    exists user, items. repeat split; [exact Hone|exact Hlist|].
    apply Nat.le_antisymm; [apply (copies_le_1 _ ep); assumption|].
    destruct (some_endpoint_true _ _ Hfound) as (s & x & Hin & Hx & Hxe).
    apply (copies_ge_1 _ s); [exact Hin|].
    unfold same_endpoint. rewrite Hx, Hep. exact Hxe.
  - (* appended by the first call: the second call finds it *)
    rewrite Hup in Hfirst. rewrite Hfirst. cbn [fst snd].
    set (patch := {[ "push_subscriptions" := VArr (items ++ [req_subscription req]) ]} : row).
    set (w1 := answered _ (bump 1 w)).
    assert (List.filter (matches (Eq "empid" (req_empid req))) (employees w1)
            = [assign patch user]) as Hone1.
    { unfold w1. cbn [employees answered]. rewrite filter_map_update, Hone; [reflexivity|].
      intros r. apply matches_empid_assign_subscriptions. }
    pose proof (subscribe_found req w1 (assign patch user) Hsub Hid (Hup _) Hone1) as Hsecond.
    cbn zeta in Hsecond. unfold patch at 1 in Hsecond.
    rewrite field_assign_same in Hsecond. cbn [subscribe_read truthy] in Hsecond.
    rewrite Hep in Hsecond.
    change (default VUndefined (Some (VStr ep))) with (VStr ep) in Hsecond.
    rewrite (some_endpoint_snoc items _ (VStr ep) Hfound Hep) in Hsecond
      by (apply strict_eq_string; reflexivity).
    rewrite Hsecond. cbn [fst snd].
    split; [reflexivity|split; [reflexivity|split]];
      [|intros reqs w0; apply register_all_keeps_unique].
    exists (assign patch user), (items ++ [req_subscription req]).
    repeat split.
    + exact Hone1.
    + unfold stored_list, patch. rewrite field_assign_same. reflexivity.
    + unfold copies. rewrite List.filter_app, length_app.
      rewrite filter_none.
      * cbn. unfold same_endpoint. rewrite Hep.
        replace (strict_eq (VStr ep) (VStr ep)) with true; [reflexivity|].
        symmetry. apply strict_eq_string. reflexivity.
      * apply some_endpoint_false in Hfound.
        eapply Forall_impl; [exact Hfound|]. cbn. intros s (x & Hx & Hxe).
        unfold same_endpoint. rewrite Hx, Hep. exact Hxe.
Qed.

(** The table after [update(patch)] on the rows that match [f]. *)
Lemma store_update_run (patch : row) (f : filter) (w : world) :
  store_update patch f w
  = if outage w (served w)
    then (Normal (Error StoreFailure), bump 1 w, [StoreUpdate patch f])
    else (Normal (Data (List.map (assign patch) (List.filter (matches f) (employees w)))),
          answered (List.map (fun r => if matches f r then assign patch r else r) (employees w)) w,
          [StoreUpdate patch f]).
Proof. unfold store_update. destruct (outage w (served w)); reflexivity. Qed.

Lemma loginUser_run (email password : value) (w : world) :
  let sel := StoreSelect "*, role_type" (Eq "email" email) in
  loginUser email password w
  = if negb (truthy email) || negb (truthy password)
    then (Normal {| status := 400; body := "Email and password required" |}, w, [])
    else if outage w (served w)
    then (Normal {| status := 500; body := "Supabase login error" |}, bump 1 w,
          [sel; Console (LoginError StoreFailure)])
    else
      match List.filter (matches (Eq "email" email)) (employees w) with
      | [] => (Normal {| status := 401; body := "Invalid credentials" |}, bump 1 w, [sel])
      | user :: _ =>
          if negb (strict_eq (field user "password") password)
          then (Normal {| status := 401; body := "Invalid credentials" |}, bump 1 w, [sel])
          else
            let patch : row := {[ "last_login" := VStr (toISOString (clock w)) ]} in
            let f := Eq "empid" (field user "empid") in
            (Normal logged_in,
             (if outage w (S (S (served w))) then bump 3 w
              else answered
                     (List.map (fun r => if matches f r then assign patch r else r) (employees w))
                     (bump 2 w)),
             sel :: dispatch_trace (bump 1 w) (field user "empid") (login_notice user (clock w))
             ++ [StoreUpdate patch f])
      end.
Proof.
  cbn zeta. unfold loginUser.
  destruct (negb (truthy email) || negb (truthy password)); [reflexivity|].
  unfold try_catch, bind at 1. unfold store_select.
  destruct (outage w (served w)); [reflexivity|].
  change (answered (employees w) w) with (bump 1 w).
  destruct (List.filter _ (employees w)) as [|user others]; [reflexivity|].
  destruct (negb (strict_eq (field user "password") password)); [reflexivity|].
  unfold bind, Date_now, detached, try_catch.
  rewrite sendNotificationToUser_run.
  change (answered (employees (bump 1 w)) (bump 1 w)) with (bump 2 w).
  rewrite store_update_run. cbn [outage served bump Nat.add employees clock].
  destruct (outage w (S (S (served w)))); cbn -[dispatch_trace bump];
    rewrite ?bump_bump; reflexivity.
Qed.

Lemma updateEmployee_run (empid : value) (body : row) (w : world) :
  let f := Eq "empid" empid in
  let sel := StoreSelect "*" f in
  updateEmployee empid body w
  = if outage w (served w)
    then (Normal {| status := 500; body := "Supabase update error" |}, bump 1 w,
          [sel; Console (UpdateEmployeeError StoreFailure)])
    else
      match List.filter (matches f) (employees w) with
      | [] => (Normal {| status := 404; body := "Employee not found" |}, bump 1 w, [sel])
      | existing :: _ =>
          if negb (is_undefined (field body "stars")) then
            let patch : row := {[ "stars" := field body "stars" ]} in
            if outage w (S (served w))
            then (Normal {| status := 500; body := "Star update error" |}, bump 2 w,
                  [sel; StoreUpdate patch f; Console StarUpdateError])
            else (Normal star_updated,
                  answered
                    (List.map (fun r => if matches f r then assign patch r else r) (employees w))
                    (bump 1 w),
                  [sel; StoreUpdate patch f])
          else
            let updatePayload := build_updatePayload body in
            let warned :=
              if bool_decide (updatePayload = ∅) then [Console EmptyUpdatePayload] else [] in
            match validate_availability updatePayload existing with
            | None =>
                (Normal {| status := 400;
                           body := "Hours, from date, and to date are required for Partially Available" |},
                 bump 1 w, sel :: warned)
            | Some checked =>
                let patch : row :=
                  <[ "updated_at" := VStr (toISOString (clock w + istOffset)) ]> checked in
                if outage w (S (served w))
                then (Normal {| status := 500; body := "Supabase update error" |}, bump 2 w,
                      sel :: warned
                      ++ [StoreUpdate patch f; Console (UpdateEmployeeError StoreFailure)])
                else (Normal employee_updated,
                      answered
                        (List.map (fun r => if matches f r then assign patch r else r)
                           (employees w))
                        (bump 1 w),
                      sel :: warned ++ [StoreUpdate patch f])
            end
      end.
Proof.
  cbn zeta. unfold updateEmployee, try_catch, bind at 1. unfold store_select.
  destruct (outage w (served w)); [reflexivity|].
  change (answered (employees w) w) with (bump 1 w).
  destruct (List.filter _ (employees w)) as [|existing others]; [reflexivity|].
  destruct (negb (is_undefined (field body "stars"))).
  - unfold bind. rewrite store_update_run. cbn [outage served bump Nat.add employees].
    destruct (outage w (S (served w))); reflexivity.
  - unfold bind at 1.
    assert ((if bool_decide (build_updatePayload body = ∅)
             then console EmptyUpdatePayload else ret tt) (bump 1 w)
            = (Normal tt, bump 1 w,
               if bool_decide (build_updatePayload body = ∅)
               then [Console EmptyUpdatePayload] else [])) as ->
      by (destruct (bool_decide (build_updatePayload body = ∅)); reflexivity).
    destruct (validate_availability (build_updatePayload body) existing) as [checked|].
    + unfold bind, Date_now. rewrite store_update_run.
      cbn [outage served bump Nat.add employees clock].
      destruct (outage w (S (served w))); cbn -[bump];
        rewrite ?app_nil_r, ?bump_bump, <- ?app_assoc; reflexivity.
    + cbn -[bump]. rewrite app_nil_r. reflexivity.
Qed.

Lemma updateEmployeeStars_run (empid : value) (body : row) (w : world) :
  let patch : row := {[ "stars" := field body "stars" ]} in
  let f := Eq "empid" empid in
  updateEmployeeStars empid body w
  = if is_undefined (field body "stars")
    then (Normal {| status := 400; body := "Stars value is required" |}, w, [])
    else if outage w (served w)
    then (Normal {| status := 500; body := "Failed to update stars" |}, bump 1 w,
          [StoreUpdate patch f; Console (StarUpdateFailed StoreFailure)])
    else (Normal {| status := 200; body := "Stars updated successfully" |},
          answered (List.map (fun r => if matches f r then assign patch r else r) (employees w)) w,
          [StoreUpdate patch f]).
Proof.
  cbn zeta. unfold updateEmployeeStars.
  destruct (is_undefined (field body "stars")); [reflexivity|].
  unfold try_catch, bind. rewrite store_update_run.
  destruct (outage w (served w)); reflexivity.
Qed.

(** A successful [updateEmployee] whose body carries no [stars] wrote the
    checked payload, [updated_at] included, to the rows with the id. *)
Lemma updateEmployee_success
    (empid : value) (body : row) (w w' : world) (resp : response) (t : list effect) :
  updateEmployee empid body w = (Normal resp, w', t) ->
  status resp = 200 -> is_undefined (field body "stars") = true ->
  exists patch : row,
    patch !! "updated_at" = Some (VStr (toISOString (clock w + istOffset)))
    /\ In (StoreUpdate patch (Eq "empid" empid)) t
    /\ employees w'
       = List.map (fun r => if matches (Eq "empid" empid) r then assign patch r else r)
           (employees w).
Proof.
  intros Hrun Hok Hstars.
  pose proof (updateEmployee_run empid body w) as Heq. cbn zeta in Heq.
  rewrite Hrun, Hstars in Heq. cbn [negb] in Heq.
  destruct (outage w (served w)); [injection Heq as -> _ _; discriminate Hok|].
  destruct (List.filter _ (employees w)) as [|existing others];
    [injection Heq as -> _ _; discriminate Hok|].
  destruct (validate_availability (build_updatePayload body) existing) as [checked|];
    [|injection Heq as -> _ _; discriminate Hok].
  destruct (outage w (S (served w))); [injection Heq as -> _ _; discriminate Hok|].
  pose proof (f_equal snd Heq) as Ht. pose proof (f_equal (fun x => x.1.2) Heq) as Hw.
  cbn [fst snd] in Ht, Hw. subst t w'. clear Heq Hrun.
  exists (<[ "updated_at" := VStr (toISOString (clock w + istOffset)) ]> checked).
  split; [apply lookup_insert_eq|split; [|reflexivity]].
  right. apply in_app_iff. right. left. reflexivity.
Qed.

Lemma field_assign_patched (patch r : row) (col : string) (x : value) :
  patch !! col = Some x -> field (assign patch r) col = x.
Proof.
  intros Hcol. unfold field, assign. erewrite lookup_union_Some_l; [reflexivity|exact Hcol].
Qed.

(** C9, as amended. Every successful authentication sends the store a write
    of [last_login], set to the time of the login, for the id of the
    authenticated employee, and the rows with that id carry it once the
    store accepts the write. Every successful [updateEmployee] whose body
    carries no [stars] value writes [updated_at] on the rows it updates.
    [updateEmployeeStars] writes the stars and nothing else. *)
Theorem login_and_update_refresh_timestamps (w : world) :
  (forall (email password : value) (resp : response) (w' : world) (t : list effect),
      loginUser email password w = (Normal resp, w', t) -> status resp = 200 ->
      exists user : row,
        In user (employees w) /\ matches (Eq "email" email) user = true
        /\ strict_eq (field user "password") password = true
        /\ let patch : row := {[ "last_login" := VStr (toISOString (clock w)) ]} in
           let f := Eq "empid" (field user "empid") in
           In (StoreUpdate patch f) t
           /\ (outage w (S (S (served w))) = false ->
               employees w'
               = List.map (fun r => if matches f r then assign patch r else r) (employees w)))
  /\ (forall (empid : value) (body : row) (resp : response) (w' : world) (t : list effect),
        updateEmployee empid body w = (Normal resp, w', t) -> status resp = 200 ->
        is_undefined (field body "stars") = true ->
        exists patch : row,
          patch !! "updated_at" = Some (VStr (toISOString (clock w + istOffset)))
          /\ In (StoreUpdate patch (Eq "empid" empid)) t
          /\ employees w'
             = List.map (fun r => if matches (Eq "empid" empid) r then assign patch r else r)
                 (employees w))
  /\ (forall (empid : value) (body patch : row) (f : filter),
        In (patch, f) (writes (updateEmployeeStars empid body w).2) ->
        patch = {[ "stars" := field body "stars" ]} /\ f = Eq "empid" empid).
Proof.
  split; [|split; [intros empid body resp w' t; apply updateEmployee_success|]].
  2:{ intros empid body patch f Hin.
      pose proof (updateEmployeeStars_run empid body w) as Hrun. cbn zeta in Hrun.
      rewrite Hrun in Hin.
      destruct (is_undefined (field body "stars")); [destruct Hin|].
      destruct (outage w (served w)); cbn in Hin;
        destruct Hin as [Heq|[]]; injection Heq as <- <-; split; reflexivity. }
  intros email password resp w' t Hrun Hok.
  pose proof (loginUser_run email password w) as Heq. cbn zeta in Heq.
  rewrite Hrun in Heq.
  destruct (negb (truthy email) || negb (truthy password));
    [injection Heq as -> _ _; discriminate Hok|].
  destruct (outage w (served w)); [injection Heq as -> _ _; discriminate Hok|].
  destruct (List.filter _ (employees w)) as [|user others] eqn:Hfound;
    [injection Heq as -> _ _; discriminate Hok|].
  destruct (strict_eq (field user "password") password) eqn:Hpw;
    [|injection Heq as -> _ _; discriminate Hok].
  cbn [negb] in Heq. clear Hrun.
  pose proof (f_equal snd Heq) as Ht. pose proof (f_equal (fun x => x.1.2) Heq) as Hw.
  cbn [fst snd] in Ht, Hw. subst t w'. clear Heq.
  assert (In user (List.filter (matches (Eq "email" email)) (employees w))) as Hin
    by (rewrite Hfound; left; reflexivity).
  apply filter_In in Hin as [Hin Hmail].
  exists user. split; [exact Hin|split; [exact Hmail|split; [exact Hpw|]]].
  cbn zeta. split.
  - right. apply in_app_iff. right. left. reflexivity.
  - intros ->. reflexivity.
Qed.

(** C10. On the path of [updateEmployee] that is not the stars shortcut, the
    [updated_at] written is the ISO string of the time of the update plus
    19 800 000 ms. Read back by the scan it denotes that later instant, so
    the test [lastUpdate < cutoff] holds only for an update made more than
    five and a half hours before the cutoff. *)
Theorem updated_at_runs_five_and_a_half_hours_ahead
    (w w' : world) (empid : value) (body : row) (resp : response) (t : list effect) :
  updateEmployee empid body w = (Normal resp, w', t) -> status resp = 200 ->
  is_undefined (field body "stars") = true ->
  let stamp := toISOString (clock w + 19800000) in
  Date_parse stamp = Some (clock w + 19800000) -> stamp <> EmptyString ->
  (exists patch : row,
      employees w'
      = List.map (fun r => if matches (Eq "empid" empid) r then assign patch r else r)
          (employees w)
      /\ forall r : row, field (assign patch r) "updated_at" = VStr stamp)
  /\ (forall emp : row,
        field emp "updated_at" = VStr stamp ->
        lastUpdate emp = Some (clock w + 19800000)
        /\ forall cutoff : Z,
             date_lt (lastUpdate emp) (Some cutoff) = true <-> clock w < cutoff - 19800000).
Proof.
  intros Hrun Hok Hstars stamp Hparse Hne. split.
  - destruct (updateEmployee_success _ _ _ _ _ _ Hrun Hok Hstars) as (patch & Hat & _ & Htable).
    exists patch. split; [exact Htable|].
    intros r. apply field_assign_patched. exact Hat.
  - intros emp Hcell.
    assert (lastUpdate emp = Some (clock w + 19800000)) as Hlast.
    { unfold lastUpdate. rewrite Hcell. cbn [truthy new_Date].
      rewrite bool_decide_eq_false_2 by exact Hne. exact Hparse. }
    split; [exact Hlast|]. intros cutoff. rewrite Hlast. cbn [date_lt]. lia.
Qed.

(** C8. When the fetch of the employees fails, the run stops there: the
    error is caught and logged, no notification is sent, no count is logged,
    the store sees the one request, and the callback returns normally. *)
Theorem fetch_failure_aborts_run (w : world) :
  outage w (served w) = true ->
  inactivityCheck w
  = (Normal tt, bump 1 w,
     [Console RunningInactivityCheck;
      StoreSelect scan_columns (Neq "role_type" (VStr "Manager"));
      Console (SchedulerError StoreFailure)]).
Proof.
  intros Hdown. pose proof (inactivityCheck_run w) as Hrun. cbn zeta in Hrun.
  rewrite Hdown in Hrun. exact Hrun.
Qed.

End Facts.

(** * Further properties of the handlers *)

(** One outcome of a handler: name the response, then settle what is said
    about it. *)
Ltac answer_case :=
  eexists; split; [reflexivity|]; cbn [fst snd status];
  repeat split; intros;
  solve [reflexivity | lia | discriminate | congruence | tauto | intuition congruence].

Section MoreFacts.
Context `{Host}.

Lemma writes_concat (t1 t2 : list effect) : writes (t1 ++ t2) = writes t1 ++ writes t2.
Proof. apply omap_app. Qed.

Lemma writes_send_one_trace (w : world) (empid : value) (p : payload) (subs : list value) :
  writes (flat_map (send_one_trace w empid p) subs) = [].
Proof.
  induction subs as [|x l IH]; [reflexivity|].
  cbn [flat_map]. rewrite writes_concat, IH, app_nil_r.
  unfold send_one_trace. destruct (transport w x) as [e|]; [|reflexivity].
  by_status_code e.
Qed.

Lemma writes_dispatch_trace (w : world) (empid : value) (p : payload) :
  writes (dispatch_trace w empid p) = [].
Proof.
  unfold dispatch_trace. change (writes (StoreSelect ?c ?f :: ?t)) with (writes t).
  destruct (recipients w empid) as [|sub subs]; [reflexivity|].
  rewrite writes_concat, writes_send_one_trace. reflexivity.
Qed.

Lemma writes_scan_trace (emps : list row) (cutoffDate : option Z) :
  forall w : world, writes (scan_trace w emps cutoffDate) = [].
Proof.
  induction emps as [|emp rest IH]; intros w; [reflexivity|].
  cbn [scan_trace]. destruct (inactive cutoffDate emp); [|apply IH].
  rewrite writes_concat, writes_dispatch_trace, IH. reflexivity.
Qed.

Lemma writes_broadcast_trace (w : world) (p : payload) (emps : list row) :
  writes (flat_map (fun emp => flat_map (broadcast_one_trace w p) (broadcast_subs emp)) emps)
  = [].
Proof.
  induction emps as [|emp rest IH]; [reflexivity|].
  cbn [flat_map]. rewrite writes_concat, IH, app_nil_r.
  induction (broadcast_subs emp) as [|x l IHl]; [reflexivity|].
  cbn [flat_map]. rewrite writes_concat, IHl, app_nil_r.
  unfold broadcast_one_trace. destruct (transport w x); reflexivity.
Qed.

(** X1. Every payload that is pushed, by [sendNotificationToUser] or by
    [broadcastNotification], is the payload of the call with the defaults
    applied: it has an icon and an image, those of the caller when the
    caller gave them, and the title, message and url of the caller. *)
Theorem pushed_payload_has_icon_and_image
    (w : world) (empid roleType : value) (p : payload) :
  (forall sub p',
      In (WebPush sub p') (sendNotificationToUser empid p w).2
      \/ In (WebPush sub p') (broadcastNotification roleType p w).2 ->
      p' = with_defaults p)
  /\ missing (icon (with_defaults p)) = false
  /\ missing (image (with_defaults p)) = false
  /\ (missing (icon p) = false -> icon (with_defaults p) = icon p)
  /\ (missing (image p) = false -> image (with_defaults p) = image p)
  /\ (title (with_defaults p), message (with_defaults p), url (with_defaults p))
     = (title p, message p, url p).
Proof.
  split; [|repeat split].
  - intros sub p' [Hin|Hin]; apply In_pushes in Hin.
    + rewrite sendNotificationToUser_run in Hin. cbn [snd] in Hin.
      rewrite pushes_dispatch_trace in Hin.
      apply in_map_iff in Hin as (x & Heq & _). congruence.
    + rewrite pushes_broadcast in Hin.
      destruct (outage w (served w)); [destruct Hin|].
      unfold broadcast_sends in Hin. apply in_flat_map in Hin as (emp & _ & Hin).
      apply in_map_iff in Hin as (x & Heq & _). congruence.
  - cbn. destruct (missing (icon p)) eqn:Hm; [reflexivity|exact Hm].
  - cbn. destruct (missing (image p)) eqn:Hm; [reflexivity|exact Hm].
  - intros Hm. cbn. rewrite Hm. reflexivity.
  - intros Hm. cbn. rewrite Hm. reflexivity.
Qed.

(** X2. Sending never changes the store: a call of [sendNotificationToUser],
    a broadcast and a whole run of the inactivity scan issue no write and
    leave every row as it was. *)
Theorem notifications_never_write (w : world) (empid roleType : value) (p : payload) :
  (employees (sendNotificationToUser empid p w).1.2 = employees w
   /\ writes (sendNotificationToUser empid p w).2 = [])
  /\ (employees (broadcastNotification roleType p w).1.2 = employees w
      /\ writes (broadcastNotification roleType p w).2 = [])
  /\ (employees (inactivityCheck w).1.2 = employees w
      /\ writes (inactivityCheck w).2 = []).
Proof.
  split; [|split].
  - rewrite sendNotificationToUser_run. split; [reflexivity|apply writes_dispatch_trace].
  - pose proof (broadcastNotification_run roleType p w) as Hrun. cbn zeta in Hrun.
    rewrite Hrun. destruct (outage w (served w)); [split; reflexivity|].
    split; [reflexivity|]. cbn [snd].
    change (writes (StoreSelect ?c ?f :: ?t)) with (writes t).
    rewrite writes_concat, writes_broadcast_trace. reflexivity.
  - pose proof (inactivityCheck_run w) as Hrun. cbn zeta in Hrun.
    rewrite Hrun. destruct (outage w (served w)); [split; reflexivity|].
    split; [reflexivity|]. cbn [snd].
    rewrite !writes_concat, writes_scan_trace. reflexivity.
Qed.

(** X3. A subscription the push service reports as gone (410 or 404) is
    logged as expired and stays stored: the table is unchanged, and the next
    call for the employee sends to it again. *)
Theorem expired_subscription_is_logged_and_kept
    (w : world) (empid : value) (p : payload) (user : row) (sub : value) (code : Z) :
  outage w (served w) = false ->
  List.filter (matches (Eq "empid" empid)) (employees w) = [user] ->
  In sub (dispatch_subs user) ->
  transport w sub = Some (PushFailure (Some code)) -> code = 410 \/ code = 404 ->
  outage w (S (served w)) = false ->
  In (Console (SubscriptionExpired empid)) (sendNotificationToUser empid p w).2
  /\ employees (sendNotificationToUser empid p w).1.2 = employees w
  /\ In (WebPush sub (with_defaults p))
       (sendNotificationToUser empid p (sendNotificationToUser empid p w).1.2).2.
Proof.
  intros Hup Hone Hsub Hgone Hcode Hup'.
  assert (recipients w empid = dispatch_subs user) as Hrec
    by (unfold recipients; rewrite Hup, Hone; reflexivity).
  assert (recipients (bump 1 w) empid = dispatch_subs user) as Hrec'
    by (unfold recipients; cbn [outage served bump employees Nat.add];
        rewrite Hup', Hone; reflexivity).
  rewrite !sendNotificationToUser_run. cbn [fst snd].
  change (answered (employees w) w) with (bump 1 w).
  split; [|split; [reflexivity|]].
  - unfold dispatch_trace. rewrite Hrec. right.
    destruct (dispatch_subs user) as [|s0 subs] eqn:Hsubs; [destruct Hsub|].
    apply in_app_iff. left. apply in_flat_map. exists sub. split; [exact Hsub|].
    unfold send_one_trace. rewrite Hgone. right.
    destruct Hcode as [-> | ->]; left; reflexivity.
  - apply In_pushes. rewrite pushes_dispatch_trace, Hrec'.
    apply in_map_iff. exists sub. split; [reflexivity|exact Hsub].
Qed.

Lemma Forall2_map_same {A} (R : A -> A -> Prop) (h : A -> A) (l : list A) :
  (forall x, In x l -> R x (h x)) -> Forall2 R l (List.map h l).
Proof.
  induction l as [|x l IH]; intros Hall; [constructor|].
  cbn. constructor; [apply Hall; left; reflexivity|].
  apply IH. intros y Hy. apply Hall. right. exact Hy.
Qed.

Lemma Forall2_same {A} (R : A -> A -> Prop) (l : list A) :
  (forall x, R x x) -> Forall2 R l l.
Proof. intros Hrefl. induction l; constructor; auto. Qed.

Lemma lookup_assign_other (patch_col col : string) (x : value) (r : row) :
  col <> patch_col -> assign {[ patch_col := x ]} r !! col = r !! col.
Proof.
  intros Hne. unfold assign. apply lookup_union_r, lookup_singleton_ne. congruence.
Qed.

(** X4. [subscribe] changes nothing but the [push_subscriptions] cell of the
    rows with the id of the request: every other column and every other row
    is as before, and a stored list is only ever extended at its end. *)
Theorem subscribe_touches_only_the_subscriptions (req : subscribe_request) (w : world) :
  Forall2
    (fun r r' : row =>
       (forall col : string, col <> "push_subscriptions" -> r' !! col = r !! col)
       /\ (matches (Eq "empid" (req_empid req)) r = false -> r' = r)
       /\ (forall items : list value,
             stored_list r = Some items ->
             exists more : list value, stored_list r' = Some (items ++ more)))
    (employees w) (employees (subscribe req w).1.2).
Proof.
  destruct (subscribe_table req w) as [Hsame|(user & items & Hsub & Hone & Hlist & Hsome & Htable)].
  - rewrite Hsame. apply Forall2_same. intros r. repeat split.
    intros items Hitems. exists []. rewrite app_nil_r. exact Hitems.
  - rewrite Htable. apply Forall2_map_same. intros r Hr.
    destruct (matches (Eq "empid" (req_empid req)) r) eqn:Hm.
    + assert (r = user) as -> by (apply (filter_singleton _ _ _ _ Hone Hr Hm)).
      split; [|split].
      * intros col Hcol. apply lookup_assign_other. exact Hcol.
      * discriminate.
      * intros items' Hitems. rewrite Hlist in Hitems. injection Hitems as <-.
        exists [req_subscription req]. unfold stored_list.
        rewrite field_assign_same. reflexivity.
    + repeat split. intros items' Hitems. exists []. rewrite app_nil_r. exact Hitems.
Qed.

(** [subscribe] in full, by cases. *)
Lemma subscribe_run (req : subscribe_request) (w : world) :
  let sub := req_subscription req in
  let empid := req_empid req in
  let f := Eq "empid" empid in
  subscribe req w
  = if negb (truthy sub) || negb (truthy empid)
    then (Normal {| status := 400; body := "Subscription and empid required" |}, w, [])
    else
      match single (if outage w (served w) then Error StoreFailure
                    else Data (List.filter (matches f) (employees w))) with
      | Error _ =>
          (Normal subscription_failed, bump 1 w,
           [subscriptions_lookup empid; Console (SubscriptionError StoreFailure)])
      | Data user =>
          match subscribe_read (field user "push_subscriptions") with
          | VArr items =>
              match some_endpoint items (default VUndefined (get_endpoint sub)) with
              | None =>
                  (Normal subscription_failed, bump 1 w,
                   [subscriptions_lookup empid; Console (SubscriptionError TypeError)])
              | Some true => (Normal subscribed, bump 1 w, [subscriptions_lookup empid])
              | Some false =>
                  let patch : row := {[ "push_subscriptions" := VArr (items ++ [sub]) ]} in
                  if outage w (S (served w)) then
                    (Normal subscription_failed, bump 2 w,
                     [subscriptions_lookup empid; StoreUpdate patch f;
                      Console (SubscriptionError StoreFailure)])
                  else
                    (Normal subscribed,
                     answered
                       (List.map (fun r => if matches f r then assign patch r else r)
                          (employees w))
                       (bump 1 w),
                     [subscriptions_lookup empid; StoreUpdate patch f])
              end
          | _ =>
              (Normal subscription_failed, bump 1 w,
               [subscriptions_lookup empid; Console (SubscriptionError TypeError)])
          end
      end.
Proof.
  cbn zeta.
  destruct (truthy (req_subscription req)) eqn:Hsub;
    [|unfold subscribe; rewrite Hsub; reflexivity].
  destruct (truthy (req_empid req)) eqn:Hid;
    [|unfold subscribe; rewrite Hsub, Hid; reflexivity].
  cbn [negb orb].
  destruct (outage w (served w)) eqn:Hup.
  { rewrite subscribe_not_found; [reflexivity|assumption..|]. rewrite Hup. reflexivity. }
  destruct (List.filter (matches (Eq "empid" (req_empid req))) (employees w))
    as [|user [|other rest]] eqn:Hone.
  - rewrite subscribe_not_found; [reflexivity|assumption..|]. rewrite Hup, Hone. reflexivity.
  - cbn [single]. apply (subscribe_found req w user Hsub Hid Hup Hone).
  - rewrite subscribe_not_found; [reflexivity|assumption..|]. rewrite Hup, Hone. reflexivity.
Qed.

(** X5. [subscribe] always answers, with 400, 201 or 500: 400 exactly when
    the subscription or the id is missing, and then without any request to
    the store; 500, not 404, for an id no employee has; and whatever it
    answers other than 201, the table is as before. *)
Theorem subscribe_answers (req : subscribe_request) (w : world) :
  exists resp : response,
    (subscribe req w).1.1 = Normal resp
    /\ (status resp = 400 \/ status resp = 201 \/ status resp = 500)
    /\ (status resp = 400
        <-> truthy (req_subscription req) = false \/ truthy (req_empid req) = false)
    /\ (status resp = 400 -> (subscribe req w).2 = [])
    /\ (status resp <> 201 -> employees (subscribe req w).1.2 = employees w)
    /\ (status resp <> 400 ->
        List.filter (matches (Eq "empid" (req_empid req))) (employees w) = [] ->
        status resp = 500 /\ writes (subscribe req w).2 = []).
Proof.
  pose proof (subscribe_run req w) as Hrun. cbn zeta in Hrun. rewrite Hrun. clear Hrun.
  destruct (truthy (req_subscription req)) eqn:Hsub; cbn [negb orb]; [|answer_case].
  destruct (truthy (req_empid req)) eqn:Hid; cbn [negb orb]; [|answer_case].
  destruct (outage w (served w)) eqn:Hup; cbn [single]; [answer_case|].
  destruct (List.filter (matches (Eq "empid" (req_empid req))) (employees w))
    as [|user [|other rest]] eqn:Hone; cbn [single]; [answer_case| |answer_case].
  destruct (subscribe_read (field user "push_subscriptions")) as [| | | | |items|];
    try answer_case.
  destruct (some_endpoint items _) as [[|]|]; try answer_case.
  cbn zeta. destruct (outage w (S (served w))); answer_case.
Qed.

(** X6. A cell [subscribe] cannot read as a list, because it is absent or
    falsy, a text that is no JSON, or a value that is neither text nor
    array, is replaced by the list of the one new subscription. *)
Theorem subscribe_replaces_unreadable_cell
    (req : subscribe_request) (w : world) (user : row) :
  let sub := req_subscription req in
  let f := Eq "empid" (req_empid req) in
  let stored := field user "push_subscriptions" in
  truthy sub = true -> truthy (req_empid req) = true ->
  outage w (served w) = false -> outage w (S (served w)) = false ->
  List.filter (matches f) (employees w) = [user] ->
  truthy stored = false
  \/ (exists s, stored = VStr s /\ JSON_parse s = None)
  \/ (exists b, stored = VBool b) \/ (exists n, stored = VNum n)
  \/ (exists fields, stored = VObj fields) ->
  let patch : row := {[ "push_subscriptions" := VArr [sub] ]} in
  subscribe req w
  = (Normal subscribed,
     answered (List.map (fun r => if matches f r then assign patch r else r) (employees w))
       (bump 1 w),
     [subscriptions_lookup (req_empid req); StoreUpdate patch f]).
Proof.
  cbn zeta. intros Hsub Hid Hup Hup' Hone Hcell.
  rewrite (subscribe_found req w user Hsub Hid Hup Hone).
  rewrite (subscribe_read_unreadable _ Hcell). cbn [some_endpoint app]. cbn zeta.
  rewrite Hup'. reflexivity.
Qed.

(** X7. [loginUser] always answers, with 400, 401, 500 or 200. Unless it
    answers 200 it writes nothing, notifies nobody and leaves the table as it
    was; an unknown email and a wrong password get the same 401 after the
    same single query. *)
Theorem failed_login_leaves_no_trace (email password : value) (w : world) :
  exists resp : response,
    (loginUser email password w).1.1 = Normal resp
    /\ (status resp = 400 \/ status resp = 401 \/ status resp = 500 \/ status resp = 200)
    /\ (status resp <> 200 ->
        employees (loginUser email password w).1.2 = employees w
        /\ writes (loginUser email password w).2 = []
        /\ pushes (loginUser email password w).2 = []
        /\ dispatched (loginUser email password w).2 = [])
    /\ (status resp = 401 ->
        resp = {| status := 401; body := "Invalid credentials" |}
        /\ (loginUser email password w).2 = [StoreSelect "*, role_type" (Eq "email" email)]).
Proof.
  pose proof (loginUser_run email password w) as Hrun. cbn zeta in Hrun. rewrite Hrun.
  clear Hrun.
  destruct (negb (truthy email) || negb (truthy password)); [answer_case|].
  destruct (outage w (served w)); [answer_case|].
  destruct (List.filter _ (employees w)) as [|user others]; [answer_case|].
  destruct (negb (strict_eq (field user "password") password)); answer_case.
Qed.

(** X8. A login succeeds whether or not the store accepts the write of
    [last_login]: when the write is rejected the answer is still 200 and no
    row has changed. *)
Theorem login_succeeds_without_last_login
    (email password : value) (w : world) (user : row) (others : list row) :
  truthy email = true -> truthy password = true ->
  outage w (served w) = false ->
  List.filter (matches (Eq "email" email)) (employees w) = user :: others ->
  strict_eq (field user "password") password = true ->
  outage w (S (S (served w))) = true ->
  (loginUser email password w).1.1 = Normal logged_in
  /\ employees (loginUser email password w).1.2 = employees w
  /\ writes (loginUser email password w).2
     = [({[ "last_login" := VStr (toISOString (clock w)) ]},
         Eq "empid" (field user "empid"))].
Proof.
  intros Hmail Hpw Hup Hfound Hmatch Hdown.
  pose proof (loginUser_run email password w) as Hrun. cbn zeta in Hrun. rewrite Hrun.
  clear Hrun. rewrite Hmail, Hpw, Hup, Hfound, Hmatch, Hdown. cbn [negb orb fst snd].
  repeat split.
  change (writes (StoreSelect ?c ?f :: ?t)) with (writes t).
  rewrite writes_concat, writes_dispatch_trace. reflexivity.
Qed.

(** Membership in a list of column names that is written out. *)
Ltac listed := cbn; solve [repeat (first [left; reflexivity | right])].

Lemma keys_within_insert (ks : list string) (m : row) (k : string) (v : value) :
  In k ks -> keys_within ks m -> keys_within ks (<[ k := v ]> m).
Proof.
  intros Hk Hm j [x Hj]. destruct (decide (k = j)) as [<-|Hne]; [exact Hk|].
  rewrite lookup_insert_ne in Hj by exact Hne. apply Hm. exists x. exact Hj.
Qed.

Lemma keys_within_copy_fields (ks fields : list string) (body : row) :
  (forall f, In f fields -> In f ks) ->
  forall p : row, keys_within ks p -> keys_within ks (copy_fields fields body p).
Proof.
  unfold copy_fields. induction fields as [|f fields IH]; intros Hsub p Hp; [exact Hp|].
  cbn [fold_left]. apply IH; [intros g Hg; apply Hsub; right; exact Hg|].
  destruct (body !! f) as [v|]; [|exact Hp].
  destruct (is_undefined v); [exact Hp|].
  apply keys_within_insert; [apply Hsub; left; reflexivity|exact Hp].
Qed.

Lemma keys_within_copy_list_field (ks : list string) (f : string) (body p : row) :
  In f ks -> keys_within ks p -> keys_within ks (copy_list_field f body p).
Proof.
  intros Hf Hp. unfold copy_list_field.
  destruct (body !! f) as [v|]; [|exact Hp].
  destruct (normalizeListForStore v); [|exact Hp].
  apply keys_within_insert; assumption.
Qed.

Lemma keys_within_build (body : row) :
  keys_within writable_columns (build_updatePayload body).
Proof.
  unfold build_updatePayload.
  assert (keys_within writable_columns
            (copy_fields detailScalarFields body
               (copy_list_field "previous_projects" body
                  (copy_list_field "interests" body
                     (copy_list_field "current_skills" body
                        (copy_fields profileFields body ∅)))))) as Hp.
  { apply keys_within_copy_fields;
      [intros f Hf; unfold writable_columns; rewrite !in_app_iff; tauto|].
    do 3 (apply keys_within_copy_list_field; [listed|]).
    apply keys_within_copy_fields;
      [intros f Hf; unfold writable_columns; rewrite !in_app_iff; tauto|].
    intros k [x Hk]. rewrite lookup_empty in Hk. discriminate Hk. }
  assert (keys_within writable_columns
            match body !! "noCurrentProject" with
            | Some flag =>
                if truthy flag
                then <[ "current_project" := VStr EmptyString ]>
                       (copy_fields detailScalarFields body
                          (copy_list_field "previous_projects" body
                             (copy_list_field "interests" body
                                (copy_list_field "current_skills" body
                                   (copy_fields profileFields body ∅)))))
                else copy_fields detailScalarFields body
                       (copy_list_field "previous_projects" body
                          (copy_list_field "interests" body
                             (copy_list_field "current_skills" body
                                (copy_fields profileFields body ∅))))
            | None => copy_fields detailScalarFields body
                        (copy_list_field "previous_projects" body
                           (copy_list_field "interests" body
                              (copy_list_field "current_skills" body
                                 (copy_fields profileFields body ∅))))
            end) as Hq.
  { destruct (body !! "noCurrentProject") as [flag|]; [|exact Hp].
    destruct (truthy flag); [|exact Hp].
    apply keys_within_insert; [listed|exact Hp]. }
  cbn zeta. destruct (negb (is_undefined (field body "stars"))); [|exact Hq].
  apply keys_within_insert; [listed|exact Hq].
Qed.

Lemma keys_within_validate (p existing checked : row) :
  validate_availability p existing = Some checked ->
  keys_within writable_columns p -> keys_within writable_columns checked.
Proof.
  unfold validate_availability. intros Hv Hp.
  destruct (existsb _ _); [|injection Hv as <-; exact Hp].
  destruct (negb (strict_eq _ _)).
  - destruct (_ || _ || _); injection Hv as <-; [|exact Hp].
    do 3 (apply keys_within_insert; [listed|]). exact Hp.
  - destruct (_ || _ || _); [discriminate Hv|]. injection Hv as <-. exact Hp.
Qed.

(** The writes of [updateEmployee]: the stars alone, or the checked payload
    with its [updated_at]. *)
Lemma updateEmployee_writes
    (empid : value) (body : row) (w : world) (patch : row) (f : filter) :
  In (patch, f) (writes (updateEmployee empid body w).2) ->
  f = Eq "empid" empid
  /\ ((is_undefined (field body "stars") = false
       /\ patch = {[ "stars" := field body "stars" ]})
      \/ (is_undefined (field body "stars") = true
          /\ exists existing checked : row,
               In existing (employees w)
               /\ validate_availability (build_updatePayload body) existing = Some checked
               /\ patch = <[ "updated_at" := VStr (toISOString (clock w + istOffset)) ]>
                            checked)).
Proof.
  pose proof (updateEmployee_run empid body w) as Hrun. cbn zeta in Hrun. rewrite Hrun.
  clear Hrun.
  destruct (outage w (served w)); [intros []|].
  destruct (List.filter _ (employees w)) as [|existing others] eqn:Hfound; [intros []|].
  assert (In existing (employees w)) as Hex.
  { assert (In existing (List.filter (matches (Eq "empid" empid)) (employees w))) as Hin
      by (rewrite Hfound; left; reflexivity).
    apply filter_In in Hin as [Hin _]. exact Hin. }
  destruct (is_undefined (field body "stars")) eqn:Hstars; cbn [negb].
  - destruct (validate_availability (build_updatePayload body) existing) as [checked|]
      eqn:Hcheck.
    + assert (forall rest : list effect,
                 writes (StoreSelect "*" (Eq "empid" empid)
                         :: (if bool_decide (build_updatePayload body = ∅)
                             then [Console EmptyUpdatePayload] else [])
                         ++ StoreUpdate
                              (<[ "updated_at" := VStr (toISOString (clock w + istOffset)) ]>
                                 checked) (Eq "empid" empid) :: rest)
                 = (<[ "updated_at" := VStr (toISOString (clock w + istOffset)) ]> checked,
                    Eq "empid" empid) :: writes rest) as Hw.
      { intros rest. change (writes (StoreSelect ?c ?g :: ?l)) with (writes l).
        rewrite writes_concat.
        destruct (bool_decide (build_updatePayload body = ∅)); reflexivity. }
      destruct (outage w (S (served w))); cbn [snd]; intros Hin.
      * rewrite (Hw [Console (UpdateEmployeeError StoreFailure)]) in Hin.
        destruct Hin as [Heq|[]]. injection Heq as <- <-.
        split; [reflexivity|]. right. split; [reflexivity|]. exists existing, checked. auto.
      * rewrite (Hw []) in Hin.
        destruct Hin as [Heq|[]]. injection Heq as <- <-.
        split; [reflexivity|]. right. split; [reflexivity|]. exists existing, checked. auto.
    + cbn [snd]. destruct (bool_decide (build_updatePayload body = ∅)); intros [].
  - cbn zeta. destruct (outage w (S (served w))); cbn; intros [Heq|[]];
      injection Heq as <- <-; (split; [reflexivity|]); left; split; reflexivity.
Qed.

(** X9. Whatever the body, [updateEmployee] writes a column only if it is a
    profile field, a list field, a detail field or [updated_at]: it cannot
    change [password], [role_type], [push_subscriptions] or [last_login]. *)
Theorem updateEmployee_writes_listed_columns_only
    (empid : value) (body : row) (w : world) (patch : row) (f : filter) :
  In (patch, f) (writes (updateEmployee empid body w).2) ->
  f = Eq "empid" empid
  /\ keys_within writable_columns patch
  /\ patch !! "password" = None /\ patch !! "role_type" = None
  /\ patch !! "push_subscriptions" = None /\ patch !! "last_login" = None.
Proof.
  intros Hin. apply updateEmployee_writes in Hin as [-> Hpatch].
  assert (keys_within writable_columns patch) as Hkeys.
  { destruct Hpatch as [[_ ->]|[_ (existing & checked & _ & Hcheck & ->)]].
    - apply keys_within_insert; [listed|].
      intros k [x Hk]. rewrite lookup_empty in Hk. discriminate Hk.
    - apply keys_within_insert; [listed|].
      apply (keys_within_validate _ _ _ Hcheck), keys_within_build. }
  split; [reflexivity|split; [exact Hkeys|]].
  repeat split.
  all: destruct (patch !! _) as [v|] eqn:Hk; [|reflexivity].
  all: exfalso; assert (is_Some (patch !! _)) as Hs by (rewrite Hk; eauto).
  all: apply Hkeys in Hs; cbn in Hs.
  all: repeat (destruct Hs as [Hs|Hs]; [discriminate Hs|]); exact Hs.
Qed.

(** X10. When [stars] is present in the body, [updateEmployee] looks at
    nothing else in it: two bodies with the same [stars] have the same
    effect, the one write is that of the stars, and no field is validated. *)
Theorem stars_shortcut_ignores_the_rest (empid : value) (body body' : row) (w : world) :
  is_undefined (field body "stars") = false ->
  field body' "stars" = field body "stars" ->
  updateEmployee empid body' w = updateEmployee empid body w
  /\ (forall (patch : row) (f : filter),
        In (patch, f) (writes (updateEmployee empid body w).2) ->
        patch = {[ "stars" := field body "stars" ]})
  /\ exists resp : response,
       (updateEmployee empid body w).1.1 = Normal resp /\ status resp <> 400.
Proof.
  intros Hstars Hsame. split; [|split].
  - pose proof (updateEmployee_run empid body w) as Hrun.
    pose proof (updateEmployee_run empid body' w) as Hrun'.
    cbn zeta in Hrun, Hrun'. rewrite Hrun, Hrun', Hsame, Hstars. reflexivity.
  - intros patch f Hin. apply updateEmployee_writes in Hin as [_ [[_ ->]|[Hundef _]]];
      [reflexivity|congruence].
  - pose proof (updateEmployee_run empid body w) as Hrun. cbn zeta in Hrun.
    rewrite Hrun, Hstars. cbn [negb].
    destruct (outage w (served w)); [answer_case|].
    destruct (List.filter _ (employees w)); [answer_case|].
    cbn zeta. destruct (outage w (S (served w))); answer_case.
Qed.

(** X11. [updateEmployee] always answers, with 200, 400, 404 or 500; 404
    exactly when the store answered the lookup and no employee has the id;
    and unless it answers 200 no row has changed. *)
Theorem updateEmployee_answers (empid : value) (body : row) (w : world) :
  exists resp : response,
    (updateEmployee empid body w).1.1 = Normal resp
    /\ (status resp = 200 \/ status resp = 400 \/ status resp = 404 \/ status resp = 500)
    /\ (status resp = 404
        <-> outage w (served w) = false
            /\ List.filter (matches (Eq "empid" empid)) (employees w) = [])
    /\ (status resp <> 200 -> employees (updateEmployee empid body w).1.2 = employees w).
Proof.
  pose proof (updateEmployee_run empid body w) as Hrun. cbn zeta in Hrun. rewrite Hrun.
  clear Hrun.
  destruct (outage w (served w)); [answer_case|].
  destruct (List.filter _ (employees w)) as [|existing others]; [answer_case|].
  destruct (negb (is_undefined (field body "stars"))); cbn zeta.
  - destruct (outage w (S (served w))); answer_case.
  - destruct (validate_availability (build_updatePayload body) existing) as [checked|];
      [|answer_case].
    cbn zeta. destruct (outage w (S (served w))); answer_case.
Qed.

(** X12. [updateEmployeeStars] answers 400 exactly when the body has no
    [stars], and then without any request to the store. It never answers
    404: for an id no employee has, the answer is 200 once the store accepts
    the write, and no row has changed. *)
Theorem updateEmployeeStars_answers (empid : value) (body : row) (w : world) :
  exists resp : response,
    (updateEmployeeStars empid body w).1.1 = Normal resp
    /\ (status resp = 400 \/ status resp = 200 \/ status resp = 500)
    /\ (status resp = 400 <-> is_undefined (field body "stars") = true)
    /\ (status resp = 400 -> (updateEmployeeStars empid body w).2 = [])
    /\ (status resp <> 200 -> employees (updateEmployeeStars empid body w).1.2 = employees w)
    /\ (is_undefined (field body "stars") = false -> outage w (served w) = false ->
        List.filter (matches (Eq "empid" empid)) (employees w) = [] ->
        status resp = 200 /\ employees (updateEmployeeStars empid body w).1.2 = employees w).
Proof.
  pose proof (updateEmployeeStars_run empid body w) as Hrun. cbn zeta in Hrun. rewrite Hrun.
  clear Hrun.
  destruct (is_undefined (field body "stars")); [answer_case|].
  destruct (outage w (served w)); [answer_case|].
  eexists. split; [reflexivity|]. cbn [fst snd status].
  split; [right; left; reflexivity|]. split; [split; [lia|discriminate]|].
  split; [lia|]. split; [intros Hne; exfalso; apply Hne; reflexivity|].
  intros _ _ Hnone. split; [reflexivity|]. cbn [employees answered].
  induction (employees w) as [|r rest IH]; [reflexivity|].
  cbn in Hnone |- *. destruct (sql_eq (field r "empid") empid) eqn:Hm; [discriminate Hnone|].
  f_equal. apply IH. exact Hnone.
Qed.

Lemma defined_values_insert (m : row) (k : string) (v : value) :
  is_undefined v = false -> defined_values m -> defined_values (<[ k := v ]> m).
Proof.
  intros Hv Hm j x Hj. destruct (decide (k = j)) as [<-|Hne].
  - rewrite lookup_insert_eq in Hj. injection Hj as <-. exact Hv.
  - rewrite lookup_insert_ne in Hj by exact Hne. apply (Hm j x Hj).
Qed.

Lemma defined_values_copy_fields (fields : list string) (body : row) :
  forall p : row, defined_values p -> defined_values (copy_fields fields body p).
Proof.
  unfold copy_fields. induction fields as [|f fields IH]; intros p Hp; [exact Hp|].
  cbn [fold_left]. apply IH.
  destruct (body !! f) as [v|]; [|exact Hp].
  destruct (is_undefined v) eqn:Hv; [exact Hp|].
  apply defined_values_insert; assumption.
Qed.

Lemma normalizeListForStore_text (v val : value) :
  normalizeListForStore v = Some val -> exists s : string, val = VStr s.
Proof.
  unfold normalizeListForStore. intros Hn.
  destruct v as [| |b|n|s0|items|fields]; try discriminate Hn;
    try (injection Hn as <-; eexists; reflexivity).
  destruct (bool_decide _); [injection Hn as <-; eexists; reflexivity|].
  destruct (JSON_parse _) as [[| | | | |parsed|]|]; injection Hn as <-; eexists; reflexivity.
Qed.

Lemma defined_values_copy_list_field (f : string) (body p : row) :
  defined_values p -> defined_values (copy_list_field f body p).
Proof.
  intros Hp. unfold copy_list_field.
  destruct (body !! f) as [v|]; [|exact Hp].
  destruct (normalizeListForStore v) as [val|] eqn:Hn; [|exact Hp].
  destruct (normalizeListForStore_text _ _ Hn) as [s ->].
  apply defined_values_insert; [reflexivity|exact Hp].
Qed.

Lemma defined_values_build (body : row) : defined_values (build_updatePayload body).
Proof.
  unfold build_updatePayload. cbn zeta.
  assert (defined_values
            (copy_fields detailScalarFields body
               (copy_list_field "previous_projects" body
                  (copy_list_field "interests" body
                     (copy_list_field "current_skills" body
                        (copy_fields profileFields body ∅)))))) as Hp.
  { apply defined_values_copy_fields. do 3 apply defined_values_copy_list_field.
    apply defined_values_copy_fields. intros k v Hk. rewrite lookup_empty in Hk.
    discriminate Hk. }
  destruct (negb (is_undefined (field body "stars"))) eqn:Hstars.
  - apply defined_values_insert; [destruct (is_undefined _); [discriminate|reflexivity]|].
    destruct (body !! "noCurrentProject") as [flag|]; [|exact Hp].
    destruct (truthy flag); [|exact Hp].
    apply defined_values_insert; [reflexivity|exact Hp].
  - destruct (body !! "noCurrentProject") as [flag|]; [|exact Hp].
    destruct (truthy flag); [|exact Hp].
    apply defined_values_insert; [reflexivity|exact Hp].
Qed.

Lemma field_assign_insert_ne (m e : row) (j k : string) (x : value) :
  j <> k -> field (assign (<[ j := x ]> m) e) k = field (assign m e) k.
Proof.
  intros Hne. unfold field, assign. rewrite !lookup_union, lookup_insert_ne by exact Hne.
  reflexivity.
Qed.

Lemma field_assign_insert_eq (m e : row) (k : string) (x : value) :
  field (assign (<[ k := x ]> m) e) k = x.
Proof. apply field_assign_patched, lookup_insert_eq. Qed.

Lemma field_assign_provided (p e : row) (k : string) :
  defined_values p -> field (assign p e) k = provided p e k.
Proof.
  intros Hp. unfold provided, field, assign. rewrite lookup_union.
  destruct (p !! k) as [v|] eqn:Hk.
  - cbn. rewrite (Hp k v Hk). destruct (e !! k); reflexivity.
  - cbn. destruct (e !! k); reflexivity.
Qed.

(** After the validation the row is consistent: all of hours, from and to
    when it is partially available, none of them otherwise. *)
Lemma validate_availability_consistent (p e checked : row) (stamp : value) :
  defined_values p ->
  existsb (has_key p) ["availability"; "hours_available"; "from_date"; "to_date"] = true ->
  validate_availability p e = Some checked ->
  let after := assign (<[ "updated_at" := stamp ]> checked) e in
  (field after "availability" = VStr "Partially Available" ->
   Forall (fun k => truthy (field after k) = true) partial_columns)
  /\ (field after "availability" <> VStr "Partially Available" ->
      Forall (fun k => truthy (field after k) = false) partial_columns).
Proof.
  intros Hp Htouch Hv. cbn zeta. unfold validate_availability in Hv. rewrite Htouch in Hv.
  unfold partial_columns.
  rewrite !field_assign_insert_ne by discriminate.
  destruct (strict_eq (provided p e "availability") (VStr "Partially Available")) eqn:Hfinal;
    cbn [negb] in Hv.
  - destruct (negb (truthy (provided p e "hours_available"))
              || negb (truthy (provided p e "from_date"))
              || negb (truthy (provided p e "to_date"))) eqn:Hall; [discriminate Hv|].
    injection Hv as <-.
    apply orb_false_elim in Hall as [Hall Hto]. apply orb_false_elim in Hall as [Hhours Hfrom].
    apply negb_false_iff in Hhours, Hfrom, Hto.
    split.
    + intros _.
      constructor; [|constructor; [|constructor; [|constructor]]];
        rewrite field_assign_insert_ne by discriminate;
        rewrite field_assign_provided by exact Hp; assumption.
    + intros Hne. exfalso. apply Hne. rewrite field_assign_provided by exact Hp.
      apply strict_eq_string. exact Hfinal.
  - destruct (truthy (provided p e "hours_available")
              || truthy (provided p e "from_date")
              || truthy (provided p e "to_date")) eqn:Hany; injection Hv as <-.
    + split.
      * rewrite !field_assign_insert_ne by discriminate.
        rewrite field_assign_provided by exact Hp.
        intros Heq. apply strict_eq_string in Heq. congruence.
      * intros _.
        constructor; [|constructor; [|constructor; [|constructor]]];
          rewrite field_assign_insert_ne by discriminate.
        -- rewrite !field_assign_insert_ne by discriminate.
           rewrite field_assign_insert_eq. reflexivity.
        -- rewrite field_assign_insert_ne by discriminate.
           rewrite field_assign_insert_eq. reflexivity.
        -- rewrite field_assign_insert_eq. reflexivity.
    + apply orb_false_elim in Hany as [Hany Hto].
      apply orb_false_elim in Hany as [Hhours Hfrom].
      split.
      * rewrite field_assign_provided by exact Hp.
        intros Heq. apply strict_eq_string in Heq. congruence.
      * intros _.
        constructor; [|constructor; [|constructor; [|constructor]]];
          rewrite field_assign_insert_ne by discriminate;
          rewrite field_assign_provided by exact Hp; assumption.
Qed.

Lemma copy_fields_keeps (fields : list string) (body : row) (k : string) :
  forall p : row, is_Some (p !! k) -> is_Some (copy_fields fields body p !! k).
Proof.
  unfold copy_fields. induction fields as [|f fields IH]; intros p Hp; [exact Hp|].
  cbn [fold_left]. apply IH.
  destruct (body !! f) as [v|]; [|exact Hp].
  destruct (is_undefined v); [exact Hp|].
  apply lookup_insert_is_Some'. right. exact Hp.
Qed.

Lemma copy_fields_copies (fields : list string) (body : row) (k : string) (v : value) :
  In k fields -> body !! k = Some v -> is_undefined v = false ->
  forall p : row, is_Some (copy_fields fields body p !! k).
Proof.
  unfold copy_fields. induction fields as [|f fields IH]; intros Hin Hk Hv p; [destruct Hin|].
  cbn [fold_left]. destruct Hin as [->|Hin].
  - rewrite Hk, Hv. apply (copy_fields_keeps fields body k).
    rewrite lookup_insert_eq. eauto.
  - apply IH; assumption.
Qed.

Lemma build_has_detail (body : row) (k : string) (v : value) :
  In k detailScalarFields -> body !! k = Some v -> is_undefined v = false ->
  has_key (build_updatePayload body) k = true.
Proof.
  intros Hin Hk Hv. unfold has_key. apply bool_decide_eq_true.
  unfold build_updatePayload. cbn zeta.
  pose proof (copy_fields_copies detailScalarFields body k v Hin Hk Hv
                (copy_list_field "previous_projects" body
                   (copy_list_field "interests" body
                      (copy_list_field "current_skills" body
                         (copy_fields profileFields body ∅))))) as Hp.
  assert (is_Some
            (match body !! "noCurrentProject" with
             | Some flag =>
                 if truthy flag
                 then <[ "current_project" := VStr EmptyString ]>
                        (copy_fields detailScalarFields body
                           (copy_list_field "previous_projects" body
                              (copy_list_field "interests" body
                                 (copy_list_field "current_skills" body
                                    (copy_fields profileFields body ∅)))))
                 else copy_fields detailScalarFields body
                        (copy_list_field "previous_projects" body
                           (copy_list_field "interests" body
                              (copy_list_field "current_skills" body
                                 (copy_fields profileFields body ∅))))
             | None => copy_fields detailScalarFields body
                         (copy_list_field "previous_projects" body
                            (copy_list_field "interests" body
                               (copy_list_field "current_skills" body
                                  (copy_fields profileFields body ∅))))
             end !! k)) as Hq.
  { destruct (body !! "noCurrentProject") as [flag|]; [|exact Hp].
    destruct (truthy flag); [|exact Hp].
    apply lookup_insert_is_Some'. right. exact Hp. }
  destruct (negb (is_undefined (field body "stars"))); [|exact Hq].
  apply lookup_insert_is_Some'. right. exact Hq.
Qed.

(** X13. After a successful [updateEmployee] that carries [availability],
    [hours_available], [from_date] or [to_date], the employee found is left
    consistent: hours and both dates are all set when the availability is
    "Partially Available", and none of them is set otherwise. *)
Theorem availability_update_leaves_row_consistent
    (empid : value) (body : row) (w w' : world) (resp : response) (t : list effect)
    (existing : row) (others : list row) (k : string) (v : value) :
  updateEmployee empid body w = (Normal resp, w', t) -> status resp = 200 ->
  is_undefined (field body "stars") = true ->
  List.filter (matches (Eq "empid" empid)) (employees w) = existing :: others ->
  In k ("availability" :: partial_columns) -> body !! k = Some v -> is_undefined v = false ->
  exists patch : row,
    employees w'
    = List.map (fun r => if matches (Eq "empid" empid) r then assign patch r else r)
        (employees w)
    /\ (field (assign patch existing) "availability" = VStr "Partially Available" ->
        Forall (fun c => truthy (field (assign patch existing) c) = true) partial_columns)
    /\ (field (assign patch existing) "availability" <> VStr "Partially Available" ->
        Forall (fun c => truthy (field (assign patch existing) c) = false) partial_columns).
Proof.
  intros Hrun Hok Hstars Hfound Hk Hbody Hv.
  pose proof (updateEmployee_run empid body w) as Heq. cbn zeta in Heq.
  rewrite Hrun, Hstars, Hfound in Heq. cbn [negb] in Heq.
  destruct (outage w (served w)); [injection Heq as -> _ _; discriminate Hok|].
  destruct (validate_availability (build_updatePayload body) existing) as [checked|] eqn:Hcheck;
    [|injection Heq as -> _ _; discriminate Hok].
  destruct (outage w (S (served w))); [injection Heq as -> _ _; discriminate Hok|].
  pose proof (f_equal (fun x => x.1.2) Heq) as Hw. cbn [fst snd] in Hw. subst w'.
  clear Heq Hrun.
  exists (<[ "updated_at" := VStr (toISOString (clock w + istOffset)) ]> checked).
  split; [reflexivity|].
  apply (validate_availability_consistent (build_updatePayload body));
    [apply defined_values_build| |exact Hcheck].
  apply existsb_exists. exists k. split; [exact Hk|].
  apply (build_has_detail body k v); [|exact Hbody|exact Hv].
  cbn in Hk |- *. tauto.
Qed.

Lemma copy_fields_other (fields : list string) (body : row) (k : string) :
  ~ In k fields -> forall p : row, copy_fields fields body p !! k = p !! k.
Proof.
  unfold copy_fields. induction fields as [|f fields IH]; intros Hk p; [reflexivity|].
  cbn [fold_left]. rewrite IH by (intros Hin; apply Hk; right; exact Hin).
  assert (f <> k) as Hne by (intros ->; apply Hk; left; reflexivity).
  destruct (body !! f) as [v|]; [|reflexivity].
  destruct (is_undefined v); [reflexivity|]. apply lookup_insert_ne. exact Hne.
Qed.

Lemma copy_list_field_other (f k : string) (body p : row) :
  f <> k -> copy_list_field f body p !! k = p !! k.
Proof.
  intros Hne. unfold copy_list_field. destruct (body !! f) as [v|]; [|reflexivity].
  destruct (normalizeListForStore v); [|reflexivity]. apply lookup_insert_ne. exact Hne.
Qed.

Lemma copy_list_field_same (k : string) (body p : row) :
  p !! k = None -> copy_list_field k body p !! k = body !! k ≫= normalizeListForStore.
Proof.
  intros Hp. unfold copy_list_field. destruct (body !! k) as [v|]; cbn; [|exact Hp].
  destruct (normalizeListForStore v); [apply lookup_insert_eq|exact Hp].
Qed.

(** A list column of the payload is the normalised list of the body, and is
    absent when the body has none. *)
Lemma build_list_column (body : row) (k : string) :
  In k ["current_skills"; "interests"; "previous_projects"] ->
  build_updatePayload body !! k = body !! k ≫= normalizeListForStore.
Proof.
  intros Hk. unfold build_updatePayload. cbn zeta.
  assert (k <> "stars" /\ k <> "current_project" /\ ~ In k detailScalarFields
          /\ ~ In k profileFields) as (Hs & Hc & Hd & Hp).
  { cbn in Hk. destruct Hk as [<-|[<-|[<-|[]]]]; cbn;
      repeat split; try discriminate; intuition discriminate. }
  assert (match body !! "noCurrentProject" with
          | Some flag =>
              if truthy flag
              then <[ "current_project" := VStr EmptyString ]>
                     (copy_fields detailScalarFields body
                        (copy_list_field "previous_projects" body
                           (copy_list_field "interests" body
                              (copy_list_field "current_skills" body
                                 (copy_fields profileFields body ∅)))))
              else copy_fields detailScalarFields body
                     (copy_list_field "previous_projects" body
                        (copy_list_field "interests" body
                           (copy_list_field "current_skills" body
                              (copy_fields profileFields body ∅))))
          | None => copy_fields detailScalarFields body
                      (copy_list_field "previous_projects" body
                         (copy_list_field "interests" body
                            (copy_list_field "current_skills" body
                               (copy_fields profileFields body ∅))))
          end !! k = body !! k ≫= normalizeListForStore) as Hq.
  { assert (copy_fields detailScalarFields body
              (copy_list_field "previous_projects" body
                 (copy_list_field "interests" body
                    (copy_list_field "current_skills" body
                       (copy_fields profileFields body ∅)))) !! k
            = body !! k ≫= normalizeListForStore) as Hr.
    { rewrite copy_fields_other by exact Hd.
      assert ((copy_fields profileFields body ∅ : row) !! k = None) as Hnone
        by (rewrite copy_fields_other by exact Hp; apply lookup_empty).
      cbn in Hk. destruct Hk as [<-|[<-|[<-|[]]]].
      - rewrite !copy_list_field_other by discriminate.
        apply copy_list_field_same. exact Hnone.
      - rewrite copy_list_field_other by discriminate.
        apply copy_list_field_same. rewrite copy_list_field_other by discriminate.
        exact Hnone.
      - apply copy_list_field_same. rewrite !copy_list_field_other by discriminate.
        exact Hnone. }
    destruct (body !! "noCurrentProject") as [flag|]; [|exact Hr].
    destruct (truthy flag); [|exact Hr].
    rewrite lookup_insert_ne by (intros Heq; apply Hc; symmetry; exact Heq). exact Hr. }
  destruct (negb (is_undefined (field body "stars"))); [|exact Hq].
  rewrite lookup_insert_ne by (intros Heq; apply Hs; symmetry; exact Heq). exact Hq.
Qed.

Lemma validate_availability_other (p e checked : row) (k : string) :
  validate_availability p e = Some checked -> ~ In k partial_columns ->
  checked !! k = p !! k.
Proof.
  unfold validate_availability. intros Hv Hk.
  assert (<[ "to_date" := VNull ]>
            (<[ "from_date" := VNull ]> (<[ "hours_available" := VNull ]> p)) !! k = p !! k)
    as Hcleared.
  { rewrite !lookup_insert_ne; [reflexivity| | |];
      intros <-; apply Hk; cbn; tauto. }
  destruct (existsb _ _); [|injection Hv as <-; reflexivity].
  destruct (negb (strict_eq _ _)).
  - destruct (_ || _); injection Hv as <-; [exact Hcleared|reflexivity].
  - destruct (_ || _); [discriminate Hv|]. injection Hv as <-. reflexivity.
Qed.

Lemma filter_Boolean_truthy (items : list value) :
  Forall (fun v => truthy v = true) (filter_Boolean items).
Proof.
  apply List.Forall_forall. intros v Hin. apply filter_In in Hin as [_ Hv]. exact Hv.
Qed.

(** What [normalizeListForStore] returns is the JSON text of a list; the
    list has no falsy entry when the value given is an array or a string. *)
Lemma normalizeListForStore_list (v val : value) :
  normalizeListForStore v = Some val ->
  v <> VUndefined /\ v <> VNull
  /\ exists items : list value,
       val = VStr (JSON_stringify (VArr items))
       /\ ((isArray v = true \/ exists s : string, v = VStr s) ->
           Forall (fun x => truthy x = true) items).
Proof.
  unfold normalizeListForStore. intros Hn.
  destruct v as [| |b|n|s0|items|fields]; try discriminate Hn;
    (split; [discriminate|split; [discriminate|]]).
  - injection Hn as <-. eexists. split; [reflexivity|].
    intros [Harr|[s Hs]]; [discriminate Harr|discriminate Hs].
  - injection Hn as <-. eexists. split; [reflexivity|].
    intros [Harr|[s Hs]]; [discriminate Harr|discriminate Hs].
  - destruct (bool_decide _).
    + injection Hn as <-. exists []. split; [reflexivity|]. intros _. constructor.
    + destruct (JSON_parse _) as [[| | | | |parsed|]|]; injection Hn as <-;
        eexists; (split; [reflexivity|]); intros _; apply filter_Boolean_truthy.
  - injection Hn as <-. eexists. split; [reflexivity|]. intros _.
    apply filter_Boolean_truthy.
  - injection Hn as <-. eexists. split; [reflexivity|].
    intros [Harr|[s Hs]]; [discriminate Harr|discriminate Hs].
Qed.

(** X14. Whatever [updateEmployee] writes into [current_skills], [interests]
    or [previous_projects] is the JSON text of a list, made from a value of
    the request that is neither [null] nor [undefined]; from an array or a
    string the list has no falsy entry.  A request without the column, or
    with [null] in it, leaves the column alone. *)
Theorem list_columns_are_written_as_json_text
    (empid : value) (body : row) (w : world) (patch : row) (f : filter)
    (k : string) (val : value) :
  In (patch, f) (writes (updateEmployee empid body w).2) ->
  In k ["current_skills"; "interests"; "previous_projects"] ->
  patch !! k = Some val ->
  exists (v : value) (items : list value),
    body !! k = Some v /\ v <> VUndefined /\ v <> VNull
    /\ val = VStr (JSON_stringify (VArr items))
    /\ ((isArray v = true \/ exists s : string, v = VStr s) ->
        Forall (fun x => truthy x = true) items).
Proof.
  intros Hin Hk Hval.
  destruct (updateEmployee_writes empid body w patch f Hin)
    as [_ [[_ ->]|[_ (existing & checked & _ & Hcheck & ->)]]].
  - rewrite lookup_singleton_ne in Hval; [discriminate Hval|].
    intros <-. cbn in Hk. intuition discriminate.
  - rewrite lookup_insert_ne in Hval
      by (intros <-; cbn in Hk; intuition discriminate).
    rewrite (validate_availability_other _ _ _ k Hcheck) in Hval
      by (intros Hp; cbn in Hk, Hp; intuition congruence).
    rewrite (build_list_column body k Hk) in Hval.
    destruct (body !! k) as [v|]; [|discriminate Hval]. cbn in Hval.
    destruct (normalizeListForStore_list v val Hval) as (Hu & Hnull & items & -> & Hitems).
    exists v, items. auto.
Qed.

Lemma filter_Boolean_idem (items : list value) :
  filter_Boolean (filter_Boolean items) = filter_Boolean items.
Proof.
  unfold filter_Boolean. induction items as [|x items IH]; [reflexivity|].
  cbn [List.filter]. destruct (truthy x) eqn:Hx; [|exact IH].
  cbn [List.filter]. rewrite Hx, IH. reflexivity.
Qed.

Lemma safeJsonParse_truthy (v : value) :
  Forall (fun x => truthy x = true) (safeJsonParse v).
Proof.
  unfold safeJsonParse. destruct v as [| |b|n|s0|items|fields]; try constructor;
    try apply filter_Boolean_truthy.
  destruct (bool_decide _); [constructor|].
  destruct (JSON_parse _) as [[| | | | |parsed|]|]; apply filter_Boolean_truthy.
Qed.

(** X15. Whatever the stored cell holds, the list [safeJsonParse] reads off
    it has no falsy entry: no [null], no [undefined], no [false], no zero, no
    empty string. Reading the list once more gives the same list. *)
Theorem safeJsonParse_has_no_falsy_entry (v : value) :
  Forall (fun x => truthy x = true) (safeJsonParse v)
  /\ safeJsonParse (VArr (safeJsonParse v)) = safeJsonParse v.
Proof.
  pose proof (safeJsonParse_truthy v) as Hall. split; [exact Hall|].
  cbn [safeJsonParse]. unfold filter_Boolean.
  induction Hall as [|x l Hx Hl IH]; [reflexivity|].
  cbn [List.filter]. rewrite Hx, IH. reflexivity.
Qed.

(** X16. Round trip of a list column: the text [normalizeListForStore]
    makes of an array is read back by [safeJsonParse] as the array without
    its falsy entries, on a host whose JSON text of that list has no outer
    white space, is not empty and parses back to the list. *)
Theorem stored_array_reads_back (items : list value) (text : string) :
  text = JSON_stringify (VArr (filter_Boolean items)) ->
  String_trim text = text -> text <> EmptyString ->
  JSON_parse text = Some (VArr (filter_Boolean items)) ->
  normalizeListForStore (VArr items) = Some (VStr text)
  /\ safeJsonParse (VStr text) = filter_Boolean items
  /\ normalizeListForStore (VStr text) = Some (VStr text).
Proof.
  intros Htext Htrim Hne Hparse. split; [|split].
  - cbn. rewrite Htext. reflexivity.
  - unfold safeJsonParse. cbn zeta. rewrite Htrim.
    rewrite bool_decide_eq_false_2 by exact Hne.
    rewrite Hparse. apply filter_Boolean_idem.
  - unfold normalizeListForStore. cbn zeta. rewrite Htrim.
    rewrite bool_decide_eq_false_2 by exact Hne.
    rewrite Hparse, filter_Boolean_idem, Htext. reflexivity.
Qed.

(** X17. A login keeps the reminder away for fifteen days: after a login
    that was accepted and whose write of [last_login] the store took, a scan
    run while the cutoff is not yet past the time of the login does not call
    [sendNotificationToUser] for the employee, whatever [updated_at] holds.
    The host prints the two dates as texts it reads back. *)
Theorem fresh_login_keeps_the_reminder_away
    (email password : value) (w : world) (user : row) (others : list row) (now : Z) :
  truthy email = true -> truthy password = true ->
  outage w (served w) = false ->
  List.filter (matches (Eq "email" email)) (employees w) = user :: others ->
  strict_eq (field user "password") password = true ->
  sql_eq (field user "empid") (field user "empid") = true ->
  outage w (S (S (served w))) = false ->
  toISOString (clock w) <> EmptyString ->
  Date_parse (toISOString (clock w)) = Some (clock w) ->
  Date_parse (toISOString (fifteen_days_before now)) = Some (fifteen_days_before now) ->
  fifteen_days_before now <= clock w ->
  ~ In (field user "empid")
      (dispatched (inactivityCheck (at_clock now (loginUser email password w).1.2)).2).
Proof.
  intros Hemail Hpw Hup Hfound Hmatch Hid Hwrite Hiso Hlogin Hcut Hfresh.
  pose proof (loginUser_run email password w) as Hrun. cbn zeta in Hrun.
  rewrite Hemail, Hpw, Hup, Hfound, Hmatch, Hwrite in Hrun. cbn [negb orb] in Hrun.
  rewrite Hrun. cbn [fst snd]. clear Hrun.
  set (patch := ({[ "last_login" := VStr (toISOString (clock w)) ]} : row)).
  set (f := Eq "empid" (field user "empid")).
  set (table := List.map (fun r => if matches f r then assign patch r else r) (employees w)).
  set (w' := at_clock now (answered table (bump 2 w))).
  pose proof (inactivityCheck_run w') as Hscan. cbn zeta in Hscan. rewrite Hscan.
  clear Hscan.
  destruct (outage w' (served w')).
  { cbn. tauto. }
  cbn [snd]. rewrite !dispatched_app, dispatched_scan_trace.
  change (clock w') with now. rewrite Hcut.
  change (dispatched [Console RunningInactivityCheck;
                      StoreSelect scan_columns (Neq "role_type" (VStr "Manager"))])
    with (@nil value).
  change (dispatched [Console (InactivityCheckComplete ?n)]) with (@nil value).
  rewrite app_nil_l, app_nil_r. intros Hin.
  apply in_map_iff in Hin as (emp & Hid' & Hin).
  apply filter_In in Hin as [Hin Hstale].
  apply filter_In in Hin as [Hin _].
  change (employees w') with table in Hin. unfold table in Hin.
  apply in_map_iff in Hin as (r & <- & Hr).
  destruct (matches f r) eqn:Hf.
  - unfold inactive in Hstale. apply andb_true_iff in Hstale as [Hstale _].
    unfold lastLogin in Hstale.
    rewrite (field_assign_patched patch r "last_login" (VStr (toISOString (clock w))))
      in Hstale by apply lookup_singleton_eq.
    assert (truthy (VStr (toISOString (clock w))) = true) as Htruthy.
    { cbn. apply negb_true_iff, bool_decide_eq_false_2. exact Hiso. }
    rewrite Htruthy in Hstale. cbn [new_Date] in Hstale. rewrite Hlogin in Hstale.
    cbn [date_lt] in Hstale. apply Z.ltb_lt in Hstale. lia.
  - cbn [matches f] in Hf. unfold f in Hf. cbn [matches] in Hf.
    rewrite Hid' in Hf. congruence.
Qed.

End MoreFacts.


(** * The handlers around them *)

(** The answer of a run that is written out: its cases one by one. *)
Ltac answer_around :=
  eexists; split; [reflexivity|]; cbn [fst snd code];
  repeat match goal with |- _ /\ _ => split end;
  intros; try solve [reflexivity | lia | discriminate | congruence].

Section AroundFacts.
Context `{Host} `{Reading}.

Lemma getEmployeeById_run (empid : value) (w : world) :
  let sel := Effect (StoreSelect "*" (Eq "empid" empid)) in
  getEmployeeById empid w
  = if outage w (served w)
    then (Normal {| code := 500; json := Message "Supabase fetch error" |}, bump 1 w,
          [sel; Notice (FetchEmployeeError StoreFailure)])
    else
      match List.filter (matches (Eq "empid" empid)) (employees w) with
      | [] => (Normal {| code := 404; json := Message "Employee not found" |}, bump 1 w, [sel])
      | emp :: _ =>
          (Normal {| code := 200; json := Employee (parsed_lists emp) |}, bump 1 w, [sel])
      end.
Proof.
  cbn zeta. unfold getEmployeeById, attempt, mbind, handler_bind, lift, store_select.
  destruct (outage w (served w)); [reflexivity|].
  destruct (List.filter _ (employees w)) as [|emp others]; reflexivity.
Qed.

Lemma signupUser_run (email password name : value) (w : world) :
  let sel := Effect (StoreSelect "*" (Eq "email" email)) in
  let r := new_employee ("E" +:+ slice_last6 (ToString (VNum (clock w)))) name email password in
  signupUser email password name w
  = if negb (truthy email) || negb (truthy password) || negb (truthy name)
    then (Normal {| code := 400; json := Message "All fields required" |}, w, [])
    else if outage w (served w)
    then (Normal {| code := 500; json := Message "Supabase signup error" |}, bump 1 w,
          [sel; Notice (SignupError StoreFailure)])
    else
      match List.filter (matches (Eq "email" email)) (employees w) with
      | _ :: _ =>
          (Normal {| code := 409; json := Message "Email already registered" |}, bump 1 w,
           [sel])
      | [] =>
          if outage w (S (served w))
          then (Normal {| code := 500; json := Message "Supabase signup error" |}, bump 2 w,
                [sel; StoreInsert r; Notice (SignupError StoreFailure)])
          else (Normal {| code := 200; json := Message "Account created successfully" |},
                answered (employees w ++ [r]) (bump 1 w),
                [sel; StoreInsert r])
      end.
Proof.
  cbn zeta. unfold signupUser.
  destruct (negb (truthy email) || negb (truthy password) || negb (truthy name));
    [reflexivity|].
  unfold attempt, mbind, handler_bind, lift, store_select, Date_now, store_insert.
  destruct (outage w (served w)); [reflexivity|].
  destruct (List.filter _ (employees w)) as [|found others]; [|reflexivity].
  cbn [served answered outage employees clock].
  destruct (outage w (S (served w))); reflexivity.
Qed.

Lemma updatePassword_run (empid currentPassword newPassword : value) (w : world) :
  let sel := Effect (StoreSelect "password" (Eq "empid" empid)) in
  let f := Eq "empid" empid in
  let patch : row := {[ "password" := newPassword ]} in
  updatePassword empid currentPassword newPassword w
  = if negb (truthy empid) || negb (truthy currentPassword) || negb (truthy newPassword)
    then (Normal {| code := 400; json := Message "All fields are required" |}, w, [])
    else if outage w (served w)
    then (Normal {| code := 404; json := Message "User not found" |}, bump 1 w, [sel])
    else
      match List.filter (matches f) (employees w) with
      | [users] =>
          let verifying := Notice (PasswordVerifying (field users "password") currentPassword) in
          if negb (strict_eq (field users "password") currentPassword)
          then (Normal {| code := 401; json := Message "Incorrect current password" |},
                bump 1 w, [sel; verifying; Notice PasswordMismatch])
          else if outage w (S (served w))
          then (Normal {| code := 500; json := Message "Failed to update password" |},
                bump 2 w,
                [sel; verifying; Effect (StoreUpdate patch f);
                 Notice (UpdatePasswordError StoreFailure)])
          else
            let table :=
              List.map (fun r => if matches f r then assign patch r else r) (employees w) in
            (Normal {| code := 200; json := Message "Password updated successfully" |},
             bump 1 (answered table (bump 1 w)),
             [sel; verifying; Effect (StoreUpdate patch f)]
             ++ List.map Effect
                  (dispatch_trace (answered table (bump 1 w)) empid password_changed))
      | _ => (Normal {| code := 404; json := Message "User not found" |}, bump 1 w, [sel])
      end.
Proof.
  cbn zeta. unfold updatePassword.
  destruct (negb (truthy empid) || negb (truthy currentPassword) || negb (truthy newPassword));
    [reflexivity|].
  unfold attempt, mbind at 1, handler_bind at 1, lift at 1, store_select.
  destruct (outage w (served w)); [reflexivity|].
  change (answered (employees w) w) with (bump 1 w).
  destruct (List.filter _ (employees w)) as [|users [|another others]];
    [reflexivity| |reflexivity].
  cbn [single].
  unfold mbind at 1, handler_bind at 1, log at 1.
  destruct (negb (strict_eq (field users "password") currentPassword)); [reflexivity|].
  unfold mbind at 1, handler_bind at 1, lift at 1.
  rewrite store_update_run. cbn [outage served bump Nat.add employees].
  destruct (outage w (S (served w))); [reflexivity|].
  unfold mbind, handler_bind, lift, detached, try_catch, mret, handler_ret.
  rewrite sendNotificationToUser_run. cbn -[dispatch_trace bump answered].
  rewrite app_nil_r. reflexivity.
Qed.

Lemma sql_eq_true (cell lit : value) : sql_eq cell lit = true -> cell = lit.
Proof.
  destruct cell, lit; cbn; try discriminate.
  - intros Hb. apply bool_decide_eq_true in Hb. congruence.
  - intros Hn. apply Z.eqb_eq in Hn. congruence.
  - intros Hs. apply bool_decide_eq_true in Hs. congruence.
Qed.

Lemma comparable_sql_eq (v : value) : comparable v = true -> sql_eq v v = true.
Proof.
  destruct v; cbn; try discriminate; intros _.
  - apply bool_decide_eq_true. reflexivity.
  - apply Z.eqb_refl.
  - apply bool_decide_eq_true. reflexivity.
Qed.

Lemma comparable_strict_eq (v : value) : comparable v = true -> strict_eq v v = true.
Proof.
  destruct v; cbn; try discriminate; intros _.
  - apply bool_decide_eq_true. reflexivity.
  - apply Z.eqb_refl.
  - apply bool_decide_eq_true. reflexivity.
Qed.

Lemma filter_map_same {A} (g : A -> bool) (h : A -> A) (l : list A) :
  (forall x, g (h x) = g x) -> List.filter g (List.map h l) = List.map h (List.filter g l).
Proof.
  intros Hgh. induction l as [|x l IH]; [reflexivity|].
  cbn [List.map List.filter]. rewrite Hgh, IH. destruct (g x); reflexivity.
Qed.

Lemma field_new_employee (empid : string) (name email password : value) :
  field (new_employee empid name email password) "email" = email
  /\ field (new_employee empid name email password) "password" = password
  /\ field (new_employee empid name email password) "name" = name
  /\ field (new_employee empid name email password) "empid" = VStr empid.
Proof. repeat split. Qed.

(** X18. What [signupUser] answers and what it leaves in the table: 400
    exactly when a field is missing, 409 only when a row carries the email, 500
    only when the store failed; the table gains one row, with that email and
    empty lists, exactly when the answer is 200, and is as it was otherwise. *)
Theorem signupUser_answers (email password name : value) (w : world) :
  exists resp : answer,
    (signupUser email password name w).1.1 = Normal resp
    /\ (code resp = 400 \/ code resp = 409 \/ code resp = 500 \/ code resp = 200)
    /\ (code resp = 400
        <-> truthy email = false \/ truthy password = false \/ truthy name = false)
    /\ (code resp = 409 ->
        exists r : row, In r (employees w) /\ sql_eq (field r "email") email = true)
    /\ (code resp = 500 -> outage w (served w) = true \/ outage w (S (served w)) = true)
    /\ (code resp <> 200 -> employees (signupUser email password name w).1.2 = employees w)
    /\ (code resp = 200 ->
        List.filter (matches (Eq "email" email)) (employees w) = []
        /\ exists empid : string,
             employees (signupUser email password name w).1.2
             = employees w ++ [new_employee empid name email password]
             /\ inserts (signupUser email password name w).2
                = [new_employee empid name email password]).
Proof.
  pose proof (signupUser_run email password name w) as Hrun. cbn zeta in Hrun. rewrite Hrun.
  clear Hrun.
  destruct (truthy email) eqn:Hemail; cbn [negb orb];
    [|answer_around; tauto].
  destruct (truthy password) eqn:Hpw; cbn [negb orb];
    [|answer_around; tauto].
  destruct (truthy name) eqn:Hname; cbn [negb orb];
    [|answer_around; tauto].
  destruct (outage w (served w)) eqn:Hup.
  { answer_around; try tauto; intuition discriminate. }
  destruct (List.filter _ (employees w)) as [|found others] eqn:Hfound.
  - destruct (outage w (S (served w))) eqn:Hins.
    + answer_around; try tauto; intuition discriminate.
    + answer_around; try tauto; try (intuition discriminate).
      split; [reflexivity|]. eexists. split; reflexivity.
  - answer_around; try tauto; try (intuition discriminate).
    exists found.
    assert (In found (List.filter (matches (Eq "email" email)) (employees w))) as Hin
      by (rewrite Hfound; left; reflexivity).
    apply filter_In in Hin as [Hin Hm]. split; [exact Hin|exact Hm].
Qed.



(** X20. Who has signed up can log in: after a [signupUser] answered with
    200, for an email and a password that are strings, numbers or booleans,
    [loginUser] with the same two is answered with 200 as soon as the store
    answers its query, and the row it finds is the one just inserted. *)
Theorem signup_then_login (email password name : value) (w : world) (resp : answer) :
  (signupUser email password name w).1.1 = Normal resp -> code resp = 200 ->
  comparable email = true -> comparable password = true ->
  let w' := (signupUser email password name w).1.2 in
  outage w' (served w') = false ->
  (loginUser email password w').1.1 = Normal logged_in
  /\ exists empid : string,
       List.filter (matches (Eq "email" email)) (employees w')
       = [new_employee empid name email password].
Proof.
  intros Hresp Hok Hemail Hpw. cbn zeta.
  pose proof (signupUser_run email password name w) as Hrun. cbn zeta in Hrun.
  rewrite Hrun in Hresp |- *. clear Hrun.
  destruct (truthy email) eqn:Htemail; cbn [negb orb] in Hresp |- *;
    [|injection Hresp as <-; discriminate Hok].
  destruct (truthy password) eqn:Htpw; cbn [negb orb] in Hresp |- *;
    [|injection Hresp as <-; discriminate Hok].
  destruct (truthy name) eqn:Htname; cbn [negb orb] in Hresp |- *;
    [|injection Hresp as <-; discriminate Hok].
  destruct (outage w (served w)); [injection Hresp as <-; discriminate Hok|].
  destruct (List.filter _ (employees w)) as [|found others] eqn:Hfound;
    [|injection Hresp as <-; discriminate Hok].
  destruct (outage w (S (served w))); [injection Hresp as <-; discriminate Hok|].
  cbn [fst snd]. intros Hup.
  set (r := new_employee ("E" +:+ slice_last6 (ToString (VNum (clock w)))) name email password)
    in *.
  set (w' := answered (employees w ++ [r]) (bump 1 w)) in *.
  assert (List.filter (matches (Eq "email" email)) (employees w') = [r]) as Hone.
  { change (employees w') with (employees w ++ [r]).
    rewrite List.filter_app, Hfound. cbn [List.filter matches app].
    unfold r. rewrite (proj1 (field_new_employee _ name email password)).
    rewrite (comparable_sql_eq email Hemail). reflexivity. }
  split; [|exists ("E" +:+ slice_last6 (ToString (VNum (clock w)))); exact Hone].
  pose proof (loginUser_run email password w') as Hlogin. cbn zeta in Hlogin.
  rewrite Hlogin. clear Hlogin.
  rewrite Htemail, Htpw, Hup, Hone. cbn [negb orb].
  unfold r. rewrite (proj1 (proj2 (field_new_employee _ name email password))).
  rewrite (comparable_strict_eq password Hpw). reflexivity.
Qed.

Lemma effects_app (t1 t2 : list event) : effects (t1 ++ t2) = effects t1 ++ effects t2.
Proof. apply omap_app. Qed.

Lemma notices_app (t1 t2 : list event) : notices (t1 ++ t2) = notices t1 ++ notices t2.
Proof. apply omap_app. Qed.

Lemma effects_map_Effect (t : list effect) : effects (List.map Effect t) = t.
Proof. induction t as [|e t IH]; [reflexivity|]. cbn. f_equal. exact IH. Qed.

Lemma notices_map_Effect (t : list effect) : notices (List.map Effect t) = [].
Proof. induction t as [|e t IH]; [reflexivity|exact IH]. Qed.

(** X21. What [updatePassword] answers and what it writes: 400 exactly when
    a field is missing; a lookup the store fails is answered 404 like an
    unknown user, not 500; the password is written exactly when the answer is
    200, and then exactly one row carries the [empid] and its stored password
    is the current one given; in every other case the table is as it was. *)
Theorem updatePassword_answers (empid currentPassword newPassword : value) (w : world) :
  let outcome := updatePassword empid currentPassword newPassword w in
  exists resp : answer,
    outcome.1.1 = Normal resp
    /\ (code resp = 400 \/ code resp = 404 \/ code resp = 401 \/ code resp = 500
        \/ code resp = 200)
    /\ (code resp = 400
        <-> truthy empid = false \/ truthy currentPassword = false
            \/ truthy newPassword = false)
    /\ (outage w (served w) = true -> code resp = 400 \/ code resp = 404)
    /\ (code resp = 500 -> outage w (S (served w)) = true)
    /\ (code resp <> 200 -> employees outcome.1.2 = employees w)
    /\ (code resp <> 200 -> code resp <> 500 -> writes (effects outcome.2) = [])
    /\ (code resp = 200 ->
        writes (effects outcome.2) = [({[ "password" := newPassword ]}, Eq "empid" empid)]
        /\ employees outcome.1.2
           = List.map (fun r => if matches (Eq "empid" empid) r
                                then assign {[ "password" := newPassword ]} r else r)
               (employees w)
        /\ exists user : row,
             List.filter (matches (Eq "empid" empid)) (employees w) = [user]
             /\ strict_eq (field user "password") currentPassword = true).
Proof.
  cbn zeta.
  pose proof (updatePassword_run empid currentPassword newPassword w) as Hrun.
  cbn zeta in Hrun. rewrite Hrun. clear Hrun.
  destruct (truthy empid) eqn:Hempid; cbn [negb orb];
    [|answer_around; tauto].
  destruct (truthy currentPassword) eqn:Hcur; cbn [negb orb];
    [|answer_around; tauto].
  destruct (truthy newPassword) eqn:Hnew; cbn [negb orb];
    [|answer_around; tauto].
  destruct (outage w (served w)) eqn:Hup.
  { answer_around; try tauto; intuition discriminate. }
  destruct (List.filter _ (employees w)) as [|user [|another others]] eqn:Hfound.
  - answer_around; try tauto; intuition discriminate.
  - destruct (strict_eq (field user "password") currentPassword) eqn:Hmatch; cbn [negb].
    + destruct (outage w (S (served w))) eqn:Hwrite.
      * answer_around; try tauto; intuition discriminate.
      * answer_around; try tauto; try (intuition discriminate).
        split; [|split; [reflexivity|exists user; split; [reflexivity|exact Hmatch]]].
        rewrite effects_app, effects_map_Effect, writes_concat, writes_dispatch_trace.
        reflexivity.
    + answer_around; try tauto; intuition discriminate.
  - answer_around; try tauto; intuition discriminate.
Qed.

(** X22. Every change of password that finds the user writes the stored
    password and the one typed to the console, also when the two differ and the
    request is refused. *)
Theorem password_check_logs_both_passwords
    (empid currentPassword newPassword : value) (w : world) (user : row) :
  truthy empid = true -> truthy currentPassword = true -> truthy newPassword = true ->
  outage w (served w) = false ->
  List.filter (matches (Eq "empid" empid)) (employees w) = [user] ->
  In (PasswordVerifying (field user "password") currentPassword)
     (notices (updatePassword empid currentPassword newPassword w).2)
  /\ (strict_eq (field user "password") currentPassword = false ->
      notices (updatePassword empid currentPassword newPassword w).2
      = [PasswordVerifying (field user "password") currentPassword; PasswordMismatch]
      /\ effects (updatePassword empid currentPassword newPassword w).2
         = [StoreSelect "password" (Eq "empid" empid)]).
Proof.
  intros Hempid Hcur Hnew Hup Hfound.
  pose proof (updatePassword_run empid currentPassword newPassword w) as Hrun.
  cbn zeta in Hrun. rewrite Hrun. clear Hrun.
  rewrite Hempid, Hcur, Hnew, Hup, Hfound. cbn [negb orb].
  destruct (strict_eq (field user "password") currentPassword); cbn [negb].
  - split; [|discriminate].
    destruct (outage w (S (served w))); cbn [snd].
    + left. reflexivity.
    + rewrite notices_app. apply in_app_iff. left. left. reflexivity.
  - split; [left; reflexivity|]. intros _. split; reflexivity.
Qed.

(** X23. After a change of password answered with 200 the new password
    opens the account and the old one no longer does: [loginUser] with the
    email of the row and the new password is answered 200, and with the old
    password 401 when the two differ. *)
Theorem changed_password_is_the_one_that_logs_in
    (empid currentPassword newPassword : value) (w : world) (resp : answer)
    (user : row) (others : list row) :
  let w' := (updatePassword empid currentPassword newPassword w).1.2 in
  (updatePassword empid currentPassword newPassword w).1.1 = Normal resp ->
  code resp = 200 ->
  In user (List.filter (matches (Eq "empid" empid)) (employees w)) ->
  truthy (field user "email") = true ->
  List.filter (matches (Eq "email" (field user "email"))) (employees w) = user :: others ->
  comparable newPassword = true ->
  outage w' (served w') = false ->
  (loginUser (field user "email") newPassword w').1.1 = Normal logged_in
  /\ (strict_eq newPassword currentPassword = false ->
      (loginUser (field user "email") currentPassword w').1.1
      = Normal {| status := 401; body := "Invalid credentials" |}).
Proof.
  cbn zeta. intros Hresp Hok Huser Hmail Hfirst Hcomp.
  pose proof (updatePassword_run empid currentPassword newPassword w) as Hrun.
  cbn zeta in Hrun. rewrite Hrun in Hresp |- *. clear Hrun.
  destruct (truthy empid) eqn:Hempid; cbn [negb orb] in Hresp |- *;
    [|injection Hresp as <-; discriminate Hok].
  destruct (truthy currentPassword) eqn:Hcur; cbn [negb orb] in Hresp |- *;
    [|injection Hresp as <-; discriminate Hok].
  destruct (truthy newPassword) eqn:Hnew; cbn [negb orb] in Hresp |- *;
    [|injection Hresp as <-; discriminate Hok].
  destruct (outage w (served w)); [injection Hresp as <-; discriminate Hok|].
  destruct (List.filter (matches (Eq "empid" empid)) (employees w))
    as [|found [|another more]] eqn:Hfound;
    [injection Hresp as <-; discriminate Hok| |injection Hresp as <-; discriminate Hok].
  destruct (strict_eq (field found "password") currentPassword) eqn:Hmatch;
    cbn [negb] in Hresp |- *; [|injection Hresp as <-; discriminate Hok].
  destruct (outage w (S (served w))); [injection Hresp as <-; discriminate Hok|].
  clear Hresp Hok. cbn [fst snd].
  destruct Huser as [->|[]].
  set (patch := ({[ "password" := newPassword ]} : row)).
  set (upd := fun r : row => if matches (Eq "empid" empid) r then assign patch r else r).
  set (w' := bump 1 (answered (List.map upd (employees w)) (bump 1 w))).
  intros Hup.
  assert (matches (Eq "empid" empid) user = true) as Hmine.
  { assert (In user (List.filter (matches (Eq "empid" empid)) (employees w))) as Hin
      by (rewrite Hfound; left; reflexivity).
    apply filter_In in Hin as [_ Hm]. exact Hm. }
  assert (forall r : row, field (upd r) "email" = field r "email") as Hkeep.
  { intros r. unfold upd. destruct (matches (Eq "empid" empid) r); [|reflexivity].
    apply field_assign_other. discriminate. }
  assert (List.filter (matches (Eq "email" (field user "email"))) (employees w')
          = assign patch user :: List.map upd others) as Hlist.
  { change (employees w') with (List.map upd (employees w)).
    rewrite filter_map_same by (intros r; cbn [matches]; rewrite Hkeep; reflexivity).
    rewrite Hfirst. cbn [List.map]. unfold upd at 1. rewrite Hmine. reflexivity. }
  assert (field (assign patch user) "password" = newPassword) as Hstored
    by apply field_assign_same.
  split.
  - pose proof (loginUser_run (field user "email") newPassword w') as Hlogin.
    cbn zeta in Hlogin. rewrite Hlogin. clear Hlogin.
    rewrite Hmail, Hnew, Hup, Hlist, Hstored. cbn [negb orb].
    rewrite (comparable_strict_eq newPassword Hcomp). reflexivity.
  - intros Hdiffer.
    pose proof (loginUser_run (field user "email") currentPassword w') as Hlogin.
    cbn zeta in Hlogin. rewrite Hlogin. clear Hlogin.
    rewrite Hmail, Hcur, Hup, Hlist, Hstored, Hdiffer. reflexivity.
Qed.

Lemma parsed_lists_list_column (emp : row) (k : string) :
  In k list_columns -> parsed_lists emp !! k = Some (VArr (safeJsonParse (field emp k))).
Proof.
  unfold parsed_lists. intros [<-|[<-|[<-|[]]]].
  - rewrite !lookup_insert_ne by discriminate. apply lookup_insert_eq.
  - rewrite lookup_insert_ne by discriminate. apply lookup_insert_eq.
  - apply lookup_insert_eq.
Qed.

Lemma parsed_lists_other_column (emp : row) (k : string) :
  ~ In k list_columns -> parsed_lists emp !! k = emp !! k.
Proof.
  unfold parsed_lists. intros Hk.
  rewrite !lookup_insert_ne; [reflexivity| | |]; intros <-; apply Hk; cbn; tauto.
Qed.

(** X24. What [getEmployeeById] answers: 500 exactly when the store fails,
    404 when no row carries the id, and otherwise the first such row with its
    three list columns parsed, each from the cell as stored, into an array
    without falsy entries, and every other column as stored. It writes
    nothing. *)
Theorem getEmployeeById_answers (empid : value) (w : world) :
  let outcome := getEmployeeById empid w in
  exists resp : answer,
    outcome.1.1 = Normal resp
    /\ employees outcome.1.2 = employees w
    /\ writes (effects outcome.2) = [] /\ inserts outcome.2 = []
    /\ (code resp = 500 <-> outage w (served w) = true)
    /\ (code resp = 404 <->
        outage w (served w) = false
        /\ List.filter (matches (Eq "empid" empid)) (employees w) = [])
    /\ (code resp <> 500 -> code resp <> 404 ->
        exists (emp : row) (others : list row) (shown : row),
          List.filter (matches (Eq "empid" empid)) (employees w) = emp :: others
          /\ code resp = 200 /\ json resp = Employee shown
          /\ (forall k : string, ~ In k list_columns -> shown !! k = emp !! k)
          /\ (forall k : string, In k list_columns ->
               exists items : list value,
                 shown !! k = Some (VArr items)
                 /\ items = safeJsonParse (field emp k)
                 /\ Forall (fun x => truthy x = true) items)).
Proof.
  cbn zeta. pose proof (getEmployeeById_run empid w) as Hrun. cbn zeta in Hrun.
  rewrite Hrun. clear Hrun.
  destruct (outage w (served w)) eqn:Hup.
  { answer_around; try tauto; intuition discriminate. }
  destruct (List.filter _ (employees w)) as [|emp others] eqn:Hfound.
  - answer_around; try tauto; intuition discriminate.
  - answer_around; try tauto; try (intuition discriminate).
    exists emp, others, (parsed_lists emp).
    split; [reflexivity|]. split; [reflexivity|]. split; [reflexivity|].
    split.
    + intros k Hk. apply parsed_lists_other_column. exact Hk.
    + intros k Hk. exists (safeJsonParse (field emp k)).
      split; [apply parsed_lists_list_column; exact Hk|].
      split; [reflexivity|]. apply safeJsonParse_truthy.
Qed.

Lemma copy_fields_absent (fields : list string) (body : row) (k : string) :
  body !! k = None -> forall p : row, copy_fields fields body p !! k = p !! k.
Proof.
  intros Hk. unfold copy_fields. induction fields as [|f fields IH]; intros p; [reflexivity|].
  cbn [fold_left]. rewrite IH.
  destruct (body !! f) as [v|] eqn:Hf; [|reflexivity].
  destruct (is_undefined v); [reflexivity|].
  apply lookup_insert_ne. intros ->. congruence.
Qed.

Lemma copy_list_field_absent (f k : string) (body p : row) :
  body !! k = None -> copy_list_field f body p !! k = p !! k.
Proof.
  intros Hk. unfold copy_list_field. destruct (body !! f) as [v|] eqn:Hf; [|reflexivity].
  destruct (normalizeListForStore v); [|reflexivity].
  apply lookup_insert_ne. intros ->. congruence.
Qed.

(** A column the request does not carry is not in the payload, the two
    columns the handler sets by itself apart. *)
Lemma build_absent (body : row) (k : string) :
  body !! k = None -> k <> "current_project" -> k <> "stars" ->
  build_updatePayload body !! k = None.
Proof.
  intros Hk Hc Hs. unfold build_updatePayload. cbn zeta.
  assert (copy_fields detailScalarFields body
            (copy_list_field "previous_projects" body
               (copy_list_field "interests" body
                  (copy_list_field "current_skills" body
                     (copy_fields profileFields body ∅)))) !! k = None) as Hr.
  { rewrite copy_fields_absent, !copy_list_field_absent, copy_fields_absent by exact Hk.
    apply lookup_empty. }
  assert (match body !! "noCurrentProject" with
          | Some flag =>
              if truthy flag
              then <[ "current_project" := VStr EmptyString ]>
                     (copy_fields detailScalarFields body
                        (copy_list_field "previous_projects" body
                           (copy_list_field "interests" body
                              (copy_list_field "current_skills" body
                                 (copy_fields profileFields body ∅)))))
              else copy_fields detailScalarFields body
                     (copy_list_field "previous_projects" body
                        (copy_list_field "interests" body
                           (copy_list_field "current_skills" body
                              (copy_fields profileFields body ∅))))
          | None => copy_fields detailScalarFields body
                      (copy_list_field "previous_projects" body
                         (copy_list_field "interests" body
                            (copy_list_field "current_skills" body
                               (copy_fields profileFields body ∅))))
          end !! k = None) as Hq.
  { destruct (body !! "noCurrentProject") as [flag|]; [|exact Hr].
    destruct (truthy flag); [|exact Hr].
    rewrite lookup_insert_ne by congruence. exact Hr. }
  destruct (negb (is_undefined (field body "stars"))); [|exact Hq].
  rewrite lookup_insert_ne by congruence. exact Hq.
Qed.

Lemma safeJsonParse_of_text (items : list value) (text : string) :
  String_trim text = text -> text <> EmptyString ->
  JSON_parse text = Some (VArr (filter_Boolean items)) ->
  safeJsonParse (VStr text) = filter_Boolean items.
Proof.
  intros Htrim Hne Hparse. unfold safeJsonParse. cbn zeta. rewrite Htrim.
  rewrite bool_decide_eq_false_2 by exact Hne.
  rewrite Hparse. apply filter_Boolean_idem.
Qed.

(** X25. A list written is the list read: after an [updateEmployee]
    answered 200 for a request that carries an array in a list column, and
    neither [stars] nor [empid], [getEmployeeById] for the same id returns
    the row with that array, its falsy entries dropped, in the column. The
    host prints the list as a JSON text it reads back. *)
Theorem updated_list_reads_back
    (empid : value) (body : row) (w w' : world) (resp : response) (t : list effect)
    (k : string) (items : list value) (text : string) :
  updateEmployee empid body w = (Normal resp, w', t) -> status resp = 200 ->
  is_undefined (field body "stars") = true -> body !! "empid" = None ->
  In k list_columns -> body !! k = Some (VArr items) ->
  text = JSON_stringify (VArr (filter_Boolean items)) ->
  String_trim text = text -> text <> EmptyString ->
  JSON_parse text = Some (VArr (filter_Boolean items)) ->
  outage w' (served w') = false ->
  exists shown : row,
    (getEmployeeById empid w').1.1 = Normal {| code := 200; json := Employee shown |}
    /\ shown !! k = Some (VArr (filter_Boolean items)).
Proof.
  intros Hrun Hok Hstars Hid Hk Hbody Htext Htrim Hne Hparse Hup.
  pose proof (updateEmployee_run empid body w) as Heq. cbn zeta in Heq.
  rewrite Hrun, Hstars in Heq. cbn [negb] in Heq.
  destruct (outage w (served w)); [injection Heq as -> _ _; discriminate Hok|].
  destruct (List.filter (matches (Eq "empid" empid)) (employees w))
    as [|existing others] eqn:Hfound; [injection Heq as -> _ _; discriminate Hok|].
  destruct (validate_availability (build_updatePayload body) existing) as [checked|] eqn:Hcheck;
    [|injection Heq as -> _ _; discriminate Hok].
  destruct (outage w (S (served w))); [injection Heq as -> _ _; discriminate Hok|].
  pose proof (f_equal (fun x => x.1.2) Heq) as Hw. cbn [fst snd] in Hw. subst w'.
  clear Heq Hrun.
  set (patch := <[ "updated_at" := VStr (toISOString (clock w + istOffset)) ]> checked) in *.
  assert (forall c : string, c <> "updated_at" -> ~ In c partial_columns ->
          patch !! c = build_updatePayload body !! c) as Hpatch.
  { intros c Hc Hp. unfold patch. rewrite lookup_insert_ne by congruence.
    apply (validate_availability_other _ _ _ c Hcheck Hp). }
  assert (patch !! "empid" = None) as Hnoid.
  { rewrite Hpatch; [|discriminate|cbn; intuition discriminate].
    apply build_absent; [exact Hid|discriminate|discriminate]. }
  assert (patch !! k = Some (VStr text)) as Hcell.
  { rewrite Hpatch.
    - rewrite (build_list_column body k Hk), Hbody. cbn. rewrite Htext. reflexivity.
    - intros ->. cbn in Hk. intuition discriminate.
    - intros Hp. cbn in Hk, Hp. intuition congruence. }
  pose proof (getEmployeeById_run empid
                (answered
                   (List.map (fun r => if matches (Eq "empid" empid) r then assign patch r else r)
                      (employees w)) (bump 1 w))) as Hread.
  cbn zeta in Hread. rewrite Hup in Hread. cbn [employees answered] in Hread.
  rewrite filter_map_update, Hfound in Hread.
  - rewrite Hread. cbn [fst List.map]. eexists. split; [reflexivity|].
    rewrite (parsed_lists_list_column _ k Hk).
    rewrite (field_assign_patched patch existing k (VStr text) Hcell).
    rewrite (safeJsonParse_of_text items text Htrim Hne Hparse). reflexivity.
  - intros r. cbn [matches]. unfold field, assign.
    rewrite lookup_union_r by exact Hnoid. reflexivity.
Qed.

Lemma filter_matches_All (table : list row) : List.filter (matches All) table = table.
Proof.
  induction table as [|r table IH]; [reflexivity|]. cbn [List.filter matches].
  rewrite IH. reflexivity.
Qed.

Lemma getAllEmployees_run (query : row) (w : world) :
  let sel := Effect (StoreSelect "*" All) in
  let search := or_empty (field query "search") in
  let availability := or_empty (field query "availability") in
  getAllEmployees query w
  = if outage w (served w)
    then (Normal {| code := 500; json := Message "Supabase fetch error" |}, bump 1 w,
          [sel; Notice (FetchEmployeesError StoreFailure)])
    else
      match filter_shown search availability (order_by_empid (employees w)) with
      | None =>
          (Normal {| code := 500; json := Message "Supabase fetch error" |}, bump 1 w,
           [sel; Notice (FetchEmployeesError TypeError)])
      | Some filtered =>
          (Normal {| code := 200; json := Employees (List.map parsed_lists filtered) |},
           bump 1 w, [sel])
      end.
Proof.
  cbn zeta. unfold getAllEmployees, attempt, mbind, handler_bind, lift, store_select.
  destruct (outage w (served w)); [reflexivity|].
  rewrite filter_matches_All.
  destruct (filter_shown _ _ _); reflexivity.
Qed.

Lemma filter_shown_sublist (search availability : value) (emps : list row) :
  forall filtered : list row,
    filter_shown search availability emps = Some filtered ->
    sublist filtered emps
    /\ (forall emp, In emp filtered -> shown search availability emp = Some true).
Proof.
  induction emps as [|emp rest IH]; intros filtered Hf; cbn [filter_shown] in Hf.
  - injection Hf as <-. split; [constructor|intros emp []].
  - destruct (shown search availability emp) as [keep|] eqn:Hkeep; [|discriminate Hf].
    destruct (filter_shown search availability rest) as [kept|]; [|discriminate Hf].
    destruct (IH kept eq_refl) as [Hsub Hall].
    injection Hf as <-. destruct keep.
    + split; [constructor; exact Hsub|]. intros e [<-|He]; [exact Hkeep|apply Hall, He].
    + split; [constructor; exact Hsub|exact Hall].
Qed.

Lemma filter_shown_everyone (search availability : value) (emps : list row) :
  truthy search = false ->
  truthy availability = false \/ availability = VStr "All" ->
  filter_shown search availability emps = Some emps.
Proof.
  intros Hsearch Hav. induction emps as [|emp rest IH]; [reflexivity|].
  cbn [filter_shown]. rewrite IH. unfold shown. rewrite Hsearch. cbn [negb].
  destruct Hav as [Hav| ->]; [rewrite Hav; reflexivity|].
  cbn. reflexivity.
Qed.

Lemma filter_shown_no_text (search availability : value) (emps : list row) :
  truthy search = true -> (forall s : string, search <> VStr s) ->
  filter_shown search availability emps = if emps is [] then Some [] else None.
Proof.
  intros Hsearch Hno. destruct emps as [|emp rest]; [reflexivity|].
  cbn [filter_shown]. unfold shown. rewrite Hsearch. cbn [negb].
  destruct search as [| |b|n|s|items|fields]; try reflexivity.
  exfalso. apply (Hno s). reflexivity.
Qed.

Lemma filter_shown_falsy_search (search availability : value) (emps : list row) :
  truthy search = false -> filter_shown search availability emps <> None.
Proof.
  intros Hsearch. induction emps as [|emp rest IH]; [discriminate|].
  cbn [filter_shown]. unfold shown. rewrite Hsearch. cbn [negb].
  destruct (filter_shown search availability rest); [discriminate|exact IH].
Qed.

(** X26. What [getAllEmployees] answers: 200 or 500, with the table as it
    was and nothing written. With 200 it lists rows of the store in the order
    the store gave them, each one passing the filter and with its list
    columns parsed; without a search text, and with no availability or with
    "All", nobody is left out. *)
Theorem getAllEmployees_answers (query : row) (w : world) :
  let outcome := getAllEmployees query w in
  let search := or_empty (field query "search") in
  let availability := or_empty (field query "availability") in
  exists resp : answer,
    outcome.1.1 = Normal resp
    /\ employees outcome.1.2 = employees w
    /\ writes (effects outcome.2) = [] /\ inserts outcome.2 = []
    /\ (code resp = 200 \/ code resp = 500)
    /\ (code resp = 200 ->
        exists filtered : list row,
          json resp = Employees (List.map parsed_lists filtered)
          /\ sublist filtered (order_by_empid (employees w))
          /\ (forall emp, In emp filtered -> shown search availability emp = Some true)
          /\ (truthy search = false ->
              truthy availability = false \/ availability = VStr "All" ->
              filtered = order_by_empid (employees w)))
    /\ (outage w (served w) = false -> truthy search = false -> code resp = 200).
Proof.
  cbn zeta. pose proof (getAllEmployees_run query w) as Hrun. cbn zeta in Hrun.
  rewrite Hrun. clear Hrun.
  destruct (outage w (served w)) eqn:Hup.
  { answer_around; try tauto; intuition discriminate. }
  destruct (filter_shown _ _ (order_by_empid (employees w))) as [filtered|] eqn:Hf.
  - answer_around; try tauto.
    destruct (filter_shown_sublist _ _ _ _ Hf) as [Hsub Hall].
    exists filtered. split; [reflexivity|]. split; [exact Hsub|]. split; [exact Hall|].
    intros Hsearch Hav.
    rewrite (filter_shown_everyone _ _ _ Hsearch Hav) in Hf. congruence.
  - answer_around; try tauto; try (intuition discriminate).
    match goal with Hs : truthy _ = false |- _ =>
      exfalso; exact (filter_shown_falsy_search _ _ _ Hs Hf) end.
Qed.

(** X27. A search that is given but is no string (the same parameter twice
    in the query makes it an array) breaks the listing: the answer is 500,
    with the TypeError on the console, as soon as the store returns a row, and
    200 with an empty list when it returns none. *)
Theorem search_that_is_no_text_breaks_the_listing (query : row) (w : world) :
  truthy (field query "search") = true ->
  (forall s : string, field query "search" <> VStr s) ->
  outage w (served w) = false ->
  (order_by_empid (employees w) <> [] ->
   (getAllEmployees query w).1.1
   = Normal {| code := 500; json := Message "Supabase fetch error" |}
   /\ notices (getAllEmployees query w).2 = [FetchEmployeesError TypeError])
  /\ (order_by_empid (employees w) = [] ->
      (getAllEmployees query w).1.1 = Normal {| code := 200; json := Employees [] |}).
Proof.
  intros Htruthy Hno Hup.
  pose proof (getAllEmployees_run query w) as Hrun. cbn zeta in Hrun.
  rewrite Hrun, Hup. clear Hrun.
  assert (or_empty (field query "search") = field query "search") as ->.
  { unfold or_empty. destruct (field query "search"); try reflexivity. discriminate Htruthy. }
  rewrite (filter_shown_no_text _ _ _ Htruthy Hno).
  destruct (order_by_empid (employees w)) as [|emp rest].
  - split; [intros Hne; exfalso; apply Hne; reflexivity|]. intros _. reflexivity.
  - split; [|discriminate]. intros _. split; reflexivity.
Qed.

End AroundFacts.

(** * The working days of the dashboard *)

Section DashboardFacts.
Import Dashboard.

Lemma getDay_range (day : Z) : 0 <= getDay day < 7.
Proof. unfold getDay. apply Z.mod_pos_bound. lia. Qed.

Lemma getDay_next (day : Z) : getDay (day + 1) = (getDay day + 1) mod 7.
Proof.
  unfold getDay. replace (day + 1 + 4) with (day + 4 + 1) by lia.
  rewrite Zplus_mod_idemp_l. reflexivity.
Qed.

(** The loop from a day that is [left] days before the next Sunday. *)
Lemma weekly_loop_until_sunday (left : nat) :
  forall (rounds : nat) (current workingDays : Z),
    (left <= 6)%nat -> (left < rounds)%nat ->
    getDay current = (7 - Z.of_nat left) mod 7 ->
    weekly_loop rounds current workingDays
    = workingDays + (if getDay current =? 0 then 0 else 6 - getDay current).
Proof.
  induction left as [|left IH]; intros rounds current workingDays Hsix Hrounds Hday.
  - destruct rounds as [|rounds]; [lia|]. cbn [weekly_loop].
    change ((7 - Z.of_nat 0) mod 7) with 0 in Hday. rewrite Hday. cbn. lia.
  - destruct rounds as [|rounds]; [lia|]. cbn [weekly_loop].
    assert (getDay current = 6 - Z.of_nat left) as Hd.
    { rewrite Hday. rewrite Z.mod_small by lia. lia. }
    assert (getDay (current + 1) = (7 - Z.of_nat left) mod 7) as Hnext.
    { rewrite getDay_next, Hd. f_equal. lia. }
    rewrite (IH rounds (current + 1)) by (try lia; exact Hnext).
    rewrite getDay_next.
    remember (getDay current) as k eqn:Hk.
    assert (k = 1 \/ k = 2 \/ k = 3 \/ k = 4 \/ k = 5 \/ k = 6) as Hcases by lia.
    destruct Hcases as [->|[->|[->|[->|[->| ->]]]]]; cbn;
      match goal with
      | |- context [(?a + 1) mod 7] =>
          let v := eval vm_compute in ((a + 1) mod 7) in change ((a + 1) mod 7) with v
      end; cbn; lia.
Qed.

Lemma other_range_counts_one (rangeType : string) (now : Z) :
  ~ In rangeType [EmptyString; "All"; "Daily"; "Weekly"; "Monthly"] ->
  getWorkingDaysCount rangeType now = 1.
Proof.
  intros Hno. unfold getWorkingDaysCount. cbn zeta.
  rewrite !bool_decide_eq_false_2; [reflexivity| | | | |];
    intros ->; apply Hno; cbn; tauto.
Qed.

(** X28. The count of "Weekly" in closed form: nothing on a Sunday, and on
    any other day the days up to the Friday of the week, today included. The
    loop always ends on its Sunday: seven rounds or more give the same count as
    the eight of the code, so the bound is never what ends it. *)
Theorem weekly_count_runs_to_friday (now : Z) (rounds : nat) :
  (7 <= rounds)%nat ->
  weekly_loop rounds now 0 = getWorkingDaysCount "Weekly" now
  /\ getWorkingDaysCount "Weekly" now
     = (if getDay now =? 0 then 0 else 6 - getDay now).
Proof.
  intros Hrounds. pose proof (getDay_range now) as Hrange.
  assert (forall n : nat, (7 <= n)%nat ->
          weekly_loop n now 0 = (if getDay now =? 0 then 0 else 6 - getDay now)) as Hloop.
  { intros n Hn. destruct (getDay now =? 0) eqn:Hzero.
    - apply Z.eqb_eq in Hzero.
      rewrite (weekly_loop_until_sunday 0 n now 0) by (try lia; rewrite Hzero; reflexivity).
      rewrite Hzero. reflexivity.
    - apply Z.eqb_neq in Hzero.
      rewrite (weekly_loop_until_sunday (Z.to_nat (7 - getDay now)) n now 0).
      + destruct (getDay now =? 0) eqn:Hz; [apply Z.eqb_eq in Hz; lia|]. lia.
      + lia.
      + lia.
      + rewrite Z2Nat.id by lia. replace (7 - (7 - getDay now)) with (getDay now) by lia.
        symmetry. apply Z.mod_small. lia. }
  change (getWorkingDaysCount "Weekly" now) with (weekly_loop 8 now 0).
  rewrite (Hloop rounds Hrounds), (Hloop 8%nat) by lia. split; reflexivity.
Qed.

(** X29. A day of the week-end counts for nothing in either range: the
    counts of "Daily" and of "Weekly" are zero on the same days, Saturday and
    Sunday; on the other days "Daily" counts one, and "Weekly" from one to
    five. A range that is none of the five known ones counts one. *)
Theorem weekend_counts_for_nothing (now : Z) :
  (getWorkingDaysCount "Daily" now = 0 <-> getDay now = 0 \/ getDay now = 6)
  /\ (getWorkingDaysCount "Weekly" now = 0 <-> getDay now = 0 \/ getDay now = 6)
  /\ 0 <= getWorkingDaysCount "Daily" now <= 1
  /\ getWorkingDaysCount "Daily" now <= getWorkingDaysCount "Weekly" now <= 5
  /\ getWorkingDaysCount EmptyString now = getWorkingDaysCount "Daily" now
  /\ getWorkingDaysCount "All" now = getWorkingDaysCount "Daily" now
  /\ (forall rangeType : string,
        ~ In rangeType [EmptyString; "All"; "Daily"; "Weekly"; "Monthly"] ->
        getWorkingDaysCount rangeType now = 1).
Proof.
  pose proof (getDay_range now) as Hrange.
  assert (getWorkingDaysCount "Weekly" now
          = (if getDay now =? 0 then 0 else 6 - getDay now)) as Hweekly.
  { change (getWorkingDaysCount "Weekly" now) with (weekly_loop 8 now 0).
    destruct (getDay now =? 0) eqn:Hzero.
    - apply Z.eqb_eq in Hzero.
      rewrite (weekly_loop_until_sunday 0 8 now 0) by (try lia; rewrite Hzero; reflexivity).
      rewrite Hzero. reflexivity.
    - apply Z.eqb_neq in Hzero.
      rewrite (weekly_loop_until_sunday (Z.to_nat (7 - getDay now)) 8 now 0).
      + destruct (getDay now =? 0) eqn:Hz; [apply Z.eqb_eq in Hz; lia|]. lia.
      + lia.
      + lia.
      + rewrite Z2Nat.id by lia. replace (7 - (7 - getDay now)) with (getDay now) by lia.
        symmetry. apply Z.mod_small. lia. }
  assert (getWorkingDaysCount "Daily" now
          = (if (getDay now =? 0) || (getDay now =? 6) then 0 else 1)) as Hdaily
    by reflexivity.
  assert (getWorkingDaysCount EmptyString now = getWorkingDaysCount "Daily" now) as Hnone
    by reflexivity.
  assert (getWorkingDaysCount "All" now = getWorkingDaysCount "Daily" now) as Hall
    by reflexivity.
  rewrite Hnone, Hall, Hweekly, Hdaily.
  split; [|split; [|split; [|split; [|split; [|split]]]]];
    try reflexivity; try (intros rangeType Hno; apply other_range_counts_one; exact Hno);
    destruct (Z.eqb_spec (getDay now) 0) as [Hzero|Hzero];
    destruct (Z.eqb_spec (getDay now) 6) as [Hsix|Hsix]; cbn [orb]; lia.
Qed.

End DashboardFacts.

(** * The handlers on the sample worlds *)

(** The response of a run named by [Hrun], by evaluation. *)
Ltac response_of Hrun :=
  let Hr := fresh "Hr" in
  pose proof (f_equal (fun x => x.1.1) Hrun) as Hr;
  cbn [fst snd] in Hr; rewrite <- Hr; vm_compute; reflexivity.

(** A closed equation of a run, by evaluation of its two sides. *)
Ltac by_eval := match goal with |- ?a = ?b => exact (@eq_refl _ a <: a = b) end.

Section Runs.
Import Sample.
#[local] Existing Instance SampleHost.host.

(** The scenario of the specification: on 2024-03-01 the scan reminds E1 and
    E4; E2 is a manager, E3 was updated one second after the cutoff, and E7,
    whose details are as old as those of E1, logged in five days after the
    cutoff. *)
Lemma reminder_iff_login_and_update_stale_witness :
  feb15 = fifteen_days_before (clock office_with_E7)
  /\ Date_parse (toISOString feb15) = Some feb15
  /\ outage office_with_E7 (served office_with_E7) = false
  /\ dispatched (inactivityCheck office_with_E7).2 = [VStr "E1"; VStr "E4"]
  /\ inactive (Some feb15) E3 = false
  /\ (cell_instant (field E7 "last_login") feb20 /\ feb15 <= feb20
      /\ date_lt (lastUpdate E7) (Some feb15) = true
      /\ inactive (Some feb15) E7 = false).
Proof.
  assert (cell_instant (field E7 "last_login") feb20) as Hback.
  { right. exists "2024-02-20T00:00:00.000Z".
    split; [by_eval|split; [discriminate|by_eval]]. }
  assert (cell_instant (field E3 "updated_at") (feb15 + 1000)) as Htouched.
  { right. exists "2024-02-15T00:00:01.000Z".
    split; [by_eval|split; [discriminate|by_eval]]. }
  assert (feb15 <= feb20) as Hfresh by (unfold feb15, feb20; lia).
  destruct (reminder_iff_login_and_update_stale office_with_E7 feb15)
    as (Hsent & _ & _ & _ & _ & _ & _ & Hlogin & Hupdate & _);
    [by_eval|by_eval|by_eval|].
  split; [by_eval|split; [by_eval|split; [by_eval|split; [|split]]]].
  - rewrite Hsent. by_eval.
  - apply (Hupdate E3 (feb15 + 1000) Htouched). lia.
  - split; [exact Hback|split; [exact Hfresh|split; [by_eval|]]].
    apply (Hlogin E7 feb20 Hback Hfresh).
Defined.

Lemma register_twice_stores_once_witness :
  (subscribe register_sub2 (subscribe register_sub2 office).1.2).1.1 = Normal subscribed
  /\ writes (subscribe register_sub2 (subscribe register_sub2 office).1.2).2 = []
  /\ List.map stored_list
       (List.filter (matches (Eq "empid" (VStr "E1")))
          (employees (subscribe register_sub2 (subscribe register_sub2 office).1.2).1.2))
     = [Some [sub1; sub2]].
Proof.
  assert (unique_endpoints [sub1]) as Huniq.
  { intros i j a b Hi Hj _.
    apply list_lookup_singleton_Some in Hi as [-> _], Hj as [-> _]. reflexivity. }
  destruct (register_twice_stores_once office register_sub2 E1 [sub1]
              "https://push.example/2")
    as (_ & Hsecond & _ & _);
    [reflexivity|reflexivity|reflexivity|intros n; reflexivity
    |vm_compute; reflexivity|vm_compute; reflexivity
    |repeat constructor; discriminate|exact Huniq|].
  rewrite Hsecond. split; [reflexivity|split; [reflexivity|vm_compute; reflexivity]].
Defined.

Lemma managers_never_targeted_witness :
  exists emp : row,
    In emp staff /\ field emp "role_type" <> VStr "Manager" /\ In sub3 (broadcast_subs emp).
Proof.
  destruct (managers_never_targeted office note) as (Hcast & _).
  apply (Hcast sub3 (with_defaults note)). vm_compute. tauto.
Defined.

(** C4 fails as stated: called with the role IC, the broadcast reaches the
    IC and leaves the Manager out, where the claim has it the other way
    round. *)
Lemma broadcast_excludes_managers_whatever_the_role :
  pushes (broadcastNotification (VStr "IC") note ic_and_manager).2
  = [(sub1, with_defaults note)]
  /\ pushes (broadcastNotification (VStr "IC") note ic_and_manager).2
     <> broadcast_sends note
          (List.filter (fun emp => negb (strict_eq (field emp "role_type") (VStr "IC")))
             (employees ic_and_manager)).
Proof. split; [vm_compute; reflexivity|vm_compute; discriminate]. Qed.

Lemma broadcast_reaches_non_managers_witness :
  outage ic_and_manager (served ic_and_manager) = false
  /\ pushes (broadcastNotification (VStr "IC") note ic_and_manager).2
     = [(sub1, with_defaults note)].
Proof.
  split; [reflexivity|].
  destruct (broadcast_reaches_non_managers ic_and_manager (VStr "IC") note)
    as (Hsent & _); [reflexivity|].
  rewrite Hsent. vm_compute. reflexivity.
Defined.

(** One of the three subscriptions of E3 is rejected by the push service;
    the three sends are issued all the same. *)
Lemma failed_send_does_not_stop_the_others_witness :
  transport office_flaky_push sub1 = Some (PushFailure (Some 500))
  /\ (sendNotificationToUser (VStr "E3") note office_flaky_push).1.1 = Normal tt
  /\ pushes (sendNotificationToUser (VStr "E3") note office_flaky_push).2
     = [(sub3, with_defaults note); (sub1, with_defaults note); (sub2, with_defaults note)].
Proof.
  split; [reflexivity|].
  destruct (failed_send_does_not_stop_the_others office_flaky_push (VStr "E3")
              (VStr "IC") note E3 [sub3; sub1; sub2])
    as ((Hret & Hsent) & _); [reflexivity|vm_compute; reflexivity|vm_compute; reflexivity|].
  split; [exact Hret|exact Hsent].
Defined.

Lemma dispatch_to_nobody_is_silent_witness :
  sendNotificationToUser (VStr "unknown_id") note office
  = (Normal tt, bump 1 office, [subscriptions_lookup (VStr "unknown_id")]).
Proof.
  apply dispatch_to_nobody_is_silent. right. left. vm_compute. reflexivity.
Defined.

Lemma subscribe_rejects_text_cell_that_is_no_list_witness :
  JSON_parse (SampleHost.print_json sub1) = Some sub1
  /\ subscribe register_E5 only_E5
     = (Normal subscription_failed, bump 1 only_E5,
        [subscriptions_lookup (VStr "E5"); Console (SubscriptionError TypeError)]).
Proof.
  split; [vm_compute; reflexivity|].
  apply (subscribe_rejects_text_cell_that_is_no_list register_E5 only_E5 E5
           (SampleHost.print_json sub1) sub1);
    try (vm_compute; reflexivity).
  vm_compute. discriminate.
Defined.

Lemma fetch_failure_aborts_run_witness :
  outage office_store_down (served office_store_down) = true
  /\ pushes (inactivityCheck office_store_down).2 = []
  /\ (inactivityCheck office_store_down).1.1 = Normal tt.
Proof.
  split; [reflexivity|].
  rewrite (fetch_failure_aborts_run office_store_down) by reflexivity.
  split; reflexivity.
Defined.

(** C9 fails as stated: a successful update of the stars alone, through
    either handler, writes the stars and leaves [updated_at] as it was. *)
Lemma stars_update_leaves_updated_at :
  ((updateEmployee (VStr "E1") five_stars only_E1).1.1 = Normal star_updated
   /\ writes (updateEmployee (VStr "E1") five_stars only_E1).2
      = [(five_stars, Eq "empid" (VStr "E1"))]
   /\ List.map (fun r => (field r "stars", field r "updated_at"))
        (employees (updateEmployee (VStr "E1") five_stars only_E1).1.2)
      = [(VNum 5, VStr "2024-02-05T00:00:00.000Z")])
  /\ ((updateEmployeeStars (VStr "E1") five_stars only_E1).1.1
      = Normal {| status := 200; body := "Stars updated successfully" |}
      /\ writes (updateEmployeeStars (VStr "E1") five_stars only_E1).2
         = [(five_stars, Eq "empid" (VStr "E1"))]
      /\ List.map (fun r => (field r "stars", field r "updated_at"))
           (employees (updateEmployeeStars (VStr "E1") five_stars only_E1).1.2)
         = [(VNum 5, VStr "2024-02-05T00:00:00.000Z")]).
Proof. repeat split; vm_compute; reflexivity. Qed.

Lemma login_and_update_refresh_timestamps_witness :
  (exists patch : row,
      patch !! "updated_at" = Some (VStr "2024-03-01T05:30:00.000Z")
      /\ In (StoreUpdate patch (Eq "empid" (VStr "E1")))
           (updateEmployee (VStr "E1") now_available office).2)
  /\ In (StoreUpdate {[ "last_login" := VStr "2024-03-01T00:00:00.000Z" ]}
           (Eq "empid" (VStr "E1")))
        (loginUser (VStr "e1@example.com") (VStr "pw1") office).2.
Proof.
  destruct (login_and_update_refresh_timestamps office) as (Hlogin & Hupdate & _).
  split.
  - destruct (updateEmployee (VStr "E1") now_available office) as [[r w'] t] eqn:Hrun.
    assert (r = Normal employee_updated) as ->
      by response_of Hrun.
    destruct (Hupdate _ _ _ _ _ Hrun) as (patch & Hat & Hin & _); [reflexivity..|].
    exists patch. split; [exact Hat|exact Hin].
  - destruct (loginUser (VStr "e1@example.com") (VStr "pw1") office) as [[r w'] t] eqn:Hrun.
    assert (r = Normal logged_in) as ->
      by response_of Hrun.
    destruct (Hlogin _ _ _ _ _ Hrun) as (user & Hin & Hmail & _ & Hwrite & _); [reflexivity|].
    assert (user = E1) as ->.
    { assert (List.filter (matches (Eq "email" (VStr "e1@example.com"))) staff = [E1]) as Hone
        by (vm_compute; reflexivity).
      apply (filter_singleton _ _ _ _ Hone Hin Hmail). }
    exact Hwrite.
Defined.

Lemma updated_at_runs_five_and_a_half_hours_ahead_witness :
  toISOString (march1 + 19800000) = "2024-03-01T05:30:00.000Z"
  /\ exists patch : row,
       employees (updateEmployee (VStr "E1") now_available office).1.2
       = List.map (fun r => if matches (Eq "empid" (VStr "E1")) r then assign patch r else r)
           staff
       /\ lastUpdate (assign patch E1) = Some (march1 + 19800000).
Proof.
  split; [vm_compute; reflexivity|].
  destruct (updateEmployee (VStr "E1") now_available office) as [[r w'] t] eqn:Hrun.
  assert (r = Normal employee_updated) as ->
    by response_of Hrun.
  destruct (updated_at_runs_five_and_a_half_hours_ahead _ _ _ _ _ _ Hrun)
    as ((patch & Htable & Hat) & Hread);
    [reflexivity|reflexivity|vm_compute; reflexivity|vm_compute; discriminate|].
  exists patch. split; [exact Htable|].
  apply (Hread (assign patch E1)), Hat.
Defined.

End Runs.

(** * Further runs on the sample worlds *)

Import Sample MoreSample Dashboard.
#[local] Existing Instance SampleHost.host.
#[local] Existing Instance MoreSample.reading.

(** The push service answers 410 for the one subscription of E1. *)
Lemma expired_subscription_is_logged_and_kept_witness :
  transport office_gone_push sub1 = Some (PushFailure (Some 410))
  /\ In (Console (SubscriptionExpired (VStr "E1")))
       (sendNotificationToUser (VStr "E1") note office_gone_push).2
  /\ employees (sendNotificationToUser (VStr "E1") note office_gone_push).1.2
     = employees office_gone_push.
Proof.
  split; [by_eval|].
  destruct (expired_subscription_is_logged_and_kept office_gone_push (VStr "E1") note E1
              sub1 410) as (Hlog & Hkept & _);
    [by_eval|by_eval| |by_eval|left; reflexivity|by_eval|].
  - replace (dispatch_subs E1) with [sub1] by by_eval. left. reflexivity.
  - split; [exact Hlog|exact Hkept].
Defined.

(** The cell of E4 is [null]. *)
Lemma subscribe_replaces_unreadable_cell_witness :
  field E4 "push_subscriptions" = VNull
  /\ (subscribe register_E4 office).1.1 = Normal subscribed
  /\ writes (subscribe register_E4 office).2
     = [({[ "push_subscriptions" := VArr [sub2] ]}, Eq "empid" (VStr "E4"))].
Proof.
  split; [by_eval|].
  pose proof (subscribe_replaces_unreadable_cell register_E4 office E4) as Hrun.
  cbn zeta in Hrun. rewrite Hrun.
  - split; reflexivity.
  - by_eval.
  - by_eval.
  - by_eval.
  - by_eval.
  - by_eval.
  - left. by_eval.
Defined.

(** The store rejects the write of [last_login]; E1 is logged in. *)
Lemma login_succeeds_without_last_login_witness :
  outage office_third_down 2%nat = true
  /\ (loginUser (VStr "e1@example.com") (VStr "pw1") office_third_down).1.1
     = Normal logged_in
  /\ employees (loginUser (VStr "e1@example.com") (VStr "pw1") office_third_down).1.2
     = employees office_third_down.
Proof.
  split; [by_eval|].
  destruct (login_succeeds_without_last_login (VStr "e1@example.com") (VStr "pw1")
              office_third_down E1 []) as (Hok & Hkept & _);
    [by_eval|by_eval|by_eval|by_eval|by_eval|by_eval|].
  split; [exact Hok|exact Hkept].
Defined.

Lemma updateEmployee_writes_listed_columns_only_witness :
  writes (updateEmployee (VStr "E1") now_available office).2
  = [(available_patch, Eq "empid" (VStr "E1"))]
  /\ keys_within writable_columns available_patch.
Proof.
  assert (writes (updateEmployee (VStr "E1") now_available office).2
          = [(available_patch, Eq "empid" (VStr "E1"))]) as Hwrites by by_eval.
  split; [exact Hwrites|].
  destruct (updateEmployee_writes_listed_columns_only (VStr "E1") now_available office
              available_patch (Eq "empid" (VStr "E1"))) as (_ & Hkeys & _);
    [rewrite Hwrites; left; reflexivity|exact Hkeys].
Defined.

(** With the stars in it, a body that would not pass the validation has the
    effect of the stars alone. *)
Lemma stars_shortcut_ignores_the_rest_witness :
  updateEmployee (VStr "E1") stars_and_more office
  = updateEmployee (VStr "E1") five_stars office.
Proof.
  destruct (stars_shortcut_ignores_the_rest (VStr "E1") five_stars stars_and_more office)
    as (Hsame & _); [by_eval|by_eval|exact Hsame].
Defined.

(** E6 is set to Available: its hours and dates are cleared. *)
Lemma availability_update_leaves_row_consistent_witness :
  employees (updateEmployee (VStr "E6") now_available bench).1.2
  = [assign released_patch E6]
  /\ Forall (fun c => truthy (field (assign released_patch E6) c) = false) partial_columns.
Proof.
  assert (employees (updateEmployee (VStr "E6") now_available bench).1.2
          = [assign released_patch E6]) as Hleft by by_eval.
  split; [exact Hleft|].
  destruct (availability_update_leaves_row_consistent (VStr "E6") now_available bench
              (updateEmployee (VStr "E6") now_available bench).1.2 employee_updated
              (updateEmployee (VStr "E6") now_available bench).2 E6 []
              "availability" (VStr "Available"))
    as (patch & Htable & _ & Hfree);
    [by_eval|by_eval|by_eval|by_eval|left; reflexivity|by_eval|by_eval|].
  rewrite Hleft in Htable.
  assert (List.map
            (fun r => if matches (Eq "empid" (VStr "E6")) r then assign patch r else r)
            (employees bench) = [assign patch E6]) as Hright.
  { change (employees bench) with [E6]. cbn [List.map].
    replace (matches (Eq "empid" (VStr "E6")) E6) with true by by_eval. reflexivity. }
  rewrite Hright in Htable. injection Htable as Hrow. rewrite Hrow. apply Hfree.
  rewrite <- Hrow.
  replace (field (assign released_patch E6) "availability") with (VStr "Available")
    by by_eval.
  discriminate.
Defined.

Lemma list_columns_are_written_as_json_text_witness :
  writes (updateEmployee (VStr "E1") new_skills office).2
  = [(skills_patch, Eq "empid" (VStr "E1"))]
  /\ exists items : list value,
       skills_text = JSON_stringify (VArr items)
       /\ Forall (fun x => truthy x = true) items.
Proof.
  assert (writes (updateEmployee (VStr "E1") new_skills office).2
          = [(skills_patch, Eq "empid" (VStr "E1"))]) as Hwrites by by_eval.
  split; [exact Hwrites|].
  destruct (list_columns_are_written_as_json_text (VStr "E1") new_skills office skills_patch
              (Eq "empid" (VStr "E1")) "current_skills" (VStr skills_text))
    as (v & items & Hbody & _ & _ & Htext & Hitems);
    [rewrite Hwrites; left; reflexivity|left; reflexivity|by_eval|].
  exists items. split; [congruence|]. apply Hitems. left.
  replace (new_skills !! "current_skills") with (Some (VArr skills)) in Hbody by by_eval.
  injection Hbody as <-. reflexivity.
Defined.

Lemma stored_array_reads_back_witness :
  normalizeListForStore (VArr skills) = Some (VStr skills_text)
  /\ safeJsonParse (VStr skills_text) = filter_Boolean skills.
Proof.
  destruct (stored_array_reads_back skills skills_text) as (Hstore & Hread & _);
    [by_eval|by_eval|vm_compute; discriminate|by_eval|].
  split; [exact Hstore|exact Hread].
Defined.

(** On 2024-03-11 the scan would remind E1, last seen on 2024-02-10; after
    the login of 2024-03-01 it does not. *)
Lemma fresh_login_keeps_the_reminder_away_witness :
  dispatched (inactivityCheck (at_clock march11 office)).2
  = [VStr "E1"; VStr "E3"; VStr "E4"]
  /\ ~ In (field E1 "empid")
        (dispatched
           (inactivityCheck
              (at_clock march11
                 (loginUser (VStr "e1@example.com") (VStr "pw1") office).1.2)).2).
Proof.
  split; [by_eval|].
  apply (fresh_login_keeps_the_reminder_away (VStr "e1@example.com") (VStr "pw1") office
           E1 [] march11); try by_eval; vm_compute; discriminate.
Defined.


Lemma signup_then_login_witness :
  (signupUser (VStr "nia@example.com") (VStr "secret") (VStr "Nia") office).1.1
  = Normal {| code := 200; json := Message "Account created successfully" |}
  /\ (loginUser (VStr "nia@example.com") (VStr "secret")
        (signupUser (VStr "nia@example.com") (VStr "secret") (VStr "Nia") office).1.2).1.1
     = Normal logged_in.
Proof.
  assert ((signupUser (VStr "nia@example.com") (VStr "secret") (VStr "Nia") office).1.1
          = Normal {| code := 200; json := Message "Account created successfully" |})
    as Hsigned by by_eval.
  split; [exact Hsigned|].
  pose proof (signup_then_login (VStr "nia@example.com") (VStr "secret") (VStr "Nia") office
                _ Hsigned) as Hlogin.
  cbn zeta in Hlogin.
  destruct Hlogin as [Hlogin _]; [by_eval|by_eval|by_eval|by_eval|exact Hlogin].
Defined.

(** A wrong guess at the password of E1 puts the stored password on the
    console. *)
Lemma password_check_logs_both_passwords_witness :
  field E1 "password" = VStr "pw1"
  /\ notices (updatePassword (VStr "E1") (VStr "guess") (VStr "pw9") office).2
     = [PasswordVerifying (field E1 "password") (VStr "guess"); PasswordMismatch].
Proof.
  split; [by_eval|].
  destruct (password_check_logs_both_passwords (VStr "E1") (VStr "guess") (VStr "pw9")
              office E1) as [_ Hlog]; [by_eval|by_eval|by_eval|by_eval|by_eval|].
  destruct Hlog as [Hnotices _]; [by_eval|exact Hnotices].
Defined.

Lemma changed_password_is_the_one_that_logs_in_witness :
  (loginUser (field E1 "email") (VStr "pw9")
     (updatePassword (VStr "E1") (VStr "pw1") (VStr "pw9") office).1.2).1.1
  = Normal logged_in
  /\ (loginUser (field E1 "email") (VStr "pw1")
        (updatePassword (VStr "E1") (VStr "pw1") (VStr "pw9") office).1.2).1.1
     = Normal {| status := 401; body := "Invalid credentials" |}.
Proof.
  pose proof (changed_password_is_the_one_that_logs_in (VStr "E1") (VStr "pw1") (VStr "pw9")
                office {| code := 200; json := Message "Password updated successfully" |}
                E1 []) as Hlogin.
  cbn zeta in Hlogin.
  destruct Hlogin as [Hnew Hold]; [by_eval|by_eval| |by_eval|by_eval|by_eval|by_eval|].
  - replace (List.filter (matches (Eq "empid" (VStr "E1"))) (employees office)) with [E1]
      by by_eval.
    left. reflexivity.
  - split; [exact Hnew|]. apply Hold. by_eval.
Defined.

Lemma updated_list_reads_back_witness :
  exists shown : row,
    (getEmployeeById (VStr "E1") (updateEmployee (VStr "E1") new_skills office).1.2).1.1
    = Normal {| code := 200; json := Employee shown |}
    /\ shown !! "current_skills" = Some (VArr (filter_Boolean skills)).
Proof.
  apply (updated_list_reads_back (VStr "E1") new_skills office
           (updateEmployee (VStr "E1") new_skills office).1.2 employee_updated
           (updateEmployee (VStr "E1") new_skills office).2
           "current_skills" skills skills_text);
    try by_eval; [left; reflexivity|vm_compute; discriminate].
Defined.

(** [?search=a&search=b] *)
Lemma search_that_is_no_text_breaks_the_listing_witness :
  (getAllEmployees two_searches office).1.1
  = Normal {| code := 500; json := Message "Supabase fetch error" |}.
Proof.
  destruct (search_that_is_no_text_breaks_the_listing two_searches office)
    as [Hbreak _]; [by_eval| |by_eval|].
  - intros s Heq.
    replace (field two_searches "search") with (VArr [VStr "a"; VStr "b"]) in Heq
      by by_eval.
    discriminate Heq.
  - destruct Hbreak as [Hfail _]; [|exact Hfail].
    intros Hnone. apply (f_equal length) in Hnone.
    replace (length (order_by_empid (employees office))) with 4%nat in Hnone by by_eval.
    discriminate Hnone.
Defined.

(** 2024-03-01 is a Friday: one working day is left of the week. *)
Lemma weekly_count_runs_to_friday_witness :
  getDay march1_day = 5 /\ weekly_loop 7 march1_day 0 = 1.
Proof.
  split; [by_eval|].
  destruct (weekly_count_runs_to_friday march1_day 7) as [Hsame Hclosed]; [lia|].
  rewrite Hsame, Hclosed. by_eval.
Defined.
